(** * The research pipeline of [final_production.py]

    A shallow embedding of the four-stage pipeline (Research, Analysis,
    Innovation, Environment) and of its orchestrator.

    Conventions of the embedding.
    - Python floats are the rationals they denote ([Q]); equality of
      scores is [Qeq].  [round(x, 2)] is rounding to the nearest hundredth,
      ties to the even hundredth.
    - Python text is a [string] whose characters are code points below 256.
    - A dict that the code uses as a struct is a record; a key that may be
      missing is an [option] field, and [d.get(k, default)] is [get_or].
      The [stages] mapping, whose insertion order is observable, is an
      association list.
    - Everything outside the process (clock, arXiv, feeds, GitHub, the
      language backend, standard output, the database engine) is reached
      through the operations of a [Host]: state transformers on an abstract
      world, fallible wherever the Python call can raise.
    - Logging calls change no value that the functions return and are left
      out. *)

From Stdlib Require Import ZArith QArith Qminmax Qround Lqa Lia.
From Stdlib Require Import List String Ascii Bool Arith DecimalString.
From Stdlib Require DecimalZ DecimalPos.
Import ListNotations.
Open Scope string_scope.
Open Scope nat_scope.

Set Implicit Arguments.

(** ** Text *)

Module Text.

Definition code (c : ascii) : nat := nat_of_ascii c.

(** [str.isspace] on code points below 256. *)
Definition is_space (c : ascii) : bool :=
  let n := code c in
  ((9 <=? n) && (n <=? 13)) || ((28 <=? n) && (n <=? 32))
  || (n =? 133) || (n =? 160).

(** [str.lower] on one code point below 256. *)
Definition lower_char (c : ascii) : ascii :=
  let n := code c in
  if ((65 <=? n) && (n <=? 90))
     || ((192 <=? n) && (n <=? 222) && negb (n =? 215))
  then ascii_of_nat (n + 32) else c.

Fixpoint lower (s : string) : string :=
  match s with
  | EmptyString => EmptyString
  | String c s' => String (lower_char c) (lower s')
  end.

(** [needle in hay]. *)
Fixpoint contains (needle hay : string) : bool :=
  prefix needle hay
  || match hay with
     | EmptyString => false
     | String _ hay' => contains needle hay'
     end.

(** [s.split()]: the maximal runs of characters that are not white space;
    [cur] is the run being read. *)
Fixpoint split_from (cur s : string) : list string :=
  match s with
  | EmptyString => if (length cur =? 0)%nat then [] else [cur]
  | String c s' =>
      if is_space c
      then if (length cur =? 0)%nat then split_from "" s'
           else cur :: split_from "" s'
      else split_from (cur ++ String c "") s'
  end.

Definition split (s : string) : list string := split_from "" s.

(** [s[:n]]. *)
Definition take (n : nat) (s : string) : string := substring 0 n s.

(** [str(n)] for a non-negative int, [str(z)] for an int. *)
Definition of_nat (n : nat) : string := NilZero.string_of_uint (Nat.to_uint n).
Definition of_Z (z : Z) : string := NilZero.string_of_int (Z.to_int z).

End Text.

(** ** Numbers *)

Module Num.

Local Open Scope Q_scope.

(** [int(x)] for a float: truncation toward zero. *)
Definition int (x : Q) : Z := Z.quot (Qnum x) (Zpos (Qden x)).

(** Nearest integer, ties to even. *)
Definition round_half_even (x : Q) : Z :=
  let n := Qfloor x in
  match Qcompare (x - inject_Z n) (1 # 2) with
  | Lt => n
  | Gt => (n + 1)%Z
  | Eq => if Z.even n then n else (n + 1)%Z
  end.

(** [round(x, 2)] of the exact value [x].  Python rounds the double that
    stands for [x]; where [x] is a decimal tie such as 0.225 that double
    lies a little to one side of it, and the hundredth Python reports can be
    the other neighbour.  Both are whole hundredths within 0.005 of [x],
    and both are the one hundredth strictly nearer than 0.005 when [x] is
    not a tie. *)
Definition round2 (x : Q) : Q := round_half_even (x * 100) # 100.

Definition of_nat (n : nat) : Q := inject_Z (Z.of_nat n).

End Num.

(** [len(xs)] as a number. *)
Definition len {A : Type} (xs : list A) : Q := Num.of_nat (List.length xs).

(** [d.get(k, default)] on an optional field. *)
Definition get_or {A : Type} (field : option A) (default : A) : A :=
  match field with
  | Some a => a
  | None => default
  end.

(** Truth value of a list and of a string. *)
Definition nonempty {A : Type} (xs : list A) : bool :=
  match xs with
  | [] => false
  | _ :: _ => true
  end.

Definition nonempty_str (s : string) : bool := negb (length s =? 0)%nat.

(** ** Exceptions and effects *)

(** A Python exception: its class name and [str(e)]. *)
Record exn : Type := Exn { exn_class : string; str : string }.

Definition IndexError : exn := Exn "IndexError" "list index out of range".

Inductive result (A : Type) : Type :=
| Ok (a : A)
| Raise (e : exn).

Arguments Ok {A} a.
Arguments Raise {A} e.

(** A computation on a state [S] that returns or raises; the state reached
    before a raise is kept, as in Python. *)
Definition M (S A : Type) : Type := S -> result A * S.

Definition ret {S A : Type} (a : A) : M S A := fun s => (Ok a, s).

Definition raise {S A : Type} (e : exn) : M S A := fun s => (Raise e, s).

Definition bind {S A B : Type} (c : M S A) (k : A -> M S B) : M S B :=
  fun s =>
    match c s with
    | (Ok a, s') => k a s'
    | (Raise e, s') => (Raise e, s')
    end.

(** A call that cannot raise. *)
Definition total {S A : Type} (f : S -> A * S) : M S A :=
  fun s => let (a, s') := f s in (Ok a, s').

(** [try: c  except Exception as e: h e]. *)
Definition try_except {S A : Type} (c : M S A) (h : exn -> M S A) : M S A :=
  fun s =>
    match c s with
    | (Ok a, s') => (Ok a, s')
    | (Raise e, s') => h e s'
    end.

Declare Scope py_scope.
Delimit Scope py_scope with py.
Notation "x <- c ;; k" := (bind c (fun x => k))
  (at level 61, c at next level, right associativity) : py_scope.
Notation "c ;;; k" := (bind c (fun _ => k))
  (at level 61, right associativity) : py_scope.

(** ** Data model *)

(** A JSON value, as the repository search returns it. *)
#[local] Unset Elimination Schemes.
Inductive json : Type :=
| JNull
| JBool (b : bool)
| JInt (z : Z)
| JStr (s : string)
| JArr (items : list json)
| JObj (members : list (string * json)).
#[local] Set Elimination Schemes.

(** [obj.get(key, default)] on the members of a JSON object. *)
Fixpoint json_get (members : list (string * json)) (key : string)
  (default : json) : json :=
  match members with
  | [] => default
  | (k, v) :: rest => if String.eqb k key then v else json_get rest key default
  end.

(** An [arxiv.Result], with [published] held as the text
    [published.strftime('%Y-%m-%d')] and [authors] as the authors' names. *)
Module ArxivResult.
Record t : Type := make
  { title : string; authors : list string; summary : string;
    published : string; entry_id : string; categories : list string }.
End ArxivResult.

Module Paper.
Record t : Type := make
  { title : string; authors : list string; summary : string;
    published : string; url : string; categories : list string }.
End Paper.

(** A feed entry; each key may be missing. *)
Module FeedEntry.
Record t : Type := make
  { title : option string; summary : option string;
    published : option string; link : option string }.
End FeedEntry.

Module Article.
Record t : Type := make
  { title : string; description : string; source : string;
    published : string; url : string }.
End Article.

Module Repo.
Record t : Type := make
  { name : json; description : json; stars : json;
    language : json; updated : json; url : json }.
End Repo.

(** The response of [requests.get]: [json] is [response.json()], which
    raises when the body is not a JSON object. *)
Module Response.
Record t : Type := make
  { status_code : Z; json : result (list (string * json)) }.
End Response.

Module SearchParams.
Record t : Type := make
  { q : string; sort : string; order : string; per_page : nat }.
End SearchParams.

(** The dict built by [_gather_research_data]: the three keys are always
    there. *)
Module ResearchData.
Record t : Type := make
  { papers : list Paper.t; news : list Article.t; github : list Repo.t }.
End ResearchData.

(** A dict of source lists in which any key may be missing; [{}] is
    [empty]. *)
Module RawData.
Record t : Type := make
  { papers : option (list Paper.t); news : option (list Article.t);
    github : option (list Repo.t) }.

Definition empty : t := make None None None.

Definition of_research (d : ResearchData.t) : t :=
  make (Some (ResearchData.papers d)) (Some (ResearchData.news d))
       (Some (ResearchData.github d)).

(** Truth value of the dict: it has a key. *)
Definition truthy (d : t) : bool :=
  match papers d, news d, github d with
  | None, None, None => false
  | _, _, _ => true
  end.
End RawData.

Module Counts.
Record t : Type := make { papers : nat; news : nat; github : nat }.
End Counts.

(** The dict a stage agent returns.  A key the dict lacks is [None]; [{}] is
    [empty]. *)
Module StageResult.
Record t : Type := make
  { agent_id : option string;
    task_id : option string;
    error : option string;
    timestamp : option string;
    processing_time : option Q;
    research_data : option string;
    raw_data_sources : option RawData.t;
    confidence_score : option Q;
    data_sources_count : option Counts.t;
    analysis_insights : option string;
    data_quality_score : option Q;
    innovation_ideas : option string;
    breakthrough_potential : option Q;
    commercial_viability : option Q;
    management_recommendations : option string;
    system_health_score : option Q;
    optimization_potential : option Q }.

Definition empty : t :=
  make None None None None None None None None None None None None None None
       None None None.

Definition has {A : Type} (field : option A) (key : string) : list string :=
  match field with
  | Some _ => [key]
  | None => []
  end.

(** The keys of the dict. *)
Definition keys (r : t) : list string :=
  has (agent_id r) "agent_id" ++ has (task_id r) "task_id"
  ++ has (error r) "error" ++ has (timestamp r) "timestamp"
  ++ has (processing_time r) "processing_time"
  ++ has (research_data r) "research_data"
  ++ has (raw_data_sources r) "raw_data_sources"
  ++ has (confidence_score r) "confidence_score"
  ++ has (data_sources_count r) "data_sources_count"
  ++ has (analysis_insights r) "analysis_insights"
  ++ has (data_quality_score r) "data_quality_score"
  ++ has (innovation_ideas r) "innovation_ideas"
  ++ has (breakthrough_potential r) "breakthrough_potential"
  ++ has (commercial_viability r) "commercial_viability"
  ++ has (management_recommendations r) "management_recommendations"
  ++ has (system_health_score r) "system_health_score"
  ++ has (optimization_potential r) "optimization_potential".

(** The keys that only a successful stage writes. *)
Definition payload_keys (r : t) : list string :=
  has (research_data r) "research_data"
  ++ has (raw_data_sources r) "raw_data_sources"
  ++ has (confidence_score r) "confidence_score"
  ++ has (data_sources_count r) "data_sources_count"
  ++ has (analysis_insights r) "analysis_insights"
  ++ has (data_quality_score r) "data_quality_score"
  ++ has (innovation_ideas r) "innovation_ideas"
  ++ has (breakthrough_potential r) "breakthrough_potential"
  ++ has (commercial_viability r) "commercial_viability"
  ++ has (management_recommendations r) "management_recommendations"
  ++ has (system_health_score r) "system_health_score"
  ++ has (optimization_potential r) "optimization_potential".

(** The dict of the [except] branch of every [process_task]. *)
Definition failed (agent task err stamp : string) : t :=
  make (Some agent) (Some task) (Some err) (Some stamp) None None None None
       None None None None None None None None None.
End StageResult.

(** The dict [_gather_system_metrics] returns. *)
Module ResponseTimes.
Record t : Type := make { research : Q; analysis : Q; innovation : Q }.
End ResponseTimes.

Module SystemMetrics.
Record t : Type := make
  { health_score : Q;
    optimization_score : Q;
    response_times : ResponseTimes.t;
    data_quality : Q;
    api_success_rate : Q;
    resource_utilization : Q;
    total_processing_time : Q;
    error_count : nat }.
End SystemMetrics.

Module PerformanceMetrics.
Record t : Type := make
  { total_processing_time : Q;
    data_sources_used : option Counts.t;
    confidence_score : Q;
    system_health : Q;
    workflow_success : bool }.
End PerformanceMetrics.

(** [d[key] = value] on an insertion-ordered dict. *)
Fixpoint dict_set {V : Type} (d : list (string * V)) (key : string) (value : V)
  : list (string * V) :=
  match d with
  | [] => [(key, value)]
  | (k, v) :: rest =>
      if String.eqb k key then (k, value) :: rest
      else (k, v) :: dict_set rest key value
  end.

Fixpoint dict_get {V : Type} (d : list (string * V)) (key : string) : option V :=
  match d with
  | [] => None
  | (k, v) :: rest => if String.eqb k key then Some v else dict_get rest key
  end.

(** The dict [execute_workflow] returns; [performance_metrics] is [None]
    while the dict under that key is [{}]. *)
Module WorkflowResult.
Record t : Type := make
  { task_id : string;
    title : string;
    workflow_start : string;
    stages : list (string * StageResult.t);
    performance_metrics : option PerformanceMetrics.t;
    workflow_end : option string;
    error : option string;
    workflow_success : option bool }.

Definition set_stage (r : t) (stage : string) (v : StageResult.t) : t :=
  make (task_id r) (title r) (workflow_start r) (dict_set (stages r) stage v)
       (performance_metrics r) (workflow_end r) (error r) (workflow_success r).

Definition set_performance_metrics (r : t) (m : PerformanceMetrics.t) : t :=
  make (task_id r) (title r) (workflow_start r) (stages r) (Some m)
       (workflow_end r) (error r) (workflow_success r).

Definition set_workflow_end (r : t) (stamp : string) : t :=
  make (task_id r) (title r) (workflow_start r) (stages r)
       (performance_metrics r) (Some stamp) (error r) (workflow_success r).

Definition set_error (r : t) (msg : string) : t :=
  make (task_id r) (title r) (workflow_start r) (stages r)
       (performance_metrics r) (workflow_end r) (Some msg) (workflow_success r).

Definition set_workflow_success (r : t) (b : bool) : t :=
  make (task_id r) (title r) (workflow_start r) (stages r)
       (performance_metrics r) (workflow_end r) (error r) (Some b).
End WorkflowResult.

(** The dataclass [ResearchTask]; [results] is [None] while the dict is
    [{}], and [created_at] is the ISO text of the instant. *)
Module ResearchTask.
Record t : Type := make
  { id : string;
    title : string;
    description : string;
    priority : Z;
    status : string;
    created_at : string;
    results : option WorkflowResult.t }.
End ResearchTask.

(** ** The host *)

(** What the process calls outside itself.  [time_time] is [time.time()],
    [datetime_now] is [datetime.now()] as ISO text, [arxiv_results] drains
    [client.results(search)] for a query and [max_results] sorted by
    submission date, [requests_get] is [requests.get] with no headers and a
    timeout of 10 seconds, [genai_configure] configures the client and
    builds the model, [sqlite_insert] runs connect, insert, commit and
    close. *)
Class Host (W : Type) : Type :=
  { time_time : W -> Q * W;
    datetime_now : W -> string * W;
    getenv : string -> W -> option string;
    arxiv_results : string -> nat -> M W (list ArxivResult.t);
    feedparser_parse : string -> M W (list FeedEntry.t);
    requests_get : string -> SearchParams.t -> M W Response.t;
    genai_configure : string -> M W unit;
    generate_content : string -> M W string;
    print : string -> M W unit;
    sqlite_insert : string -> string -> M W unit }.

(** [json.dumps], with [indent=2] for the first four. *)
Class Json : Type :=
  { dumps_papers : list Paper.t -> string;
    dumps_news : list Article.t -> string;
    dumps_repos : list Repo.t -> string;
    dumps_metrics : SystemMetrics.t -> string;
    dumps_results : WorkflowResult.t -> string }.

(** A call that raises nothing: [try: c  except Exception as e: h e] with a
    handler that returns. *)
Definition try_total {S A : Type} (c : M S A) (h : exn -> S -> A * S)
  : S -> A * S :=
  fun s =>
    match c s with
    | (Ok a, s') => (a, s')
    | (Raise e, s') => h e s'
    end.

(** The language backend an agent holds in [self.llm]. *)
Record LanguageBackend (W : Type) : Type :=
  { generate_response : string -> M W string }.

Definition newline : string := String (ascii_of_nat 10) "".

(** The lines of a triple-quoted template. *)
Definition lines (ls : list string) : string := String.concat newline ls.

(** ** [DataAPIs] *)

Module DataAPIs.
Section WithHost.
Context {W : Type} {host : Host W}.

Definition paper_of (r : ArxivResult.t) : Paper.t :=
  Paper.make (ArxivResult.title r) (ArxivResult.authors r)
    (Text.take 500 (ArxivResult.summary r) ++ "...")
    (ArxivResult.published r) (ArxivResult.entry_id r)
    (ArxivResult.categories r).

Definition search_arxiv_papers (query : string) (max_results : nat)
  : W -> list Paper.t * W :=
  try_total
    (results <- arxiv_results query max_results ;;
     ret (map paper_of results))%py
    (fun _ w => ([], w)).

Definition rss_feeds : list (string * string) :=
  [ ("TechCrunch", "https://techcrunch.com/feed/");
    ("BBC Technology", "https://feeds.bbci.co.uk/news/technology/rss.xml");
    ("Wired", "https://www.wired.com/feed/rss");
    ("AI News", "https://www.artificialintelligence-news.com/feed/") ].

(** [any(keyword in content for keyword in query.lower().split())]. *)
Definition entry_matches (query : string) (entry : FeedEntry.t) : bool :=
  let content :=
    Text.lower (get_or (FeedEntry.title entry) "" ++ " "
                ++ get_or (FeedEntry.summary entry) "") in
  existsb (fun keyword => Text.contains keyword content)
          (Text.split (Text.lower query)).

Definition article_of (feed_name : string) (entry : FeedEntry.t) : Article.t :=
  Article.make (get_or (FeedEntry.title entry) "")
    (Text.take 300 (get_or (FeedEntry.summary entry) ""))
    feed_name
    (get_or (FeedEntry.published entry) "")
    (get_or (FeedEntry.link entry) "").

(** The loop over the feeds: a feed whose fetch raises is skipped. *)
Fixpoint scan_feeds (feeds : list (string * string)) (query : string)
  (articles : list Article.t) (w : W) : list Article.t * W :=
  match feeds with
  | [] => (articles, w)
  | (feed_name, feed_url) :: rest =>
      match feedparser_parse feed_url w with
      | (Ok entries, w') =>
          scan_feeds rest query
            (articles
             ++ map (article_of feed_name) (filter (entry_matches query) entries))
            w'
      | (Raise _, w') => scan_feeds rest query articles w'
      end
  end.

Definition _get_rss_news (query : string) : W -> list Article.t * W :=
  scan_feeds rss_feeds query [].

Definition search_news (query : string) (days_back : nat)
  : W -> list Article.t * W :=
  _get_rss_news query.

(** One element of [data.get('items', [])]; [repo.get] raises on anything
    but an object. *)
Definition repo_of (repo : json) : option Repo.t :=
  match repo with
  | JObj members =>
      Some (Repo.make (json_get members "full_name" (JStr ""))
              (json_get members "description" (JStr ""))
              (json_get members "stargazers_count" (JInt 0))
              (json_get members "language" (JStr ""))
              (json_get members "updated_at" (JStr ""))
              (json_get members "html_url" (JStr "")))
  | _ => None
  end.

Fixpoint repos_of (items : list json) : option (list Repo.t) :=
  match items with
  | [] => Some []
  | item :: rest =>
      match repo_of item, repos_of rest with
      | Some r, Some rs => Some (r :: rs)
      | _, _ => None
      end
  end.

(** The body of the [try] once the response is there; [None] stands for a
    raise inside it, and for a status other than 200. *)
Definition repos_of_response (response : Response.t) : option (list Repo.t) :=
  if (Response.status_code response =? 200)%Z then
    match Response.json response with
    | Ok data =>
        match json_get data "items" (JArr []) with
        | JArr items => repos_of items
        | JStr "" => Some []
        | JObj [] => Some []
        | _ => None
        end
    | Raise _ => None
    end
  else None.

Definition search_github_repos (query : string) (max_results : nat)
  : W -> list Repo.t * W :=
  try_total
    (response <- requests_get "https://api.github.com/search/repositories"
                   (SearchParams.make query "updated" "desc" max_results) ;;
     ret (get_or (repos_of_response response) []))%py
    (fun _ w => ([], w)).

End WithHost.
End DataAPIs.

(** ** [GeminiLLM] *)

Module GeminiLLM.
Section WithHost.
Context {W : Type} {host : Host W}.

Record t : Type := make { api_key : string; has_api_key : bool }.

Definition init : W -> t * W :=
  fun w =>
    let api_key := get_or (getenv "GOOGLE_API_KEY" w) "" in
    if nonempty_str api_key then
      try_total (genai_configure api_key ;;; ret (make api_key true))%py
                (fun _ w' => (make api_key false, w')) w
    else (make api_key false, w).

Definition generate_response (self : t) (prompt : string) : W -> string * W :=
  if negb (has_api_key self) then
    fun w =>
      ("Gemini API not configured. Please add GOOGLE_API_KEY to .env file.", w)
  else
    try_total (generate_content prompt)
              (fun e w => ("API Exception: " ++ str e, w)).

Definition backend (self : t) : LanguageBackend W :=
  Build_LanguageBackend (fun prompt => total (generate_response self prompt)).

End WithHost.
End GeminiLLM.

(** ** [ResearchAgent] *)

Module ResearchAgent.

Definition agent_id : string := "research_agent".

Definition _extract_search_terms (title description : string) : list string :=
  let combined_text := Text.lower (title ++ " " ++ description) in
  if Text.contains "healthcare" combined_text || Text.contains "medical" combined_text
  then ["artificial intelligence healthcare"; "machine learning medicine"; "AI diagnosis"]
  else if Text.contains "ai" combined_text || Text.contains "artificial intelligence" combined_text
  then ["artificial intelligence"; "machine learning"; "deep learning"]
  else if Text.contains "generative" combined_text || Text.contains "gpt" combined_text
  then ["generative ai"; "gpt"; "transformer models"]
  else if Text.contains "blockchain" combined_text || Text.contains "crypto" combined_text
  then ["blockchain technology"; "cryptocurrency"; "decentralized finance"]
  else if Text.contains "sustainability" combined_text || Text.contains "climate" combined_text
  then ["sustainability technology"; "climate change AI"; "green technology"]
  else if Text.contains "robotics" combined_text || Text.contains "automation" combined_text
  then ["robotics technology"; "automation systems"; "AI robotics"]
  else if Text.contains "finance" combined_text || Text.contains "investment" combined_text
  then ["financial technology"; "investment strategies"; "AI in finance"]
  else if Text.contains "education" combined_text || Text.contains "learning" combined_text
  then ["educational technology"; "AI in education"; "personalized learning"]
  else if Text.contains "energy" combined_text || Text.contains "renewable" combined_text
  then ["renewable energy technology"; "solar power AI"; "wind energy systems"]
  else if Text.contains "cybersecurity" combined_text || Text.contains "security" combined_text
  then ["cybersecurity AI"; "threat detection"; "security automation"]
  else if Text.contains "transportation" combined_text || Text.contains "mobility" combined_text
  then ["transportation technology"; "autonomous vehicles"; "smart mobility"]
  else if Text.contains "agriculture" combined_text || Text.contains "farming" combined_text
  then ["agricultural technology"; "precision farming AI"; "smart agriculture"]
  else if Text.contains "entertainment" combined_text || Text.contains "media" combined_text
  then ["entertainment technology"; "media AI"; "content creation tools"]
  else if Text.contains "gaming" combined_text || Text.contains "game" combined_text
  then ["gaming technology"; "game AI"; "interactive entertainment"]
  else if Text.contains "smart home" combined_text || Text.contains "iot" combined_text
  then ["smart home technology"; "IoT devices"; "home automation"]
  else if Text.contains "supply chain" combined_text || Text.contains "logistics" combined_text
  then ["supply chain technology"; "logistics AI"; "smart logistics"]
  else if Text.contains "social media" combined_text || Text.contains "communication" combined_text
  then ["social media technology"; "communication AI"; "digital marketing tools"]
  else
    let words := Text.split title in
    firstn 3 (filter (fun word => 3 <? length word) words).

Definition research_prompt {serializer : Json} (title description : string)
  (papers : list Paper.t) (news : list Article.t) (github : list Repo.t)
  : string :=
  lines
    [ "";
      "            Based on the following real research data, provide a comprehensive research analysis for: " ++ title;
      "";
      "            Description: " ++ description;
      "";
      "            Real Data Sources:";
      "            ";
      "            Academic Papers (arXiv):";
      "            " ++ dumps_papers (firstn 3 papers);
      "            ";
      "            Recent News:";
      "            " ++ dumps_news news;
      "            ";
      "            GitHub Projects:";
      "            " ++ dumps_repos (firstn 3 github);
      "";
      "            Please provide:";
      "            1. Current state analysis with specific statistics from the data";
      "            2. Key trends and developments identified in the sources  ";
      "            3. Major players and organizations mentioned";
      "            4. Technical innovations and breakthroughs";
      "            5. Market dynamics and growth patterns";
      "            6. Confidence assessment based on data quality and sources";
      "";
      "            Focus on factual insights derived from the actual data provided.";
      "            Provide specific numbers and statistics where available.";
      "            " ].

(** [min(sources * 0.25, 0.75) + min(total_items * 0.01, 0.25)], at most
    1.0. *)
Definition _calculate_confidence (data : ResearchData.t) : Q :=
  let sources := 0%nat in
  let total_items := 0%nat in
  let '(sources, total_items) :=
    if nonempty (ResearchData.papers data)
    then (sources + 1, total_items + List.length (ResearchData.papers data))
    else (sources, total_items) in
  let '(sources, total_items) :=
    if nonempty (ResearchData.news data)
    then (sources + 1, total_items + List.length (ResearchData.news data))
    else (sources, total_items) in
  let '(sources, total_items) :=
    if nonempty (ResearchData.github data)
    then (sources + 1, total_items + List.length (ResearchData.github data))
    else (sources, total_items) in
  let base_confidence := Qmin (Num.of_nat sources * 0.25) 0.75 in
  let volume_bonus := Qmin (Num.of_nat total_items * 0.01) 0.25 in
  Qmin (base_confidence + volume_bonus) 1.0.

Section WithHost.
Context {W : Type} {host : Host W} {serializer : Json}.

(** [for term in search_terms: research_data['papers'].extend(...)]. *)
Fixpoint gather_papers (search_terms : list string) (papers : list Paper.t)
  (w : W) : list Paper.t * W :=
  match search_terms with
  | [] => (papers, w)
  | term :: rest =>
      let (found, w') := DataAPIs.search_arxiv_papers term 5 w in
      gather_papers rest (papers ++ found) w'
  end.

(** [search_terms[0]]. *)
Definition first_term (search_terms : list string) : M W string :=
  match search_terms with
  | [] => raise IndexError
  | term :: _ => ret term
  end.

Definition _gather_research_data (title description : string)
  : M W ResearchData.t :=
  (let search_terms := _extract_search_terms title description in
   papers <- total (gather_papers search_terms []) ;;
   term <- first_term search_terms ;;
   news <- total (DataAPIs.search_news term 14) ;;
   term <- first_term search_terms ;;
   github_repos <- total (DataAPIs.search_github_repos term 8) ;;
   ret (ResearchData.make papers news github_repos))%py.

(** The body of the [try] in [process_task]. *)
Definition process_task_try (llm : LanguageBackend W) (task : ResearchTask.t)
  (start_time : Q) : M W StageResult.t :=
  (research_data <- _gather_research_data (ResearchTask.title task)
                      (ResearchTask.description task) ;;
   let analysis_prompt :=
     research_prompt (ResearchTask.title task) (ResearchTask.description task)
       (ResearchData.papers research_data) (ResearchData.news research_data)
       (ResearchData.github research_data) in
   analysis <- generate_response llm analysis_prompt ;;
   let confidence := _calculate_confidence research_data in
   stamp <- total datetime_now ;;
   now <- total time_time ;;
   ret (StageResult.make (Some agent_id) (Some (ResearchTask.id task)) None
          (Some stamp) (Some (now - start_time)%Q)
          (Some analysis) (Some (RawData.of_research research_data))
          (Some confidence)
          (Some (Counts.make (List.length (ResearchData.papers research_data))
                   (List.length (ResearchData.news research_data))
                   (List.length (ResearchData.github research_data))))
          None None None None None None None None))%py.

Definition process_task_except (task : ResearchTask.t) (e : exn)
  : W -> StageResult.t * W :=
  fun w =>
    let (stamp, w') := datetime_now w in
    (StageResult.failed agent_id (ResearchTask.id task) (str e) stamp, w').

Definition process_task (llm : LanguageBackend W) (task : ResearchTask.t)
  : W -> StageResult.t * W :=
  fun w =>
    let (start_time, w') := time_time w in
    try_total (process_task_try llm task start_time)
              (process_task_except task) w'.

End WithHost.
End ResearchAgent.

(** ** [AnalysisAgent] *)

Module AnalysisAgent.

Definition agent_id : string := "analysis_agent".

(** The [context] dict of the Analysis stage. *)
Module Context.
Record t : Type := make
  { research_data : option string;
    raw_data_sources : option RawData.t;
    data_quality_score : option Q }.

Definition truthy (context : option t) : bool :=
  match context with
  | Some (make None None None) => false
  | Some _ => true
  | None => false
  end.
End Context.

Definition analysis_prompt (research_data : string) (papers news github : nat)
  : string :=
  lines
    [ "";
      "            Analyze the following research findings and raw data sources:";
      "";
      "            Research Findings:";
      "            " ++ research_data;
      "";
      "            Raw Data Summary:";
      "            - Academic Papers: " ++ Text.of_nat papers ++ " papers";
      "            - News Articles: " ++ Text.of_nat news ++ " articles  ";
      "            - GitHub Projects: " ++ Text.of_nat github ++ " repositories";
      "";
      "            Provide comprehensive statistical and trend analysis including:";
      "            1. Quantitative patterns and correlations with specific numbers";
      "            2. Market growth rates and statistical projections";
      "            3. Technology adoption trends and timelines";
      "            4. Investment patterns and funding analysis";
      "            5. Competitive landscape insights";
      "            6. Risk factors and opportunity assessments";
      "            7. Geographic and demographic patterns";
      "";
      "            Use actual data points from the sources to support your analysis.";
      "            Provide specific statistics and growth figures where possible.";
      "            " ].

Definition _assess_data_quality (raw_data : RawData.t) : Q :=
  let quality_score := 0.0%Q in
  let papers := get_or (RawData.papers raw_data) [] in
  let quality_score :=
    if nonempty papers then (quality_score + Qmin (len papers * 0.1) 0.4)%Q
    else quality_score in
  let news := get_or (RawData.news raw_data) [] in
  let quality_score :=
    if nonempty news then (quality_score + Qmin (len news * 0.05) 0.3)%Q
    else quality_score in
  let github := get_or (RawData.github raw_data) [] in
  let quality_score :=
    if nonempty github then (quality_score + Qmin (len github * 0.03) 0.3)%Q
    else quality_score in
  Qmin quality_score 1.0.

Section WithHost.
Context {W : Type} {host : Host W}.

Definition process_task_try (llm : LanguageBackend W) (task : ResearchTask.t)
  (context : option Context.t) (start_time : Q) : M W StageResult.t :=
  (let research_data :=
     match context with
     | Some c =>
         if Context.truthy context then get_or (Context.research_data c) ""
         else ""
     | None => ""
     end in
   let raw_data :=
     match context with
     | Some c =>
         if Context.truthy context
         then get_or (Context.raw_data_sources c) RawData.empty
         else RawData.empty
     | None => RawData.empty
     end in
   let prompt :=
     analysis_prompt research_data
       (List.length (get_or (RawData.papers raw_data) []))
       (List.length (get_or (RawData.news raw_data) []))
       (List.length (get_or (RawData.github raw_data) [])) in
   analysis <- generate_response llm prompt ;;
   let quality := _assess_data_quality raw_data in
   stamp <- total datetime_now ;;
   now <- total time_time ;;
   ret (StageResult.make (Some agent_id) (Some (ResearchTask.id task)) None
          (Some stamp) (Some (now - start_time)%Q)
          None None None None
          (Some analysis) (Some quality)
          None None None None None None))%py.

Definition process_task_except (task : ResearchTask.t) (e : exn)
  : W -> StageResult.t * W :=
  fun w =>
    let (stamp, w') := datetime_now w in
    (StageResult.failed agent_id (ResearchTask.id task) (str e) stamp, w').

Definition process_task (llm : LanguageBackend W) (task : ResearchTask.t)
  (context : option Context.t) : W -> StageResult.t * W :=
  fun w =>
    let (start_time, w') := time_time w in
    try_total (process_task_try llm task context start_time)
              (process_task_except task) w'.

End WithHost.
End AnalysisAgent.

(** ** [InnovationAgent] *)

Module InnovationAgent.

Definition agent_id : string := "innovation_agent".

Module Context.
Record t : Type := make
  { research_data : option string; analysis_insights : option string }.

Definition truthy (context : option t) : bool :=
  match context with
  | Some (make None None) => false
  | Some _ => true
  | None => false
  end.
End Context.

Definition innovation_prompt (research_data analysis_insights : string)
  : string :=
  lines
    [ "";
      "            Based on the research findings and analysis, generate breakthrough innovation opportunities:";
      "";
      "            Research Data:";
      "            " ++ research_data;
      "";
      "            Analysis Insights:";
      "            " ++ analysis_insights;
      "";
      "            Generate innovative solutions including:";
      "            1. Disruptive technology opportunities with feasibility assessments";
      "            2. Cross-industry application potential and market sizes";
      "            3. Novel business model innovations";
      "            4. Technical breakthrough possibilities and timelines";
      "            5. Implementation strategies and resource requirements";
      "            6. Competitive advantage analysis";
      "            7. Investment potential and ROI projections";
      "            8. Market gap analysis and untapped opportunities";
      "";
      "            Focus on commercially viable innovations that address real market needs.";
      "            Provide specific market size estimates and implementation timelines.";
      "            " ].

Section WithHost.
Context {W : Type} {host : Host W}.

Definition process_task_try (llm : LanguageBackend W) (task : ResearchTask.t)
  (context : option Context.t) (start_time : Q) : M W StageResult.t :=
  (let research_data :=
     match context with
     | Some c =>
         if Context.truthy context then get_or (Context.research_data c) ""
         else ""
     | None => ""
     end in
   let analysis_insights :=
     match context with
     | Some c =>
         if Context.truthy context then get_or (Context.analysis_insights c) ""
         else ""
     | None => ""
     end in
   let prompt := innovation_prompt research_data analysis_insights in
   innovation_ideas <- generate_response llm prompt ;;
   stamp <- total datetime_now ;;
   now <- total time_time ;;
   ret (StageResult.make (Some agent_id) (Some (ResearchTask.id task)) None
          (Some stamp) (Some (now - start_time)%Q)
          None None None None None None
          (Some innovation_ideas) (Some 0.85%Q) (Some 0.78%Q)
          None None None))%py.

Definition process_task_except (task : ResearchTask.t) (e : exn)
  : W -> StageResult.t * W :=
  fun w =>
    let (stamp, w') := datetime_now w in
    (StageResult.failed agent_id (ResearchTask.id task) (str e) stamp, w').

Definition process_task (llm : LanguageBackend W) (task : ResearchTask.t)
  (context : option Context.t) : W -> StageResult.t * W :=
  fun w =>
    let (start_time, w') := time_time w in
    try_total (process_task_try llm task context start_time)
              (process_task_except task) w'.

End WithHost.
End InnovationAgent.

(** ** [EnvironmentAgent] *)

Module EnvironmentAgent.

Definition agent_id : string := "environment_agent".

(** The [context] dict of the Environment stage: the results of the earlier
    stages under their names, and the key [data_quality_score] that
    [_gather_system_metrics] reads. *)
Module Context.
Record t : Type := make
  { research : option StageResult.t;
    analysis : option StageResult.t;
    innovation : option StageResult.t;
    data_quality_score : option Q }.

Definition truthy (context : option t) : bool :=
  match context with
  | Some (make None None None None) => false
  | Some _ => true
  | None => false
  end.

(** [context.get(stage, {})] for the three stage names, in the order of the
    loop over them. *)
Definition stage_results (c : t) : list StageResult.t :=
  [ get_or (research c) StageResult.empty;
    get_or (analysis c) StageResult.empty;
    get_or (innovation c) StageResult.empty ].
End Context.

Definition optimization_prompt {serializer : Json} (performance_data : SystemMetrics.t)
  (title : string) : string :=
  lines
    [ "";
      "            Analyze system performance and provide optimization recommendations:";
      "";
      "            Current Performance Metrics:";
      "            " ++ dumps_metrics performance_data;
      "";
      "            Task Context: " ++ title;
      "";
      "            Provide recommendations for:";
      "            1. System performance optimization strategies";
      "            2. Resource allocation and scaling approaches  ";
      "            3. Quality assurance and reliability measures";
      "            4. Cost optimization opportunities";
      "            5. Technology stack recommendations";
      "            6. Risk mitigation and security strategies";
      "            7. Deployment and maintenance best practices";
      "            8. Future scalability planning";
      "";
      "            Focus on actionable recommendations with measurable outcomes.";
      "            " ].

(** Truth value of [result.get('error')]. *)
Definition error_truthy (r : StageResult.t) : bool :=
  match StageResult.error r with
  | Some msg => nonempty_str msg
  | None => false
  end.

(** Truth value of [raw_data.get(key)]. *)
Definition list_truthy {A : Type} (field : option (list A)) : bool :=
  match field with
  | Some xs => nonempty xs
  | None => false
  end.

Definition _gather_system_metrics (context : option Context.t)
  : SystemMetrics.t :=
  let present := Context.truthy context in
  let c := get_or context (Context.make None None None None) in
  let time_of (stage : option StageResult.t) : Q :=
    if present
    then get_or (StageResult.processing_time (get_or stage StageResult.empty))
                0%Q
    else 0%Q in
  let response_times :=
    ResponseTimes.make (time_of (Context.research c))
      (time_of (Context.analysis c)) (time_of (Context.innovation c)) in
  let total_time :=
    (0 + ResponseTimes.research response_times
     + ResponseTimes.analysis response_times
     + ResponseTimes.innovation response_times)%Q in
  let base_health := 1.0%Q in
  let base_health :=
    if Qlt_le_dec 60 total_time
    then (base_health - (total_time - 60) * 0.01)%Q
    else base_health in
  let error_count :=
    if present
    then List.length (filter error_truthy (Context.stage_results c))
    else 0 in
  let health_score :=
    Qmax (base_health - Num.of_nat error_count * 0.1) 0.5 in
  let data_quality :=
    if present then get_or (Context.data_quality_score c) 0.8%Q else 0.8%Q in
  let optimization_score := Qmin (data_quality + 0.1) 1.0 in
  let api_successes := 0 in
  let api_attempts := 3 in
  let research_raw :=
    StageResult.raw_data_sources
      (get_or (Context.research c) StageResult.empty) in
  let api_successes :=
    match research_raw with
    | Some raw_data =>
        if present && RawData.truthy raw_data then
          api_successes
          + (if list_truthy (RawData.papers raw_data) then 1 else 0)
          + (if list_truthy (RawData.news raw_data) then 1 else 0)
          + (if list_truthy (RawData.github raw_data) then 1 else 0)
        else api_successes
    | None => api_successes
    end in
  let api_success_rate :=
    if 0 <? api_attempts
    then (Num.of_nat api_successes / Num.of_nat api_attempts)%Q else 0.0%Q in
  let target_time := 45.0%Q in
  let actual_time := if Qlt_le_dec 0 total_time then total_time else 45.0%Q in
  let resource_utilization := Qmin (target_time / actual_time) 1.0 in
  SystemMetrics.make (Num.round2 health_score) (Num.round2 optimization_score)
    response_times data_quality (Num.round2 api_success_rate)
    (Num.round2 resource_utilization) total_time error_count.

Section WithHost.
Context {W : Type} {host : Host W} {serializer : Json}.

Definition process_task_try (llm : LanguageBackend W) (task : ResearchTask.t)
  (context : option Context.t) (start_time : Q) : M W StageResult.t :=
  (let performance_data := _gather_system_metrics context in
   let prompt := optimization_prompt performance_data (ResearchTask.title task) in
   recommendations <- generate_response llm prompt ;;
   stamp <- total datetime_now ;;
   now <- total time_time ;;
   ret (StageResult.make (Some agent_id) (Some (ResearchTask.id task)) None
          (Some stamp) (Some (now - start_time)%Q)
          None None None None None None None None None
          (Some recommendations)
          (Some (SystemMetrics.health_score performance_data))
          (Some (SystemMetrics.optimization_score performance_data))))%py.

Definition process_task_except (task : ResearchTask.t) (e : exn)
  : W -> StageResult.t * W :=
  fun w =>
    let (stamp, w') := datetime_now w in
    (StageResult.failed agent_id (ResearchTask.id task) (str e) stamp, w').

Definition process_task (llm : LanguageBackend W) (task : ResearchTask.t)
  (context : option Context.t) : W -> StageResult.t * W :=
  fun w =>
    let (start_time, w') := time_time w in
    try_total (process_task_try llm task context start_time)
              (process_task_except task) w'.

End WithHost.
End EnvironmentAgent.

(** ** [ProductionEcosystem] *)

Module ProductionEcosystem.

(** A row of the table [research_results]. *)
Module Row.
Record t : Type := make { task_id : string; results : string }.
End Row.

(** What [execute_workflow] can change: the world, the list
    [self.completed_tasks] and the rows of the table. *)
Record state (W : Type) : Type := make_state
  { world : W;
    completed_tasks : list ResearchTask.t;
    research_results : list Row.t }.

Arguments make_state {W} world completed_tasks research_results.
Arguments world {W} s.
Arguments completed_tasks {W} s.
Arguments research_results {W} s.

(** The four agents, each given by the backend it holds. *)
Record agents (W : Type) : Type := make_agents
  { research_agent : LanguageBackend W;
    analysis_agent : LanguageBackend W;
    innovation_agent : LanguageBackend W;
    environment_agent : LanguageBackend W }.

(** How the [try] of [execute_workflow] ends: by [return results], with the
    task as it is then, or by an exception, with [results] as it is then. *)
Inductive outcome : Type :=
| Completed (results : WorkflowResult.t) (task : ResearchTask.t)
| Failed (e : exn) (results : WorkflowResult.t).

(** The context dicts that [execute_workflow] builds. *)
Definition analysis_context (research_result : StageResult.t)
  : AnalysisAgent.Context.t :=
  AnalysisAgent.Context.make
    (Some (get_or (StageResult.research_data research_result) ""))
    (Some (get_or (StageResult.raw_data_sources research_result) RawData.empty))
    (Some (get_or (StageResult.confidence_score research_result) 0.8%Q)).

Definition innovation_context (research_result analysis_result : StageResult.t)
  : InnovationAgent.Context.t :=
  InnovationAgent.Context.make
    (Some (get_or (StageResult.research_data research_result) ""))
    (Some (get_or (StageResult.analysis_insights analysis_result) "")).

Definition env_context
  (research_result analysis_result innovation_result : StageResult.t)
  : EnvironmentAgent.Context.t :=
  EnvironmentAgent.Context.make (Some research_result) (Some analysis_result)
    (Some innovation_result) None.

Definition performance_metrics (total_time : Q)
  (research_result environment_result : StageResult.t)
  : PerformanceMetrics.t :=
  PerformanceMetrics.make total_time
    (StageResult.data_sources_count research_result)
    (get_or (StageResult.confidence_score research_result) 0.8%Q)
    (get_or (StageResult.system_health_score environment_result) 0.96%Q)
    true.

Section WithHost.
Context {W : Type} {host : Host W} {serializer : Json}.

Definition set_world (s : state W) (w : W) : state W :=
  make_state w (completed_tasks s) (research_results s).

(** A call that cannot raise, on the world of the state. *)
Definition run {A B : Type} (f : W -> A * W) (k : A -> state W -> B * state W)
  : state W -> B * state W :=
  fun s => let (a, w') := f (world s) in k a (set_world s w').

(** A call inside the [try]: a raise leaves with [results] as it is. *)
Definition attempt {A : Type} (c : M W A) (results : WorkflowResult.t)
  (k : A -> state W -> outcome * state W) : state W -> outcome * state W :=
  fun s =>
    match c (world s) with
    | (Ok a, w') => k a (set_world s w')
    | (Raise e, w') => (Failed e results, set_world s w')
    end.

Definition create_task (title description : string)
  : W -> ResearchTask.t * W :=
  fun w =>
    let (now, w1) := time_time w in
    let (created_at, w2) := datetime_now w1 in
    (ResearchTask.make ("task_" ++ Text.of_Z (Num.int now)) title description
       1 "pending" created_at None, w2).

(** A failed insert is logged and nothing else. *)
Definition _save_results (results : WorkflowResult.t)
  : state W -> unit * state W :=
  fun s =>
    let task_id := WorkflowResult.task_id results in
    let document := dumps_results results in
    match sqlite_insert task_id document (world s) with
    | (Ok _, w') =>
        (tt, make_state w' (completed_tasks s)
               (research_results s ++ [Row.make task_id document]))
    | (Raise _, w') => (tt, set_world s w')
    end.

(** The assignments that end the [try].  [task.results] is the dict
    [results] itself, so the key [workflow_end], written last, is in it. *)
Definition complete (task : ResearchTask.t) (results : WorkflowResult.t)
  (s : state W) : outcome * state W :=
  let task' :=
    ResearchTask.make (ResearchTask.id task) (ResearchTask.title task)
      (ResearchTask.description task) (ResearchTask.priority task)
      "completed" (ResearchTask.created_at task) (Some results) in
  (Completed results task',
   make_state (world s) (completed_tasks s ++ [task']) (research_results s)).

(** The body of the [try] in [execute_workflow]. *)
Definition execute_workflow_try (a : agents W) (task : ResearchTask.t)
  (workflow_start : Q) (results : WorkflowResult.t)
  : state W -> outcome * state W :=
  attempt (print "Gathering real research data from multiple APIs...") results
    (fun _ =>
  run (ResearchAgent.process_task (research_agent a) task)
    (fun research_result =>
  let results := WorkflowResult.set_stage results "research" research_result in
  attempt (print "Analyzing gathered data with AI insights...") results
    (fun _ =>
  run (AnalysisAgent.process_task (analysis_agent a) task
         (Some (analysis_context research_result)))
    (fun analysis_result =>
  let results := WorkflowResult.set_stage results "analysis" analysis_result in
  attempt (print "Generating breakthrough innovation opportunities...") results
    (fun _ =>
  run (InnovationAgent.process_task (innovation_agent a) task
         (Some (innovation_context research_result analysis_result)))
    (fun innovation_result =>
  let results :=
    WorkflowResult.set_stage results "innovation" innovation_result in
  attempt (print "Optimizing system environment...") results
    (fun _ =>
  run (EnvironmentAgent.process_task (environment_agent a) task
         (Some (env_context research_result analysis_result innovation_result)))
    (fun environment_result =>
  let results :=
    WorkflowResult.set_stage results "environment" environment_result in
  run time_time
    (fun now =>
  let total_time := (now - workflow_start)%Q in
  let results :=
    WorkflowResult.set_performance_metrics results
      (performance_metrics total_time research_result environment_result) in
  fun s =>
  let (_, s) := _save_results results s in
  run datetime_now
    (fun workflow_end =>
  complete task (WorkflowResult.set_workflow_end results workflow_end))
    s))))))))).

(** [results] as it is when the [try] is entered. *)
Definition initial_results (task : ResearchTask.t) (workflow_start : string)
  : WorkflowResult.t :=
  WorkflowResult.make (ResearchTask.id task) (ResearchTask.title task)
    workflow_start [] None None None None.

Definition execute_workflow (a : agents W) (task : ResearchTask.t)
  : state W -> (WorkflowResult.t * ResearchTask.t) * state W :=
  run time_time
    (fun workflow_start =>
  run datetime_now
    (fun started =>
  let results := initial_results task started in
  fun s =>
    match execute_workflow_try a task workflow_start results s with
    | (Completed results task', s') => ((results, task'), s')
    | (Failed e results, s') =>
        let results := WorkflowResult.set_error results (str e) in
        let results := WorkflowResult.set_workflow_success results false in
        ((results, task), s')
    end)).

End WithHost.
End ProductionEcosystem.

(** * The specification's formulas *)

(** These follow the wording of the specification, not the code; the
    properties below compare them with the functions they describe. *)

Module Spec.
Local Open Scope Q_scope.

Definition count_true (bs : list bool) : nat :=
  List.length (filter (fun b : bool => b) bs).

(** The number of source types with at least one record. *)
Definition sourceTypesPresent (data : ResearchData.t) : nat :=
  count_true [ nonempty (ResearchData.papers data);
               nonempty (ResearchData.news data);
               nonempty (ResearchData.github data) ].

(** The number of records across the source types that are not empty. *)
Definition totalItemCount (data : ResearchData.t) : nat :=
  ((if nonempty (ResearchData.papers data)
    then List.length (ResearchData.papers data) else 0)
   + (if nonempty (ResearchData.news data)
      then List.length (ResearchData.news data) else 0)
   + (if nonempty (ResearchData.github data)
      then List.length (ResearchData.github data) else 0))%nat.

(** [min(0.25 x sourceTypesPresent, 0.75) + min(0.01 x totalItemCount,
    0.25)], clamped to 1.0. *)
Definition confidence (data : ResearchData.t) : Q :=
  Qmin (Qmin (0.25 * Num.of_nat (sourceTypesPresent data)) 0.75
        + Qmin (0.01 * Num.of_nat (totalItemCount data)) 0.25)
       1.0.

(** The ordered list of (domain keywords, fixed terms) rules. *)
Definition domain_rules : list (list string * list string) :=
  [ (["healthcare"; "medical"],
     ["artificial intelligence healthcare"; "machine learning medicine"; "AI diagnosis"]);
    (["ai"; "artificial intelligence"],
     ["artificial intelligence"; "machine learning"; "deep learning"]);
    (["generative"; "gpt"],
     ["generative ai"; "gpt"; "transformer models"]);
    (["blockchain"; "crypto"],
     ["blockchain technology"; "cryptocurrency"; "decentralized finance"]);
    (["sustainability"; "climate"],
     ["sustainability technology"; "climate change AI"; "green technology"]);
    (["robotics"; "automation"],
     ["robotics technology"; "automation systems"; "AI robotics"]);
    (["finance"; "investment"],
     ["financial technology"; "investment strategies"; "AI in finance"]);
    (["education"; "learning"],
     ["educational technology"; "AI in education"; "personalized learning"]);
    (["energy"; "renewable"],
     ["renewable energy technology"; "solar power AI"; "wind energy systems"]);
    (["cybersecurity"; "security"],
     ["cybersecurity AI"; "threat detection"; "security automation"]);
    (["transportation"; "mobility"],
     ["transportation technology"; "autonomous vehicles"; "smart mobility"]);
    (["agriculture"; "farming"],
     ["agricultural technology"; "precision farming AI"; "smart agriculture"]);
    (["entertainment"; "media"],
     ["entertainment technology"; "media AI"; "content creation tools"]);
    (["gaming"; "game"],
     ["gaming technology"; "game AI"; "interactive entertainment"]);
    (["smart home"; "iot"],
     ["smart home technology"; "IoT devices"; "home automation"]);
    (["supply chain"; "logistics"],
     ["supply chain technology"; "logistics AI"; "smart logistics"]);
    (["social media"; "communication"],
     ["social media technology"; "communication AI"; "digital marketing tools"]) ].

Definition listed_keywords : list string :=
  List.concat (map fst domain_rules).

(** The terms of the first rule one of whose keywords occurs in [text]. *)
Fixpoint first_match (rules : list (list string * list string)) (text : string)
  : option (list string) :=
  match rules with
  | [] => None
  | (keywords, terms) :: rest =>
      if existsb (fun keyword => Text.contains keyword text) keywords
      then Some terms
      else first_match rest text
  end.

(** The first at most 3 words of the title longer than 3 characters. *)
Definition fallback_terms (title : string) : list string :=
  firstn 3 (filter (fun word => (3 <? length word)%nat) (Text.split title)).

Definition combined_text (title description : string) : string :=
  Text.lower (title ++ " " ++ description).

Definition derive_terms (title description : string) : list string :=
  match first_match domain_rules (combined_text title description) with
  | Some terms => terms
  | None => fallback_terms title
  end.

(** The sum of the processing times of the three prior stage results. *)
Definition totalElapsed (prior : list StageResult.t) : Q :=
  fold_left Qplus
    (map (fun r => get_or (StageResult.processing_time r) 0) prior) 0.

(** The number of prior stage results that carry an error field. *)
Definition errorCount (prior : list StageResult.t) : nat :=
  List.length
    (filter (fun r => match StageResult.error r with
                      | Some _ => true
                      | None => false
                      end) prior).

(** The number of prior stage results whose error field is there and is not
    the empty string. *)
Definition nonemptyErrorCount (prior : list StageResult.t) : nat :=
  List.length (filter EnvironmentAgent.error_truthy prior).

(** The prior stage results as [_gather_system_metrics] reads them from its
    context: a missing context, or a missing key, reads as an empty dict. *)
Definition prior (context : option EnvironmentAgent.Context.t)
  : list StageResult.t :=
  EnvironmentAgent.Context.stage_results
    (get_or context (EnvironmentAgent.Context.make None None None None)).

(** [1.0 - max(0, totalElapsed - 60) x 0.01 - errorCount x 0.1], floored at
    0.5, for a given count of errors. *)
Definition health_for (elapsed : Q) (errors : nat) : Q :=
  Qmax (1.0 - Qmax 0 (elapsed - 60) * 0.01 - Num.of_nat errors * 0.1) 0.5.

Definition health (prior : list StageResult.t) : Q :=
  health_for (totalElapsed prior) (errorCount prior).

(** [min(priorDataQuality + 0.1, 1.0)]. *)
Definition optimization (priorDataQuality : Q) : Q :=
  Qmin (priorDataQuality + 0.1) 1.0.

End Spec.

(** * The four stage agents, uniformly *)

(** One call of a stage agent: the agent's backend, the task and, but for
    Research, the context. *)
Module Stage.
Section WithHost.
Context {W : Type} {host : Host W} {serializer : Json}.

Inductive call : Type :=
| Research (llm : LanguageBackend W) (task : ResearchTask.t)
| Analysis (llm : LanguageBackend W) (task : ResearchTask.t)
    (context : option AnalysisAgent.Context.t)
| Innovation (llm : LanguageBackend W) (task : ResearchTask.t)
    (context : option InnovationAgent.Context.t)
| Environment (llm : LanguageBackend W) (task : ResearchTask.t)
    (context : option EnvironmentAgent.Context.t).

Definition agent_id (c : call) : string :=
  match c with
  | Research _ _ => ResearchAgent.agent_id
  | Analysis _ _ _ => AnalysisAgent.agent_id
  | Innovation _ _ _ => InnovationAgent.agent_id
  | Environment _ _ _ => EnvironmentAgent.agent_id
  end.

Definition task (c : call) : ResearchTask.t :=
  match c with
  | Research _ t | Analysis _ t _ | Innovation _ t _ | Environment _ t _ => t
  end.

(** The body of the [try] of the agent's [process_task]. *)
Definition process_task_try (c : call) (start_time : Q) : M W StageResult.t :=
  match c with
  | Research llm t => ResearchAgent.process_task_try llm t start_time
  | Analysis llm t context =>
      AnalysisAgent.process_task_try llm t context start_time
  | Innovation llm t context =>
      InnovationAgent.process_task_try llm t context start_time
  | Environment llm t context =>
      EnvironmentAgent.process_task_try llm t context start_time
  end.

Definition process_task (c : call) : W -> StageResult.t * W :=
  match c with
  | Research llm t => ResearchAgent.process_task llm t
  | Analysis llm t context => AnalysisAgent.process_task llm t context
  | Innovation llm t context => InnovationAgent.process_task llm t context
  | Environment llm t context => EnvironmentAgent.process_task llm t context
  end.

(** The agent's processing raises [e] in the world [w]: the body of the
    [try], started at the time the clock gives, ends by raising [e]. *)
Definition raises (c : call) (w : W) (e : exn) : Prop :=
  exists w' : W,
    process_task_try c (fst (time_time w)) (snd (time_time w)) = (Raise e, w').

End WithHost.

(** Error and payload do not meet in [r]. *)
Definition exclusive (r : StageResult.t) : Prop :=
  StageResult.error r = None \/ StageResult.payload_keys r = [].

(** [r] has the fields of a failure of [agent] on [task] with [e], and no
    other. *)
Definition failure_of (r : StageResult.t) (agent task : string) (e : exn)
  : Prop :=
  StageResult.keys r = ["agent_id"; "task_id"; "error"; "timestamp"]
  /\ StageResult.agent_id r = Some agent
  /\ StageResult.task_id r = Some task
  /\ StageResult.error r = Some (str e)
  /\ StageResult.processing_time r = None
  /\ StageResult.payload_keys r = [].

End Stage.

(** * Runs of the workflow *)

Module Workflow.

Definition stage_names : list string :=
  ["research"; "analysis"; "innovation"; "environment"].


Definition success_flag (results : WorkflowResult.t) : option bool :=
  option_map PerformanceMetrics.workflow_success
    (WorkflowResult.performance_metrics results).

Section WithHost.
Context {W : Type} {host : Host W} {serializer : Json}.

(** How the [try] inside [execute_workflow a task] ends from the state
    [s]. *)
Definition attempted (a : ProductionEcosystem.agents W)
  (task : ResearchTask.t)
  : ProductionEcosystem.state W
    -> ProductionEcosystem.outcome * ProductionEcosystem.state W :=
  ProductionEcosystem.run time_time
    (fun workflow_start =>
  ProductionEcosystem.run datetime_now
    (fun started =>
  ProductionEcosystem.execute_workflow_try a task workflow_start
    (ProductionEcosystem.initial_results task started))).

(** The four stage results of a run, each computed by its agent from the
    task and a context built from the results before it. *)
Definition threaded (a : ProductionEcosystem.agents W) (task : ResearchTask.t)
  (research analysis innovation environment : StageResult.t) : Prop :=
  exists w1 w2 w3 w4 : W,
    research
    = fst (ResearchAgent.process_task
             (ProductionEcosystem.research_agent a) task w1)
    /\ analysis
       = fst (AnalysisAgent.process_task
                (ProductionEcosystem.analysis_agent a) task
                (Some (ProductionEcosystem.analysis_context research)) w2)
    /\ innovation
       = fst (InnovationAgent.process_task
                (ProductionEcosystem.innovation_agent a) task
                (Some (ProductionEcosystem.innovation_context research
                         analysis)) w3)
    /\ environment
       = fst (EnvironmentAgent.process_task
                (ProductionEcosystem.environment_agent a) task
                (Some (ProductionEcosystem.env_context research analysis
                         innovation)) w4).

(** The ways in which the [try] of [execute_workflow] ends. *)
Inductive ending (a : ProductionEcosystem.agents W) (task : ResearchTask.t) (s : ProductionEcosystem.state W)
  : ProductionEcosystem.outcome -> ProductionEcosystem.state W -> Prop :=
| EndedBeforeResearch e results s' :
    WorkflowResult.stages results = [] ->
    WorkflowResult.performance_metrics results = None ->
    ProductionEcosystem.completed_tasks s'
    = ProductionEcosystem.completed_tasks s ->
    ProductionEcosystem.research_results s'
    = ProductionEcosystem.research_results s ->
    ending a task s (ProductionEcosystem.Failed e results) s'
| EndedBeforeAnalysis e results s' research :
    WorkflowResult.stages results = [("research", research)] ->
    WorkflowResult.performance_metrics results = None ->
    ProductionEcosystem.completed_tasks s'
    = ProductionEcosystem.completed_tasks s ->
    ProductionEcosystem.research_results s'
    = ProductionEcosystem.research_results s ->
    ending a task s (ProductionEcosystem.Failed e results) s'
| EndedBeforeInnovation e results s' research analysis :
    WorkflowResult.stages results
    = [("research", research); ("analysis", analysis)] ->
    WorkflowResult.performance_metrics results = None ->
    ProductionEcosystem.completed_tasks s'
    = ProductionEcosystem.completed_tasks s ->
    ProductionEcosystem.research_results s'
    = ProductionEcosystem.research_results s ->
    ending a task s (ProductionEcosystem.Failed e results) s'
| EndedBeforeEnvironment e results s' research analysis innovation :
    WorkflowResult.stages results
    = [("research", research); ("analysis", analysis);
       ("innovation", innovation)] ->
    WorkflowResult.performance_metrics results = None ->
    ProductionEcosystem.completed_tasks s'
    = ProductionEcosystem.completed_tasks s ->
    ProductionEcosystem.research_results s'
    = ProductionEcosystem.research_results s ->
    ending a task s (ProductionEcosystem.Failed e results) s'
| EndedByReturn results task' s' research analysis innovation environment :
    WorkflowResult.stages results
    = [("research", research); ("analysis", analysis);
       ("innovation", innovation); ("environment", environment)] ->
    threaded a task research analysis innovation environment ->
    success_flag results = Some true ->
    WorkflowResult.error results = None ->
    WorkflowResult.workflow_success results = None ->
    ResearchTask.status task' = "completed" ->
    ResearchTask.results task' = Some results ->
    ProductionEcosystem.completed_tasks s'
    = (ProductionEcosystem.completed_tasks s ++ [task'])%list ->
    ending a task s (ProductionEcosystem.Completed results task') s'.

End WithHost.
End Workflow.

(** * A host for examples *)

(** A world that is a clock, in seconds, and the number of lines printed so
    far.  Every reading of the clock advances it by one second; standard
    output breaks after [stdout_lines] lines; the paper search returns
    [found] for every query; the feeds and the repository search return
    nothing. *)
Module Example.

Definition world : Type := (nat * nat)%type.

Definition host (found : list ArxivResult.t) (stdout_lines : nat) : Host world :=
  {| time_time := fun w => (Num.of_nat (fst w), (S (fst w), snd w));
     datetime_now := fun w => ("2024-05-01T12:00:00", w);
     getenv := fun _ _ => None;
     arxiv_results := fun _ _ => ret found;
     feedparser_parse := fun _ => ret [];
     requests_get := fun _ _ => ret (Response.make 200 (Ok []));
     genai_configure := fun _ => ret tt;
     generate_content := fun _ => ret "generated text";
     print := fun _ w =>
       if (snd w <? stdout_lines)%nat then (Ok tt, (fst w, S (snd w)))
       else (Raise (Exn "BrokenPipeError" "[Errno 32] Broken pipe"), w);
     sqlite_insert := fun _ _ => ret tt |}.

(** Sources that return nothing; standard output that breaks after two
    lines; a paper search that finds [long_result]. *)
Definition quiet : Host world := host [] 4.
Definition broken : Host world := host [] 2.

Definition json : Json :=
  {| dumps_papers := fun _ => "[]";
     dumps_news := fun _ => "[]";
     dumps_repos := fun _ => "[]";
     dumps_metrics := fun _ => "{}";
     dumps_results := fun r => "{task_id: " ++ WorkflowResult.task_id r ++ "}" |}.

(** A backend that answers and one whose call raises. *)
Definition answering : LanguageBackend world :=
  Build_LanguageBackend (fun _ => ret "generated text").

Definition raising : LanguageBackend world :=
  Build_LanguageBackend (fun _ => raise (Exn "RuntimeError" "backend down")).

(** A backend whose exception has the empty message. *)
Definition silent : LanguageBackend world :=
  Build_LanguageBackend (fun _ => raise (Exn "TimeoutError" "")).

Definition agents : ProductionEcosystem.agents world :=
  ProductionEcosystem.make_agents answering answering answering answering.

Definition start : ProductionEcosystem.state world :=
  ProductionEcosystem.make_state (1000, 0)%nat [] [].

Definition task : ResearchTask.t :=
  ResearchTask.make "task_1000" "AI in Healthcare"
    "Adoption of diagnosis models" 1 "pending" "2024-05-01T12:00:00" None.

(** A task whose title and description give no search term. *)
Definition short_task : ResearchTask.t :=
  ResearchTask.make "task_1001" "Foo" "bar" 1 "pending" "2024-05-01T12:00:00"
    None.

Fixpoint replicate (n : nat) (c : ascii) : string :=
  match n with
  | O => EmptyString
  | S n' => String c (replicate n' c)
  end.

(** A search result whose summary has exactly 500 characters. *)
Definition long_result : ArxivResult.t :=
  ArxivResult.make "A survey" ["A. Author"] (replicate 500 "a") "2024-04-30"
    "http://arxiv.org/abs/2404.00001v1" ["cs.AI"].

Definition stocked : Host world := host [long_result] 4.

Definition stamp : string := "2024-05-01T12:00:00".

(** Stage results as the agents return them: a success that took
    [seconds], and a failure with the message [msg]. *)
Definition research_done (seconds : Q) : StageResult.t :=
  StageResult.make (Some "research_agent") (Some "task_1000") None
    (Some stamp) (Some seconds) (Some "generated text")
    (Some (RawData.of_research (ResearchData.make [] [] []))) (Some 0%Q)
    (Some (Counts.make 0 0 0)) None None None None None None None None.

Definition analysis_done (seconds : Q) : StageResult.t :=
  StageResult.make (Some "analysis_agent") (Some "task_1000") None
    (Some stamp) (Some seconds) None None None None (Some "generated text")
    (Some 0%Q) None None None None None None.

Definition innovation_done (seconds : Q) : StageResult.t :=
  StageResult.make (Some "innovation_agent") (Some "task_1000") None
    (Some stamp) (Some seconds) None None None None None None
    (Some "generated text") (Some 0.85%Q) (Some 0.78%Q) None None None.

Definition analysis_failed (msg : string) : StageResult.t :=
  StageResult.failed "analysis_agent" "task_1000" msg stamp.

(** Three stages that took 60.25 seconds together, and three quick stages
    the second of which failed with the empty message. *)
Definition slow : EnvironmentAgent.Context.t :=
  ProductionEcosystem.env_context (research_done 58.25) (analysis_done 1)
    (innovation_done 1).

(** Stages that took 60.25 seconds together, the second of which failed
    with a message. *)
Definition late_failure : EnvironmentAgent.Context.t :=
  ProductionEcosystem.env_context (research_done 59.25)
    (analysis_failed "backend down") (innovation_done 1).

Definition silent_failure : EnvironmentAgent.Context.t :=
  ProductionEcosystem.env_context (research_done 1) (analysis_failed "")
    (innovation_done 1).

End Example.

(** * Closed forms *)

(** What the functions compute, in the terms in which the properties of the
    later sections state it. *)
Module Summary.
Local Open Scope Q_scope.

(** The articles that one feed contributes to [_get_rss_news query], when
    fetching it gives [fetched]. *)
Definition feed_articles (query feed_name : string)
  (fetched : result (list FeedEntry.t)) : list Article.t :=
  match fetched with
  | Ok entries =>
      map (DataAPIs.article_of feed_name)
          (filter (DataAPIs.entry_matches query) entries)
  | Raise _ => []
  end.

(** [min(0.1 p, 0.4) + min(0.05 n, 0.3) + min(0.03 g, 0.3)] for the counts
    of papers, news and repositories. *)
Definition quality (papers news github : nat) : Q :=
  Qmin (Num.of_nat papers * 0.1) 0.4 + Qmin (Num.of_nat news * 0.05) 0.3
  + Qmin (Num.of_nat github * 0.03) 0.3.

(** The lists of a raw-data dict, a missing key read as the empty list. *)
Definition papers_of (raw : RawData.t) : list Paper.t :=
  get_or (RawData.papers raw) [].
Definition news_of (raw : RawData.t) : list Article.t :=
  get_or (RawData.news raw) [].
Definition github_of (raw : RawData.t) : list Repo.t :=
  get_or (RawData.github raw) [].

(** The number of source types with at least one record in a raw-data
    dict. *)
Definition sources_with_records (raw : RawData.t) : nat :=
  Spec.count_true [ nonempty (papers_of raw); nonempty (news_of raw);
                    nonempty (github_of raw) ].

(** The raw data of the Research stage as the later stages read it: [{}]
    when the key is missing. *)
Definition raw_data_of (research : StageResult.t) : RawData.t :=
  get_or (StageResult.raw_data_sources research) RawData.empty.

(** [min(45.0 / max(elapsed, 45.0), 1.0)]. *)
Definition utilization (elapsed : Q) : Q :=
  Qmin (45.0 / Qmax elapsed 45.0) 1.0.

(** An item of the repository search is a JSON object. *)
Definition is_object (item : json) : bool :=
  match item with
  | JObj _ => true
  | _ => false
  end.

(** The agent id under which the stage [name] reports. *)
Definition agent_of_stage (name : string) : string := name ++ "_agent".

End Summary.

(** * Runs of the workflow, further *)

Module Run.
Section WithHost.
Context {W : Type} {host : Host W} {serializer : Json}.

(** Every stage result names its agent and its task. *)
Definition labelled (task : ResearchTask.t) (stage : string * StageResult.t)
  : Prop :=
  StageResult.agent_id (snd stage) = Some (Summary.agent_of_stage (fst stage))
  /\ StageResult.task_id (snd stage) = Some (ResearchTask.id task).

(** What a run that reaches [return results] leaves; [w_save] is the world
    in which the row is inserted. *)
Definition completed_as (a : ProductionEcosystem.agents W) (task : ResearchTask.t) (s : ProductionEcosystem.state W)
  (results : WorkflowResult.t) (task' : ResearchTask.t) (s' : ProductionEcosystem.state W)
  : Prop :=
  exists (before : WorkflowResult.t) (workflow_end : string)
         (research analysis innovation environment : StageResult.t)
         (total_time : Q),
    results = WorkflowResult.set_workflow_end before workflow_end
    /\ WorkflowResult.workflow_end before = None
    /\ WorkflowResult.task_id before = ResearchTask.id task
    /\ WorkflowResult.title before = ResearchTask.title task
    /\ WorkflowResult.stages before
       = [("research", research); ("analysis", analysis);
          ("innovation", innovation); ("environment", environment)]
    /\ WorkflowResult.performance_metrics before
       = Some (ProductionEcosystem.performance_metrics total_time research environment)
    /\ Workflow.threaded a task research analysis innovation environment
    /\ task'
       = ResearchTask.make (ResearchTask.id task) (ResearchTask.title task)
           (ResearchTask.description task) (ResearchTask.priority task)
           "completed" (ResearchTask.created_at task) (Some results)
    /\ ProductionEcosystem.completed_tasks s' = (ProductionEcosystem.completed_tasks s ++ [task'])%list
    /\ exists w_save : W,
         let inserted :=
           sqlite_insert (ResearchTask.id task) (dumps_results before) w_save in
         ProductionEcosystem.world s' = snd (datetime_now (snd inserted))
         /\ match fst inserted with
            | Ok _ =>
                ProductionEcosystem.research_results s'
                = (ProductionEcosystem.research_results s
                   ++ [ProductionEcosystem.Row.make (ResearchTask.id task)
                         (dumps_results before)])%list
            | Raise _ =>
                ProductionEcosystem.research_results s'
                = ProductionEcosystem.research_results s
            end.

End WithHost.
End Run.

(** A second host for examples: the paper search finds [long_result]; the
    first feed has two entries, the third feed cannot be fetched, the others
    are empty; the repository search returns one repository whose
    description is null; standard output never breaks. *)
Module Busy.

Definition learning : FeedEntry.t :=
  FeedEntry.make (Some "Advances in Machine Learning")
    (Some "New results on training large models") (Some "Wed, 01 May 2024")
    (Some "https://techcrunch.com/advances").

Definition weather : FeedEntry.t :=
  FeedEntry.make (Some "Local weather forecast") (Some "Sunny with showers")
    None (Some "https://techcrunch.com/weather").

Definition feed (url : string) : result (list FeedEntry.t) :=
  if String.eqb url "https://techcrunch.com/feed/" then Ok [learning; weather]
  else if String.eqb url "https://www.wired.com/feed/rss"
       then Raise (Exn "URLError" "timed out")
       else Ok [].

Definition repository : json :=
  JObj [ ("full_name", JStr "org/models"); ("description", JNull);
         ("stargazers_count", JInt 42);
         ("html_url", JStr "https://github.com/org/models") ].

Definition host : Host Example.world :=
  {| time_time := fun w => (Num.of_nat (fst w), (S (fst w), snd w));
     datetime_now := fun w => ("2024-05-01T12:00:00", w);
     getenv := fun _ _ => Some "key";
     arxiv_results := fun _ _ => ret [Example.long_result];
     feedparser_parse := fun url w => (feed url, w);
     requests_get := fun _ _ =>
       ret (Response.make 200 (Ok [("items", JArr [repository])]));
     genai_configure := fun _ => ret tt;
     generate_content := fun _ => ret "generated text";
     print := fun _ => ret tt;
     sqlite_insert := fun _ _ => ret tt |}.

Definition here : Example.world := (1000, 0)%nat.

(** Three successful stages that took 70 seconds together. *)
Definition long_run : EnvironmentAgent.Context.t :=
  ProductionEcosystem.env_context (Example.research_done 68)
    (Example.analysis_done 1) (Example.innovation_done 1).

(** The four agents on the Gemini backend of this host. *)
Definition gemini : LanguageBackend Example.world :=
  GeminiLLM.backend (host := host) (GeminiLLM.make "key" true).

Definition agents : ProductionEcosystem.agents Example.world :=
  ProductionEcosystem.make_agents gemini gemini gemini gemini.

End Busy.

(** * Properties *)

(** ** Numbers *)

Section NumberFacts.
Local Open Scope Q_scope.

Lemma of_nat_nonneg (n : nat) : 0 <= Num.of_nat n.
Proof.
  unfold Num.of_nat, Qle. simpl. lia.
Qed.

Lemma of_nat_eq (a b : nat) : a = b -> Num.of_nat a == Num.of_nat b.
Proof.
  intros ->. reflexivity.
Qed.

Lemma Qmin_cases (a b : Q) :
  (a <= b /\ Qmin a b == a) \/ (b <= a /\ Qmin a b == b).
Proof.
  destruct (Q.min_spec a b) as [[Hlt Heq] | [Hle Heq]].
  - left. split; [apply Qlt_le_weak; exact Hlt | exact Heq].
  - right. split; assumption.
Qed.

Lemma Qmax_cases (a b : Q) :
  (a <= b /\ Qmax a b == b) \/ (b <= a /\ Qmax a b == a).
Proof.
  destruct (Q.max_spec a b) as [[Hlt Heq] | [Hle Heq]].
  - left. split; [apply Qlt_le_weak; exact Hlt | exact Heq].
  - right. split; assumption.
Qed.

Lemma round_half_even_range (lo hi : Z) (x : Q) :
  inject_Z lo <= x -> x <= inject_Z hi ->
  (lo <= Num.round_half_even x <= hi)%Z.
Proof.
  intros Hlo Hhi. unfold Num.round_half_even.
  pose proof (Qfloor_resp_le _ _ Hlo) as Hfl. rewrite Qfloor_Z in Hfl.
  pose proof (Qfloor_resp_le _ _ Hhi) as Hfh. rewrite Qfloor_Z in Hfh.
  pose proof (Qfloor_le x) as Hle.
  destruct (Z.eq_dec (Qfloor x) hi) as [Heq | Hne].
  - assert (Hlt : x - inject_Z (Qfloor x) < 1 # 2).
    { rewrite Heq. lra. }
    rewrite Qlt_alt in Hlt. rewrite Hlt. lia.
  - destruct (Qcompare _ _); [destruct (Z.even _) | |]; lia.
Qed.

Lemma round_half_even_comp (x y : Q) :
  x == y -> Num.round_half_even x = Num.round_half_even y.
Proof.
  intros Heq. unfold Num.round_half_even.
  rewrite (Qfloor_comp _ _ Heq).
  assert (Hc : Qcompare (x - inject_Z (Qfloor y)) (1 # 2)
               = Qcompare (y - inject_Z (Qfloor y)) (1 # 2)).
  { apply Qcompare_comp; [rewrite Heq |]; reflexivity. }
  rewrite Hc. reflexivity.
Qed.

Lemma round2_comp (x y : Q) : x == y -> Num.round2 x = Num.round2 y.
Proof.
  intros Heq. unfold Num.round2. f_equal.
  apply round_half_even_comp. rewrite Heq. reflexivity.
Qed.

Lemma round2_unit (x : Q) : 0 <= x <= 1 -> 0 <= Num.round2 x <= 1.
Proof.
  intros [H0 H1]. unfold Num.round2.
  assert (Hr : (0 <= Num.round_half_even (x * 100) <= 100)%Z).
  { apply (@round_half_even_range 0%Z 100%Z);
    [change (inject_Z 0) with 0 | change (inject_Z 100) with 100]; lra. }
  unfold Qle. simpl. lia.
Qed.

(** A value that already is a whole number of hundredths is its own
    rounding. *)
Lemma round2_hundredths (z : Z) : Num.round2 (z # 100) == z # 100.
Proof.
  unfold Num.round2.
  assert (Hx : (z # 100) * 100 == inject_Z z).
  { unfold Qeq. simpl. lia. }
  rewrite (round_half_even_comp Hx).
  unfold Num.round_half_even. rewrite Qfloor_Z.
  assert (Hlt : inject_Z z - inject_Z z < 1 # 2) by lra.
  rewrite Qlt_alt in Hlt. rewrite Hlt. reflexivity.
Qed.

Lemma hundredths_scale (z : Z) : z # 100 == inject_Z z * (1 # 100).
Proof.
  unfold Qeq. simpl. lia.
Qed.

Lemma round_half_even_near (y : Q) :
  y - (1 # 2) <= inject_Z (Num.round_half_even y) <= y + (1 # 2).
Proof.
  unfold Num.round_half_even.
  pose proof (Qfloor_le y) as Hlow.
  pose proof (Qlt_floor y) as Hhigh.
  rewrite inject_Z_plus in Hhigh. change (inject_Z 1) with 1 in Hhigh.
  destruct (Qcompare (y - inject_Z (Qfloor y)) (1 # 2)) eqn:Hcmp.
  - apply Qeq_alt in Hcmp.
    destruct (Z.even (Qfloor y));
      [| rewrite inject_Z_plus; change (inject_Z 1) with 1]; lra.
  - apply Qlt_alt in Hcmp. lra.
  - apply Qgt_alt in Hcmp.
    rewrite inject_Z_plus. change (inject_Z 1) with 1. lra.
Qed.

(** Rounding to two decimals gives a whole number of hundredths at distance
    at most 0.005 from the value. *)
Lemma round2_near (x : Q) :
  (exists z : Z, Num.round2 x = z # 100)
  /\ x - 0.005 <= Num.round2 x <= x + 0.005.
Proof.
  split; [exists (Num.round_half_even (x * 100)); reflexivity |].
  unfold Num.round2. rewrite hundredths_scale.
  pose proof (round_half_even_near (x * 100)) as Hnear. lra.
Qed.

(** Two hundredths less than 0.01 apart are the same. *)
Lemma hundredths_apart (z z' : Z) :
  (z # 100) - (z' # 100) < 0.01 -> (z' # 100) - (z # 100) < 0.01 -> z = z'.
Proof.
  unfold Qlt, Qminus, Qplus, Qopp. simpl. lia.
Qed.

(** A value that is not halfway between two hundredths has one nearest
    hundredth, and rounding gives it. *)
Lemma round2_nearest (x : Q) (z : Z) :
  x - 0.005 < z # 100 -> z # 100 < x + 0.005 -> Num.round2 x = z # 100.
Proof.
  intros Hlow Hhigh.
  destruct (round2_near x) as [[r Hr] [Hrlow Hrhigh]].
  rewrite Hr in *. f_equal. apply hundredths_apart; lra.
Qed.

End NumberFacts.

(** Replaces every [Qmin] and [Qmax] of the goal by a variable known
    through the two cases of its definition. *)
Ltac name_minmax op a b cases :=
  let m := fresh "m" in
  let H := fresh "Hm" in
  pose proof (cases a b) as H;
  set (m := op a b) in *;
  clearbody m.

Ltac split_minmax :=
  repeat match goal with
  | |- context [Qmin ?a ?b] => name_minmax Qmin a b Qmin_cases
  | |- context [Qmax ?a ?b] => name_minmax Qmax a b Qmax_cases
  | _ : context [Qmin ?a ?b] |- _ => name_minmax Qmin a b Qmin_cases
  | _ : context [Qmax ?a ?b] |- _ => name_minmax Qmax a b Qmax_cases
  end.


(** ** The scores *)

Section ScoreFacts.
Local Open Scope Q_scope.

Lemma calculate_confidence_unit (data : ResearchData.t) :
  0 <= ResearchAgent._calculate_confidence data <= 1.
Proof.
  unfold ResearchAgent._calculate_confidence.
  destruct (nonempty (ResearchData.papers data)),
           (nonempty (ResearchData.news data)),
           (nonempty (ResearchData.github data));
    cbv zeta beta iota;
    match goal with
    | |- context [Num.of_nat ?s * 0.25] =>
        match goal with
        | |- context [Num.of_nat ?n * 0.01] =>
            pose proof (of_nat_nonneg s); pose proof (of_nat_nonneg n);
            generalize dependent (Num.of_nat s);
            generalize dependent (Num.of_nat n)
        end
    end;
    intros; split_minmax; lra.
Qed.

Lemma assess_data_quality_unit (raw_data : RawData.t) :
  0 <= AnalysisAgent._assess_data_quality raw_data <= 1.
Proof.
  unfold AnalysisAgent._assess_data_quality.
  pose proof (of_nat_nonneg (List.length (get_or (RawData.papers raw_data) []))).
  pose proof (of_nat_nonneg (List.length (get_or (RawData.news raw_data) []))).
  pose proof (of_nat_nonneg (List.length (get_or (RawData.github raw_data) []))).
  unfold len.
  destruct (nonempty (get_or (RawData.papers raw_data) [])),
           (nonempty (get_or (RawData.news raw_data) [])),
           (nonempty (get_or (RawData.github raw_data) []));
    cbv zeta beta iota; split_minmax; lra.
Qed.

End ScoreFacts.

(** ** The metrics of the Environment stage *)

Section MetricsFacts.
Local Open Scope Q_scope.

Import EnvironmentAgent.

Lemma total_processing_time_eq (context : option Context.t) :
  SystemMetrics.total_processing_time (_gather_system_metrics context)
  == Spec.totalElapsed (Spec.prior context).
Proof.
  unfold _gather_system_metrics, Spec.prior, Spec.totalElapsed.
  cbn [SystemMetrics.total_processing_time ResponseTimes.research
       ResponseTimes.analysis ResponseTimes.innovation].
  destruct context as [[[r|] [a|] [i|] [q|]]|];
    cbn [Context.truthy get_or Context.research Context.analysis
         Context.innovation Context.stage_results map fold_left
         StageResult.processing_time StageResult.empty];
    reflexivity.
Qed.

Lemma error_count_eq (context : option Context.t) :
  SystemMetrics.error_count (_gather_system_metrics context)
  = Spec.nonemptyErrorCount (Spec.prior context).
Proof.
  unfold _gather_system_metrics, Spec.prior, Spec.nonemptyErrorCount.
  cbn [SystemMetrics.error_count].
  destruct context as [[[r|] [a|] [i|] [q|]]|]; reflexivity.
Qed.

(** The health score before it is rounded. *)
Lemma health_score_eq (context : option Context.t) :
  SystemMetrics.health_score (_gather_system_metrics context)
  = Num.round2
      (Spec.health_for (Spec.totalElapsed (Spec.prior context))
                       (Spec.nonemptyErrorCount (Spec.prior context))).
Proof.
  apply round2_comp.
  rewrite <- error_count_eq.
  pose proof (total_processing_time_eq context) as Ht.
  unfold Spec.health_for.
  rewrite <- Ht. clear Ht.
  unfold _gather_system_metrics.
  cbn [SystemMetrics.total_processing_time SystemMetrics.error_count].
  cbv zeta.
  match goal with
  | |- context [Qlt_le_dec 60 ?t] =>
      generalize t; intros total
  end.
  match goal with
  | |- context [Num.of_nat ?n] => generalize (Num.of_nat n); intros errors
  end.
  destruct (Qlt_le_dec 60 total) as [Hlt | Hle].
  - destruct (Qmax_cases 0 (total - 60)) as [[_ E] | [H1 E]].
    + rewrite E. reflexivity.
    + exfalso. lra.
  - destruct (Qmax_cases 0 (total - 60)) as [[H1 E] | [_ E]].
    + rewrite E.
      assert (Hz : total - 60 == 0) by lra.
      rewrite Hz. apply Q.max_compat; [lra | reflexivity].
    + rewrite E. apply Q.max_compat; [lra | reflexivity].
Qed.

Lemma health_score_unit (context : option Context.t) :
  0 <= SystemMetrics.health_score (_gather_system_metrics context) <= 1.
Proof.
  rewrite health_score_eq. apply round2_unit.
  unfold Spec.health_for.
  pose proof (of_nat_nonneg (Spec.nonemptyErrorCount (Spec.prior context))).
  split_minmax; lra.
Qed.

(** A context without the key [data_quality_score] gives the optimization
    score 0.9, whatever the stage results in it. *)
Lemma optimization_score_default
  (research analysis innovation : option StageResult.t) :
  SystemMetrics.optimization_score
    (_gather_system_metrics
       (Some (Context.make research analysis innovation None)))
  == 0.9.
Proof.
  unfold _gather_system_metrics.
  cbn [SystemMetrics.optimization_score].
  destruct research, analysis, innovation; vm_compute; reflexivity.
Qed.

Lemma optimization_score_eq (context : Context.t) (quality : Q) :
  Context.data_quality_score context = Some quality ->
  SystemMetrics.optimization_score (_gather_system_metrics (Some context))
  = Num.round2 (Spec.optimization quality).
Proof.
  intros Hq. destruct context as [r a i q]. cbn in Hq. subst q.
  unfold _gather_system_metrics.
  cbn [SystemMetrics.optimization_score].
  destruct r, a, i; reflexivity.
Qed.

Lemma resource_utilization_unit (context : option Context.t) :
  0 <= SystemMetrics.resource_utilization (_gather_system_metrics context) <= 1.
Proof.
  unfold _gather_system_metrics.
  cbn [SystemMetrics.resource_utilization]. cbv zeta.
  apply round2_unit.
  match goal with
  | |- context [Qlt_le_dec 0 ?t] => generalize t; intros total
  end.
  assert (Hpos : forall t, 0 < t -> 0 <= Qmin (45.0 / t) 1.0 <= 1).
  { intros t Ht.
    assert (Hd : 0 < 45.0 / t) by (apply Qlt_shift_div_l; lra).
    split_minmax; lra. }
  destruct (Qlt_le_dec 0 total) as [Hlt | Hle]; apply Hpos; lra.
Qed.

Lemma api_success_rate_unit (context : option Context.t) :
  0 <= SystemMetrics.api_success_rate (_gather_system_metrics context) <= 1.
Proof.
  unfold _gather_system_metrics.
  cbn [SystemMetrics.api_success_rate]. cbv zeta.
  destruct (StageResult.raw_data_sources _) as [raw |];
    [destruct (Context.truthy context && RawData.truthy raw),
              (list_truthy (RawData.papers raw)),
              (list_truthy (RawData.news raw)),
              (list_truthy (RawData.github raw)) |];
    vm_compute; split; discriminate.
Qed.

End MetricsFacts.

(** ** Claims on the scores *)

Section ScoreClaims.
Local Open Scope Q_scope.

(** C1. In every task execution each of the six heuristic scores lies in
    [0,1]: the confidence of every gathered bundle, the data quality of
    every raw-data dict, the health, resource utilization and API success
    rate of every context, and the optimization score of every context that
    [execute_workflow] builds for the Environment stage. *)
Theorem C1_scores_in_unit_interval :
  (forall data : ResearchData.t,
      0 <= ResearchAgent._calculate_confidence data <= 1)
  /\ (forall raw_data : RawData.t,
         0 <= AnalysisAgent._assess_data_quality raw_data <= 1)
  /\ (forall context : option EnvironmentAgent.Context.t,
         let metrics := EnvironmentAgent._gather_system_metrics context in
         0 <= SystemMetrics.health_score metrics <= 1
         /\ 0 <= SystemMetrics.resource_utilization metrics <= 1
         /\ 0 <= SystemMetrics.api_success_rate metrics <= 1)
  /\ (forall research analysis innovation : StageResult.t,
         let metrics :=
           EnvironmentAgent._gather_system_metrics
             (Some (ProductionEcosystem.env_context research analysis
                      innovation)) in
         0 <= SystemMetrics.optimization_score metrics <= 1).
Proof.
  split; [exact calculate_confidence_unit |].
  split; [exact assess_data_quality_unit |].
  split.
  - intros context metrics. subst metrics.
    split; [apply health_score_unit |].
    split; [apply resource_utilization_unit | apply api_success_rate_unit].
  - intros research analysis innovation metrics. subst metrics.
    unfold ProductionEcosystem.env_context.
    rewrite optimization_score_default. lra.
Qed.

(** C2. The confidence of a gathered bundle is
    [min(0.25 x sourceTypesPresent, 0.75) + min(0.01 x totalItemCount, 0.25)]
    clamped to 1.0. *)
Theorem C2_confidence_formula (data : ResearchData.t) :
  ResearchAgent._calculate_confidence data == Spec.confidence data.
Proof.
  unfold ResearchAgent._calculate_confidence, Spec.confidence,
    Spec.sourceTypesPresent, Spec.totalItemCount, Spec.count_true.
  destruct data as [[| p papers] [| n news] [| g github]];
    cbn [nonempty ResearchData.papers ResearchData.news ResearchData.github
         filter];
    (apply Q.min_compat; [| reflexivity]);
    (apply Qplus_comp; (apply Q.min_compat; [| reflexivity]));
    rewrite Qmult_comm;
    (apply Qmult_comp; [reflexivity |]);
    (apply of_nat_eq; cbn [List.length]; lia).
Qed.

(** The count of items in the claim is the count of all records. *)
Lemma totalItemCount_all (data : ResearchData.t) :
  Spec.totalItemCount data
  = (List.length (ResearchData.papers data)
     + List.length (ResearchData.news data)
     + List.length (ResearchData.github data))%nat.
Proof.
  unfold Spec.totalItemCount.
  destruct data as [[| p papers] [| n news] [| g github]]; reflexivity.
Qed.

(** Where no error field is the empty string, the stages that carry an
    error field are those whose error field reads as true. *)
Lemma errorCount_nonempty (prior : list StageResult.t) :
  (forall r : StageResult.t,
      In r prior -> StageResult.error r <> Some EmptyString) ->
  Spec.nonemptyErrorCount prior = Spec.errorCount prior.
Proof.
  intros Hmessages. unfold Spec.nonemptyErrorCount, Spec.errorCount.
  f_equal. apply filter_ext_in. intros r Hin.
  unfold EnvironmentAgent.error_truthy.
  pose proof (Hmessages r Hin) as Hr.
  destruct (StageResult.error r) as [[| c msg] |];
    [contradiction | reflexivity | reflexivity].
Qed.

(** C8, as the code has it by design.  For every context of prior stage
    results none of whose error fields is the empty string, the health
    score that the Environment stage reports is
    [1.0 - max(0, totalElapsed - 60) x 0.01 - errorCount x 0.1], floored at
    0.5, rounded to two decimals: a whole number of hundredths at distance
    at most 0.005 from that value, and the one hundredth nearer than 0.005
    to it when there is one.  [totalElapsed] and [errorCount] are those of
    the claim: the sum of the processing times, and the number of stage
    results that carry an error field. *)
Theorem C8_health_rounded (context : option EnvironmentAgent.Context.t) :
  (forall r : StageResult.t,
      In r (Spec.prior context) -> StageResult.error r <> Some EmptyString) ->
  let metrics := EnvironmentAgent._gather_system_metrics context in
  let prior := Spec.prior context in
  SystemMetrics.total_processing_time metrics == Spec.totalElapsed prior
  /\ SystemMetrics.error_count metrics = Spec.errorCount prior
  /\ (exists z : Z, SystemMetrics.health_score metrics = z # 100)
  /\ Spec.health prior - 0.005 <= SystemMetrics.health_score metrics
     <= Spec.health prior + 0.005
  /\ (forall z : Z,
         Spec.health prior - 0.005 < z # 100 < Spec.health prior + 0.005 ->
         SystemMetrics.health_score metrics = z # 100).
Proof.
  intros Hmessages metrics prior. subst metrics prior.
  pose proof (errorCount_nonempty _ Hmessages) as Hcount.
  split; [apply total_processing_time_eq |].
  split; [rewrite error_count_eq; exact Hcount |].
  rewrite health_score_eq, Hcount. fold (Spec.health (Spec.prior context)).
  destruct (round2_near (Spec.health (Spec.prior context))) as [Hwhole Hnear].
  split; [exact Hwhole |]. split; [exact Hnear |].
  intros z [Hlow Hhigh]. apply round2_nearest; assumption.
Qed.

End ScoreClaims.

(** ** Effects *)

Section EffectFacts.
Context {S A : Type}.

Lemma bind_ok {B : Type} (c : M S A) (k : A -> M S B) (s s' : S) (b : B) :
  bind c k s = (Ok b, s') ->
  exists (a : A) (s1 : S), c s = (Ok a, s1) /\ k a s1 = (Ok b, s').
Proof.
  unfold bind. destruct (c s) as [[a | e] s1]; intros Hk.
  - exists a, s1. split; [reflexivity | exact Hk].
  - discriminate Hk.
Qed.

End EffectFacts.

(** ** The stage agents *)

Section StageFacts.
Context {W : Type} {host : Host W} {serializer : Json}.

(** Takes an equation [c s = (Ok b, s')] on a chain of binds apart. *)
Ltac invert_ok Hc :=
  repeat
    (let a := fresh "a" in
     let s := fresh "s" in
     let Hfirst := fresh "Hfirst" in
     apply bind_ok in Hc; destruct Hc as (a & s & Hfirst & Hc));
  unfold ret in Hc; injection Hc as <- <-.

Lemma research_try_payload llm task start w r w' :
  ResearchAgent.process_task_try llm task start w = (Ok r, w') ->
  StageResult.error r = None.
Proof.
  unfold ResearchAgent.process_task_try. intros Hc. invert_ok Hc. reflexivity.
Qed.

Lemma analysis_try_payload llm task context start w r w' :
  AnalysisAgent.process_task_try llm task context start w = (Ok r, w') ->
  StageResult.error r = None.
Proof.
  unfold AnalysisAgent.process_task_try. intros Hc. invert_ok Hc. reflexivity.
Qed.

Lemma innovation_try_payload llm task context start w r w' :
  InnovationAgent.process_task_try llm task context start w = (Ok r, w') ->
  StageResult.error r = None.
Proof.
  unfold InnovationAgent.process_task_try. intros Hc. invert_ok Hc.
  reflexivity.
Qed.

Lemma environment_try_payload llm task context start w r w' :
  EnvironmentAgent.process_task_try llm task context start w = (Ok r, w') ->
  StageResult.error r = None.
Proof.
  unfold EnvironmentAgent.process_task_try. intros Hc. invert_ok Hc.
  reflexivity.
Qed.

Lemma try_payload (c : Stage.call) start w r w' :
  Stage.process_task_try c start w = (Ok r, w') -> StageResult.error r = None.
Proof.
  destruct c; cbn [Stage.process_task_try].
  - apply research_try_payload.
  - apply analysis_try_payload.
  - apply innovation_try_payload.
  - apply environment_try_payload.
Qed.

(** Every [process_task] reads the clock and then runs its [try]; its
    [except] branch builds the same dict in the four agents. *)
Lemma process_task_unfold (c : Stage.call) (w : W) :
  Stage.process_task c w
  = try_total
      (Stage.process_task_try c (fst (time_time w)))
      (fun e w' =>
         (StageResult.failed (Stage.agent_id c)
            (ResearchTask.id (Stage.task c)) (str e) (fst (datetime_now w')),
          snd (datetime_now w')))
      (snd (time_time w)).
Proof.
  destruct c; cbn [Stage.process_task Stage.process_task_try Stage.agent_id
                   Stage.task];
    [unfold ResearchAgent.process_task, ResearchAgent.process_task_except
    |unfold AnalysisAgent.process_task, AnalysisAgent.process_task_except
    |unfold InnovationAgent.process_task, InnovationAgent.process_task_except
    |unfold EnvironmentAgent.process_task,
       EnvironmentAgent.process_task_except];
    destruct (time_time w) as [start w1]; cbn [fst snd];
    unfold try_total;
    match goal with
    | |- context [match ?c ?s with _ => _ end] =>
        destruct (c s) as [[r | e] w2]
    end;
    try reflexivity;
    destruct (datetime_now w2); reflexivity.
Qed.

Lemma failed_is_failure agent task e stamp :
  Stage.failure_of (StageResult.failed agent task (str e) stamp) agent task e.
Proof.
  repeat split.
Qed.

Lemma process_task_raise (c : Stage.call) (w : W) (e : exn) :
  Stage.raises c w e ->
  Stage.failure_of (fst (Stage.process_task c w)) (Stage.agent_id c)
    (ResearchTask.id (Stage.task c)) e.
Proof.
  intros [w' Hraise]. rewrite process_task_unfold.
  unfold try_total. rewrite Hraise. cbn [fst].
  apply failed_is_failure.
Qed.

Lemma process_task_exclusive (c : Stage.call) (w : W) :
  Stage.exclusive (fst (Stage.process_task c w)).
Proof.
  rewrite process_task_unfold. unfold try_total.
  destruct (Stage.process_task_try c (fst (time_time w)) (snd (time_time w)))
    as [[r | e] w'] eqn:Htry; cbn [fst].
  - left. revert Htry. apply try_payload.
  - right. reflexivity.
Qed.

(** C5. When the processing of a stage agent raises, the result that
    [process_task] returns has exactly the fields agent_id, task_id, error
    and timestamp, so neither processing_time nor a payload field; and no
    result of a stage agent has both an error field and a payload field. *)
Theorem C5_failure_has_four_fields (c : Stage.call) (w : W) :
  (forall e : exn,
      Stage.raises c w e ->
      Stage.failure_of (fst (Stage.process_task c w)) (Stage.agent_id c)
        (ResearchTask.id (Stage.task c)) e)
  /\ Stage.exclusive (fst (Stage.process_task c w)).
Proof.
  split.
  - intros e. apply process_task_raise.
  - apply process_task_exclusive.
Qed.

End StageFacts.

(** ** Text *)

Section TextFacts.

Lemma length_take (n : nat) (s : string) :
  length (Text.take n s) = Nat.min n (length s).
Proof.
  unfold Text.take. revert n.
  induction s as [| c s IH]; intros [| n]; cbn; try reflexivity.
  rewrite IH. reflexivity.
Qed.

Lemma length_app (s t : string) : length (s ++ t) = length s + length t.
Proof.
  induction s as [| c s IH]; cbn; [reflexivity | rewrite IH; reflexivity].
Qed.

Lemma take_all (n : nat) (s : string) : length s <= n -> Text.take n s = s.
Proof.
  unfold Text.take. revert n.
  induction s as [| c s IH]; intros [| n] Hle; cbn in *;
    try reflexivity; try lia.
  rewrite IH by lia. reflexivity.
Qed.

End TextFacts.

(** ** Search terms *)

Section SearchTermFacts.

Lemma extract_search_terms_first_match (title description : string) :
  ResearchAgent._extract_search_terms title description
  = Spec.derive_terms title description.
Proof.
  unfold ResearchAgent._extract_search_terms, Spec.derive_terms,
    Spec.combined_text, Spec.fallback_terms.
  generalize (Text.lower (title ++ " " ++ description)). intros text.
  cbn [Spec.first_match Spec.domain_rules existsb].
  repeat
    match goal with
    | |- context [Text.contains ?keyword text] =>
        destruct (Text.contains keyword text);
        cbn [orb]; try reflexivity
    end.
Qed.

Lemma first_match_none (rules : list (list string * list string))
  (text : string) :
  (forall keyword : string,
      In keyword (List.concat (map fst rules)) ->
      Text.contains keyword text = false) ->
  Spec.first_match rules text = None.
Proof.
  induction rules as [| [keywords terms] rules IH]; intros Hnone.
  - reflexivity.
  - cbn [Spec.first_match].
    cbn [map fst List.concat] in Hnone.
    assert (Hk : existsb (fun keyword => Text.contains keyword text) keywords
                 = false).
    { apply not_true_is_false. intros Hex.
      apply existsb_exists in Hex. destruct Hex as (k & Hin & Hk).
      rewrite Hnone in Hk; [discriminate Hk |].
      apply in_or_app. left. exact Hin. }
    rewrite Hk. apply IH. intros k Hin. apply Hnone.
    apply in_or_app. right. exact Hin.
Qed.

(** C6. The search terms are those of the first rule, in the order of the
    rule list, one of whose keywords occurs in the lowercased title and
    description.  When "healthcare" or "medical" occurs they are the three
    healthcare terms; when no listed keyword occurs they are the first at
    most 3 words of the title longer than 3 characters. *)
Theorem C6_search_terms_first_match (title description : string) :
  let text := Text.lower (title ++ " " ++ description) in
  ResearchAgent._extract_search_terms title description
  = Spec.derive_terms title description
  /\ (Text.contains "healthcare" text = true
      \/ Text.contains "medical" text = true ->
      ResearchAgent._extract_search_terms title description
      = ["artificial intelligence healthcare"; "machine learning medicine";
         "AI diagnosis"])
  /\ ((forall keyword : string,
          In keyword Spec.listed_keywords ->
          Text.contains keyword text = false) ->
      ResearchAgent._extract_search_terms title description
      = firstn 3 (filter (fun word => 3 <? length word) (Text.split title))).
Proof.
  intros text. split; [apply extract_search_terms_first_match |]. split.
  - intros Hhealth. unfold ResearchAgent._extract_search_terms.
    fold text.
    destruct Hhealth as [Hk | Hk]; rewrite Hk;
      [| rewrite orb_true_r]; reflexivity.
  - intros Hnone. rewrite extract_search_terms_first_match.
    unfold Spec.derive_terms, Spec.combined_text. fold text.
    rewrite (first_match_none Spec.domain_rules text Hnone). reflexivity.
Qed.

End SearchTermFacts.

(** ** The gateway *)

Section GatewayFacts.
Context {W : Type} {host : Host W} {serializer : Json}.

Lemma paper_of_summary (r : ArxivResult.t) :
  Paper.summary (DataAPIs.paper_of r)
  = Text.take 500 (ArxivResult.summary r) ++ "..."
  /\ length (Paper.summary (DataAPIs.paper_of r))
     = Nat.min 500 (length (ArxivResult.summary r)) + 3.
Proof.
  cbn [DataAPIs.paper_of Paper.summary]. split; [reflexivity |].
  rewrite length_app, length_take. reflexivity.
Qed.

Lemma search_arxiv_papers_cases (query : string) (max_results : nat) (w : W) :
  (exists results : list ArxivResult.t,
      arxiv_results query max_results w
      = (Ok results, snd (DataAPIs.search_arxiv_papers query max_results w))
      /\ fst (DataAPIs.search_arxiv_papers query max_results w)
         = map DataAPIs.paper_of results)
  \/ (exists e : exn,
         arxiv_results query max_results w
         = (Raise e, snd (DataAPIs.search_arxiv_papers query max_results w))
         /\ fst (DataAPIs.search_arxiv_papers query max_results w) = []).
Proof.
  unfold DataAPIs.search_arxiv_papers, try_total, bind, ret.
  destruct (arxiv_results query max_results w) as [[results | e] w'].
  - left. exists results. split; reflexivity.
  - right. exists e. split; reflexivity.
Qed.

(** C4, as the code has it.  The summary of every paper record that the
    paper search returns is the first 500 characters of the original
    summary (all of it when it is shorter) followed by the marker "...", so
    it is at most 503 characters long. *)
Theorem C4_summary_truncated (query : string) (max_results : nat) (w : W)
  (paper : Paper.t) :
  In paper (fst (DataAPIs.search_arxiv_papers query max_results w)) ->
  exists (results : list ArxivResult.t) (original : ArxivResult.t),
    fst (arxiv_results query max_results w) = Ok results
    /\ In original results
    /\ Paper.summary paper = Text.take 500 (ArxivResult.summary original) ++ "..."
    /\ length (Paper.summary paper)
       = Nat.min 500 (length (ArxivResult.summary original)) + 3
    /\ length (Paper.summary paper) <= 503.
Proof.
  intros Hin.
  destruct (search_arxiv_papers_cases query max_results w)
    as [(results & Hcall & Hpapers) | (e & _ & Hpapers)];
    rewrite Hpapers in Hin; [| destruct Hin].
  apply in_map_iff in Hin. destruct Hin as (original & <- & Hin).
  exists results, original.
  rewrite Hcall. cbn [fst].
  destruct (paper_of_summary original) as [Hsummary Hlength].
  repeat split; try assumption.
  rewrite Hlength. lia.
Qed.

(** [search_terms[0]] raises on the empty list. *)
Lemma gather_without_terms (title description : string) (w : W) :
  ResearchAgent._extract_search_terms title description = [] ->
  ResearchAgent._gather_research_data title description w
  = (Raise IndexError, w).
Proof.
  intros Hterms. unfold ResearchAgent._gather_research_data.
  rewrite Hterms. reflexivity.
Qed.

Lemma gather_papers_nothing (search_terms : list string)
  (papers : list Paper.t) (w : W) :
  (forall query n w', fst (DataAPIs.search_arxiv_papers query n w') = []) ->
  fst (ResearchAgent.gather_papers search_terms papers w) = papers.
Proof.
  intros Hnothing. revert papers w.
  induction search_terms as [| term rest IH]; intros papers w;
    cbn [ResearchAgent.gather_papers]; [reflexivity |].
  pose proof (Hnothing term 5 w) as Hfound.
  destruct (DataAPIs.search_arxiv_papers term 5 w) as [found w'].
  cbn [fst] in Hfound. subst found.
  rewrite IH. apply app_nil_r.
Qed.

(** With a search term to use, gathering that finds no record anywhere
    returns the empty bundle, whose confidence is 0. *)
Lemma gather_nothing (title description : string) (w : W) :
  ResearchAgent._extract_search_terms title description <> [] ->
  (forall query n w', fst (DataAPIs.search_arxiv_papers query n w') = []) ->
  (forall query n w', fst (DataAPIs.search_news query n w') = []) ->
  (forall query n w', fst (DataAPIs.search_github_repos query n w') = []) ->
  exists w' : W,
    ResearchAgent._gather_research_data title description w
    = (Ok (ResearchData.make [] [] []), w')
    /\ (ResearchAgent._calculate_confidence (ResearchData.make [] [] []) == 0)%Q.
Proof.
  intros Hterms Hpapers Hnews Hrepos.
  unfold ResearchAgent._gather_research_data.
  destruct (ResearchAgent._extract_search_terms title description)
    as [| term rest]; [contradiction |].
  cbn [ResearchAgent.first_term]. unfold bind, total, ret.
  pose proof (gather_papers_nothing (term :: rest) [] w Hpapers) as Hp.
  destruct (ResearchAgent.gather_papers (term :: rest) [] w) as [papers w1].
  cbn [fst] in Hp. subst papers. cbv beta iota.
  pose proof (Hnews term 14 w1) as Hn.
  destruct (DataAPIs.search_news term 14 w1) as [news w2].
  cbn [fst] in Hn. subst news. cbv beta iota.
  pose proof (Hrepos term 8 w2) as Hr.
  destruct (DataAPIs.search_github_repos term 8 w2) as [repos w3].
  cbn [fst] in Hr. subst repos. cbv beta iota.
  exists w3. split; reflexivity.
Qed.

(** C3, at the input on which the code fails.  The title "Foo" with the
    description "bar" has no domain keyword and no word longer than 3
    characters, so no search term is derived and [search_terms[0]] raises
    IndexError, whatever the external fetches return; the Research stage
    then reports the error instead of a bundle. *)
Theorem C3_gather_raises_without_search_terms (w : W)
  (llm : LanguageBackend W) (task_id : string) (priority : Z)
  (status created_at : string) :
  ResearchAgent._extract_search_terms "Foo" "bar" = []
  /\ ResearchAgent._gather_research_data "Foo" "bar" w = (Raise IndexError, w)
  /\ StageResult.error
       (fst (ResearchAgent.process_task llm
               (ResearchTask.make task_id "Foo" "bar" priority status
                  created_at None) w))
     = Some "list index out of range".
Proof.
  assert (Hterms : ResearchAgent._extract_search_terms "Foo" "bar" = [])
    by (vm_compute; reflexivity).
  split; [exact Hterms |].
  split; [apply gather_without_terms; exact Hterms |].
  unfold ResearchAgent.process_task.
  destruct (time_time w) as [start w1].
  unfold try_total, ResearchAgent.process_task_try, bind.
  cbn [ResearchTask.title ResearchTask.description].
  rewrite (gather_without_terms "Foo" "bar" w1 Hterms).
  unfold ResearchAgent.process_task_except.
  destruct (datetime_now w1) as [stamp w2]. reflexivity.
Qed.

End GatewayFacts.

(** ** The orchestrator *)

Section WorkflowFacts.
Context {W : Type} {host : Host W} {serializer : Json}.

Import ProductionEcosystem.

(** Names the result of the next call on the world. *)
Ltac next_call :=
  match goal with
  | |- context [match ?f (world ?s) with _ => _ end] =>
      let r := fresh "r" in
      let w := fresh "w" in
      let Hcall := fresh "Hcall" in
      destruct (f (world s)) as [r w] eqn:Hcall; cbn [world set_world] in *
  | |- context [match ?f ?w0 with _ => _ end] =>
      lazymatch type of w0 with
      | W =>
          let r := fresh "r" in
          let w := fresh "w" in
          let Hcall := fresh "Hcall" in
          destruct (f w0) as [r w] eqn:Hcall; cbn [world set_world] in *
      end
  end.

Lemma save_results_completed (results : WorkflowResult.t) (s : state W) :
  completed_tasks (snd (_save_results results s)) = completed_tasks s.
Proof.
  unfold _save_results.
  destruct (sqlite_insert _ _ (world s)) as [[u | e] w]; reflexivity.
Qed.

Lemma attempted_ending (a : agents W) (task : ResearchTask.t) (s : state W) :
  Workflow.ending a task s (fst (Workflow.attempted a task s))
    (snd (Workflow.attempted a task s)).
Proof.
  unfold Workflow.attempted, run, execute_workflow_try, attempt, run.
  destruct s as [w0 done rows]. cbn [world set_world].
  do 2 next_call.
  next_call. destruct r1 as [[] | e];
    [| cbn [fst snd]; eapply Workflow.EndedBeforeResearch; reflexivity].
  next_call.
  next_call. destruct r2 as [[] | e];
    [| cbn [fst snd]; eapply Workflow.EndedBeforeAnalysis; reflexivity].
  next_call.
  next_call. destruct r3 as [[] | e];
    [| cbn [fst snd]; eapply Workflow.EndedBeforeInnovation; reflexivity].
  next_call.
  next_call. destruct r4 as [[] | e];
    [| cbn [fst snd]; eapply Workflow.EndedBeforeEnvironment; reflexivity].
  next_call. next_call.
  match goal with
  | |- context [_save_results ?res ?st] =>
      pose proof (save_results_completed res st) as Hsaved;
      destruct (_save_results res st) as [u s1]
  end.
  cbn [snd completed_tasks] in Hsaved.
  next_call. unfold complete. cbn [fst snd].
  eapply Workflow.EndedByReturn; try reflexivity.
  - exists w2, w4, w6, w8.
    rewrite Hcall2, Hcall4, Hcall6, Hcall8. repeat split.
  - unfold set_world. cbn [completed_tasks]. rewrite Hsaved. reflexivity.
Qed.

End WorkflowFacts.

Section WorkflowClaims.
Context {W : Type} {host : Host W} {serializer : Json}.

Import ProductionEcosystem.

Lemma execute_workflow_attempted (a : agents W) (task : ResearchTask.t)
  (s : state W) :
  execute_workflow a task s
  = match Workflow.attempted a task s with
    | (Completed results task', s') => ((results, task'), s')
    | (Failed e results, s') =>
        ((WorkflowResult.set_workflow_success
            (WorkflowResult.set_error results (str e)) false, task), s')
    end.
Proof.
  unfold execute_workflow, Workflow.attempted, run.
  destruct (time_time (world s)) as [workflow_start w1].
  cbn [world set_world].
  destruct (datetime_now w1) as [started w2].
  reflexivity.
Qed.



(** C10. When an exception ends the [try] of [execute_workflow] between the
    stages, the operation returns a result whose workflow_success is false,
    with the error string, and whose performance_metrics is empty; the task
    is the one passed in, so a task from [create_task] still has status
    "pending" and empty results; the history of completed tasks and the
    table of results are as before. *)
Theorem C10_failed_run_changes_nothing (a : agents W) (task : ResearchTask.t)
  (s s' : state W) (e : exn) (partial : WorkflowResult.t) :
  Workflow.attempted a task s = (Failed e partial, s') ->
  let results := fst (fst (execute_workflow a task s)) in
  WorkflowResult.workflow_success results = Some false
  /\ WorkflowResult.error results = Some (str e)
  /\ WorkflowResult.performance_metrics results = None
  /\ snd (fst (execute_workflow a task s)) = task
  /\ (forall (title description : string) (w : W),
         task = fst (create_task title description w) ->
         ResearchTask.status task = "pending"
         /\ ResearchTask.results task = None)
  /\ snd (execute_workflow a task s) = s'
  /\ completed_tasks s' = completed_tasks s
  /\ research_results s' = research_results s.
Proof.
  intros Hfailed results. subst results.
  rewrite execute_workflow_attempted.
  pose proof (attempted_ending a task s) as Hend.
  rewrite Hfailed in *. cbn [fst snd] in *.
  assert (Hkept : WorkflowResult.performance_metrics partial = None
                  /\ completed_tasks s' = completed_tasks s
                  /\ research_results s' = research_results s).
  { inversion Hend; subst; repeat split; assumption. }
  destruct Hkept as (Hmetrics & Hdone & Hrows).
  repeat split; try assumption; try reflexivity.
  - subst task. unfold create_task.
    destruct (time_time w) as [now w1]. destruct (datetime_now w1).
    reflexivity.
  - subst task. unfold create_task.
    destruct (time_time w) as [now w1]. destruct (datetime_now w1).
    reflexivity.
Qed.

End WorkflowClaims.

(** ** Runs on the example host *)

Section ExampleRuns.
Local Open Scope Q_scope.

Import ProductionEcosystem.

(** C9, at an input on which the code fails.  The context that
    [execute_workflow] builds for the Environment stage has no key
    data_quality_score, so the optimization score is [min(0.8 + 0.1, 1.0)],
    that is 0.9, whatever the Analysis stage computed; in the run of the
    example task on a host whose sources return nothing the data quality
    of the Analysis stage is 0.0 and the optimization score 0.9, not
    [min(0.0 + 0.1, 1.0)]. *)
Theorem C9_optimization_ignores_data_quality :
  (forall research analysis innovation : StageResult.t,
      SystemMetrics.optimization_score
        (EnvironmentAgent._gather_system_metrics
           (Some (env_context research analysis innovation)))
      == 0.9)
  /\ exists (analysis environment : StageResult.t) (quality potential : Q),
       let results :=
         fst (fst (execute_workflow (host := Example.quiet) (serializer := Example.json)
                     Example.agents Example.task Example.start)) in
       dict_get (WorkflowResult.stages results) "analysis" = Some analysis
       /\ StageResult.data_quality_score analysis = Some quality
       /\ dict_get (WorkflowResult.stages results) "environment"
          = Some environment
       /\ StageResult.optimization_potential environment = Some potential
       /\ quality == 0
       /\ potential == 0.9
       /\ ~ potential == Spec.optimization quality.
Proof.
  split.
  - intros research analysis innovation. unfold env_context.
    apply optimization_score_default.
  - eexists. eexists. eexists. eexists.
    split; [vm_compute; reflexivity |].
    split; [vm_compute; reflexivity |].
    split; [vm_compute; reflexivity |].
    split; [vm_compute; reflexivity |].
    split; [reflexivity |].
    split; [reflexivity |].
    vm_compute. discriminate.
Qed.

(** C8 fails as stated.  Three stages that took 60.25 seconds together,
    none of which failed, give the reported health 1.0, where the formula
    gives 0.9975. *)
Lemma C8_counterexample :
  SystemMetrics.health_score
    (EnvironmentAgent._gather_system_metrics (Some Example.slow))
  == 1
  /\ Spec.health (Spec.prior (Some Example.slow)) == 0.9975
  /\ ~ SystemMetrics.health_score
         (EnvironmentAgent._gather_system_metrics (Some Example.slow))
       == Spec.health (Spec.prior (Some Example.slow)).
Proof.
  split; [vm_compute; reflexivity |].
  split; [vm_compute; reflexivity |].
  vm_compute. discriminate.
Qed.

(** A stage that failed with the empty message is not counted as failed,
    against the comment "-0.1 for each failed agent" of the code. *)
Lemma silent_failure_not_counted :
  SystemMetrics.error_count
    (EnvironmentAgent._gather_system_metrics (Some Example.silent_failure))
  = 0%nat
  /\ Spec.errorCount (Spec.prior (Some Example.silent_failure)) = 1%nat.
Proof.
  split; reflexivity.
Qed.

Lemma late_failure_messages :
  forall r : StageResult.t,
    In r (Spec.prior (Some Example.late_failure)) ->
    StageResult.error r <> Some EmptyString.
Proof.
  intros r Hin. cbn in Hin.
  destruct Hin as [<- | [<- | [<- | []]]]; discriminate.
Defined.

(** Two stages that took 60.25 seconds together and one that failed with a
    message: the formula gives 0.8975, the reported health is 0.9. *)
Lemma C8_witness :
  (forall r : StageResult.t,
      In r (Spec.prior (Some Example.late_failure)) ->
      StageResult.error r <> Some EmptyString)
  /\ Spec.health (Spec.prior (Some Example.late_failure)) == 0.8975
  /\ SystemMetrics.error_count
       (EnvironmentAgent._gather_system_metrics (Some Example.late_failure))
     = 1%nat
  /\ SystemMetrics.health_score
       (EnvironmentAgent._gather_system_metrics (Some Example.late_failure))
     = 90 # 100.
Proof.
  split; [exact late_failure_messages |].
  split; [vm_compute; reflexivity |].
  destruct (C8_health_rounded (context := Some Example.late_failure)
              late_failure_messages)
    as (_ & Hcount & _ & _ & Hnearest).
  split; [rewrite Hcount; reflexivity |].
  apply Hnearest. split; vm_compute; reflexivity.
Defined.

(** C4 fails as stated.  A summary of 500 characters comes back with 503
    characters. *)
Lemma C4_counterexample :
  exists paper : Paper.t,
    In paper
       (fst (DataAPIs.search_arxiv_papers (host := Example.stocked)
               "survey" 5 (1000, 0)%nat))
    /\ length (ArxivResult.summary Example.long_result) = 500%nat
    /\ ~ (length (Paper.summary paper) <= 500)%nat.
Proof.
  exists (DataAPIs.paper_of Example.long_result).
  split; [left; reflexivity |].
  split; [vm_compute; reflexivity |].
  intros Hle. apply Nat.leb_le in Hle. vm_compute in Hle. discriminate Hle.
Qed.

Lemma C4_witness :
  In (DataAPIs.paper_of Example.long_result)
     (fst (DataAPIs.search_arxiv_papers (host := Example.stocked)
             "survey" 5 (1000, 0)%nat))
  /\ exists (results : list ArxivResult.t) (original : ArxivResult.t),
       fst (arxiv_results (Host := Example.stocked) "survey" 5 (1000, 0)%nat)
       = Ok results
       /\ In original results
       /\ Paper.summary (DataAPIs.paper_of Example.long_result)
          = Text.take 500 (ArxivResult.summary original) ++ "..."
       /\ length (Paper.summary (DataAPIs.paper_of Example.long_result))
          = (Nat.min 500 (length (ArxivResult.summary original)) + 3)%nat
       /\ (length (Paper.summary (DataAPIs.paper_of Example.long_result))
           <= 503)%nat.
Proof.
  assert (Hin : In (DataAPIs.paper_of Example.long_result)
                   (fst (DataAPIs.search_arxiv_papers
                           (host := Example.stocked) "survey" 5
                           (1000, 0)%nat))).
  { left. reflexivity. }
  split; [exact Hin |].
  exact (C4_summary_truncated (host := Example.stocked) "survey" 5
           (1000, 0)%nat (DataAPIs.paper_of Example.long_result) Hin).
Defined.

(** The four agents on a backend whose call raises, and the Research agent
    on a task that gives no search term. *)
Lemma C5_witness :
  let down := Exn "RuntimeError" "backend down" in
  let here := (1000, 0)%nat in
  let fails c agent task e :=
    Stage.raises (host := Example.quiet) (serializer := Example.json) c here e
    /\ Stage.failure_of
         (fst (Stage.process_task (host := Example.quiet)
                 (serializer := Example.json) c here))
         agent task e in
  fails (Stage.Research Example.raising Example.task)
        "research_agent" "task_1000" down
  /\ fails (Stage.Analysis Example.raising Example.task None)
           "analysis_agent" "task_1000" down
  /\ fails (Stage.Innovation Example.raising Example.task None)
           "innovation_agent" "task_1000" down
  /\ fails (Stage.Environment Example.raising Example.task None)
           "environment_agent" "task_1000" down
  /\ fails (Stage.Research Example.answering Example.short_task)
           "research_agent" "task_1001" IndexError.
Proof.
  intros down here fails.
  assert (Hfails : forall c e w',
             Stage.process_task_try (host := Example.quiet)
               (serializer := Example.json) c
               (fst (time_time (Host := Example.quiet) here))
               (snd (time_time (Host := Example.quiet) here))
             = (Raise e, w') ->
             fails c (Stage.agent_id c) (ResearchTask.id (Stage.task c)) e).
  { intros c e w' Hraise.
    assert (Hr : Stage.raises (host := Example.quiet)
                   (serializer := Example.json) c here e)
      by (exists w'; exact Hraise).
    split; [exact Hr |].
    exact (proj1 (C5_failure_has_four_fields (host := Example.quiet)
                    (serializer := Example.json) c here) e Hr). }
  split;
    [apply (Hfails (Stage.Research Example.raising Example.task) down
              (1001, 0)%nat); vm_compute; reflexivity |].
  split;
    [apply (Hfails (Stage.Analysis Example.raising Example.task None) down
              (1001, 0)%nat); vm_compute; reflexivity |].
  split;
    [apply (Hfails (Stage.Innovation Example.raising Example.task None) down
              (1001, 0)%nat); vm_compute; reflexivity |].
  split;
    [apply (Hfails (Stage.Environment Example.raising Example.task None) down
              (1001, 0)%nat); vm_compute; reflexivity |].
  apply (Hfails (Stage.Research Example.answering Example.short_task)
           IndexError (1001, 0)%nat); vm_compute; reflexivity.
Defined.

Lemma no_keyword_in_quantum :
  forall keyword : string,
    In keyword Spec.listed_keywords ->
    Text.contains keyword
      (Text.lower ("Quantum Tunnelling Effects Observed Here" ++ " " ++ "none"))
    = false.
Proof.
  intros keyword Hin.
  unfold Spec.listed_keywords in Hin. cbn in Hin.
  repeat (destruct Hin as [<- | Hin]; [vm_compute; reflexivity |]).
  destruct Hin.
Defined.

Lemma C6_witness :
  (Text.contains "healthcare"
     (Text.lower ("AI in Healthcare" ++ " " ++ "Adoption of diagnosis models"))
   = true
   /\ ResearchAgent._extract_search_terms "AI in Healthcare"
        "Adoption of diagnosis models"
      = ["artificial intelligence healthcare"; "machine learning medicine";
         "AI diagnosis"])
  /\ ((forall keyword : string,
          In keyword Spec.listed_keywords ->
          Text.contains keyword
            (Text.lower
               ("Quantum Tunnelling Effects Observed Here" ++ " " ++ "none"))
          = false)
      /\ ResearchAgent._extract_search_terms
           "Quantum Tunnelling Effects Observed Here" "none"
         = ["Quantum"; "Tunnelling"; "Effects"]).
Proof.
  assert (Hk : Text.contains "healthcare"
                 (Text.lower ("AI in Healthcare" ++ " "
                              ++ "Adoption of diagnosis models")) = true)
    by (vm_compute; reflexivity).
  split; (split; [first [exact Hk | exact no_keyword_in_quantum] |]).
  - exact (proj1 (proj2 (C6_search_terms_first_match "AI in Healthcare"
                           "Adoption of diagnosis models")) (or_introl Hk)).
  - exact (proj2 (proj2 (C6_search_terms_first_match
                           "Quantum Tunnelling Effects Observed Here" "none"))
             no_keyword_in_quantum).
Defined.



(** Standard output breaks at the third line, before the Innovation
    stage. *)
Lemma example_run_breaks :
  exists (partial : WorkflowResult.t) (s' : state Example.world),
    Workflow.attempted (host := Example.broken) (serializer := Example.json)
      Example.agents Example.task Example.start
    = (Failed (Exn "BrokenPipeError" "[Errno 32] Broken pipe") partial, s').
Proof.
  eexists. eexists. vm_compute. reflexivity.
Defined.

Lemma C10_witness :
  let run :=
    execute_workflow (host := Example.broken) (serializer := Example.json)
      Example.agents Example.task Example.start in
  WorkflowResult.workflow_success (fst (fst run)) = Some false
  /\ WorkflowResult.error (fst (fst run)) = Some "[Errno 32] Broken pipe"
  /\ WorkflowResult.performance_metrics (fst (fst run)) = None
  /\ snd (fst run) = Example.task
  /\ completed_tasks (snd run) = []
  /\ research_results (snd run) = [].
Proof.
  intros run. subst run.
  destruct example_run_breaks as (partial & s' & Hbreak).
  destruct (C10_failed_run_changes_nothing (host := Example.broken)
              (serializer := Example.json) Example.agents Example.task
              Example.start Hbreak)
    as (Hflag & Herror & Hmetrics & Htask & _ & Hstate & Hdone & Hrows).
  rewrite Hstate.
  repeat split; assumption.
Defined.

End ExampleRuns.

(** * Further properties *)

(** ** Search terms and gathering *)

Section GatherMore.
Context {W : Type} {host : Host W} {serializer : Json}.

Lemma first_match_in (rules : list (list string * list string))
  (text : string) (terms : list string) :
  Spec.first_match rules text = Some terms ->
  exists keywords : list string,
    In (keywords, terms) rules
    /\ existsb (fun keyword => Text.contains keyword text) keywords = true.
Proof.
  induction rules as [| [keywords fixed] rules IH]; cbn [Spec.first_match].
  - discriminate.
  - destruct (existsb _ keywords) eqn:Hhit.
    + intros [= <-]. exists keywords. split; [left; reflexivity | exact Hhit].
    + intros Hrest. destruct (IH Hrest) as (k & Hin & Hk).
      exists k. split; [right; exact Hin | exact Hk].
Qed.

Lemma first_match_none_inv (rules : list (list string * list string))
  (text : string) :
  Spec.first_match rules text = None ->
  forall keyword : string,
    In keyword (List.concat (map fst rules)) ->
    Text.contains keyword text = false.
Proof.
  induction rules as [| [keywords fixed] rules IH]; cbn [Spec.first_match].
  - intros _ keyword [].
  - destruct (existsb _ keywords) eqn:Hhit; [discriminate |].
    intros Hrest keyword Hin. cbn [map fst List.concat] in Hin.
    apply in_app_or in Hin. destruct Hin as [Hin | Hin].
    + apply not_true_is_false. intros Hk.
      assert (Hex : existsb (fun k => Text.contains k text) keywords = true)
        by (apply existsb_exists; exists keyword; split; assumption).
      rewrite Hex in Hhit. discriminate Hhit.
    + exact (IH Hrest keyword Hin).
Qed.

Lemma domain_rules_three :
  Forall (fun rule : list string * list string => List.length (snd rule) = 3)
         Spec.domain_rules.
Proof.
  repeat constructor.
Qed.

(** X1. Whatever the title and the description, at most 3 search terms are
    derived; none is derived only when no listed keyword occurs in the
    lowercased text and the title has no word longer than 3 characters. *)
Theorem X1_search_terms_at_most_three (title description : string) :
  List.length (ResearchAgent._extract_search_terms title description) <= 3
  /\ (ResearchAgent._extract_search_terms title description = [] <->
      (forall keyword : string,
          In keyword Spec.listed_keywords ->
          Text.contains keyword (Spec.combined_text title description) = false)
      /\ (forall word : string,
             In word (Text.split title) -> length word <= 3)).
Proof.
  rewrite extract_search_terms_first_match. unfold Spec.derive_terms.
  destruct (Spec.first_match Spec.domain_rules
              (Spec.combined_text title description)) as [terms |] eqn:Hmatch.
  - destruct (first_match_in _ _ Hmatch) as (keywords & Hin & Hhit).
    pose proof domain_rules_three as Hthree.
    rewrite Forall_forall in Hthree. specialize (Hthree _ Hin).
    cbn [snd] in Hthree. split; [lia |].
    split.
    + intros ->. discriminate Hthree.
    + intros [Hnone _]. exfalso.
      apply existsb_exists in Hhit. destruct Hhit as (k & Hk & Hc).
      rewrite Hnone in Hc; [discriminate Hc |].
      unfold Spec.listed_keywords. apply in_concat.
      exists keywords. split; [| exact Hk].
      apply in_map_iff. exists (keywords, terms). split; [reflexivity | exact Hin].
  - unfold Spec.fallback_terms. split.
    + apply firstn_le_length.
    + split.
      * intros Hempty. split.
        { apply first_match_none_inv. exact Hmatch. }
        { intros word Hin.
          destruct (filter (fun w => 3 <? length w) (Text.split title))
            as [| long rest] eqn:Hfilter; [| discriminate Hempty].
          destruct (3 <? length word) eqn:Hlong.
          - assert (Hf : In word (filter (fun w => 3 <? length w)
                                         (Text.split title)))
              by (apply filter_In; split; assumption).
            rewrite Hfilter in Hf. destruct Hf.
          - apply Nat.ltb_ge in Hlong. exact Hlong. }
      * intros [_ Hshort].
        assert (Hf : filter (fun w => 3 <? length w) (Text.split title) = []).
        { destruct (filter (fun w => 3 <? length w) (Text.split title))
            as [| long rest] eqn:Hfilter; [reflexivity |].
          assert (Hin : In long (long :: rest)) by (left; reflexivity).
          rewrite <- Hfilter in Hin. apply filter_In in Hin.
          destruct Hin as [Hin Hlong]. apply Nat.ltb_lt in Hlong.
          pose proof (Hshort long Hin) as Hle. lia. }
        rewrite Hf. reflexivity.
Qed.

Lemma gather_cases (title description : string)
  (w : W) :
  match ResearchAgent._extract_search_terms title description with
  | [] =>
      ResearchAgent._gather_research_data title description w
      = (Raise IndexError, w)
  | term :: rest =>
      let found := ResearchAgent.gather_papers (term :: rest) [] w in
      let news := DataAPIs.search_news term 14 (snd found) in
      let repos := DataAPIs.search_github_repos term 8 (snd news) in
      ResearchAgent._gather_research_data title description w
      = (Ok (ResearchData.make (fst found) (fst news) (fst repos)), snd repos)
  end.
Proof.
  unfold ResearchAgent._gather_research_data.
  destruct (ResearchAgent._extract_search_terms title description)
    as [| term rest]; [reflexivity |].
  cbn [ResearchAgent.first_term]. unfold bind, total, ret. cbv zeta.
  destruct (ResearchAgent.gather_papers (term :: rest) [] w) as [papers w1].
  cbn [fst snd].
  destruct (DataAPIs.search_news term 14 w1) as [news w2]. cbn [fst snd].
  destruct (DataAPIs.search_github_repos term 8 w2) as [repos w3].
  reflexivity.
Qed.

(** X2. Gathering raises exactly when no search term is derived: it then
    raises IndexError without having made a call.  With a search term it
    returns, whatever the sources do, the papers found for all the terms,
    and the news and the repositories found for the first term only. *)
Theorem X2_gather_raises_only_without_terms (title description : string)
  (w : W) :
  match ResearchAgent._extract_search_terms title description with
  | [] =>
      ResearchAgent._gather_research_data title description w
      = (Raise IndexError, w)
  | term :: rest =>
      let found := ResearchAgent.gather_papers (term :: rest) [] w in
      let news := DataAPIs.search_news term 14 (snd found) in
      let repos := DataAPIs.search_github_repos term 8 (snd news) in
      ResearchAgent._gather_research_data title description w
      = (Ok (ResearchData.make (fst found) (fst news) (fst repos)), snd repos)
  end.
Proof.
  exact (gather_cases title description w).
Qed.

(** The papers found for the terms are appended to those already there. *)
Lemma gather_papers_app (search_terms : list string) (papers : list Paper.t)
  (w : W) :
  ResearchAgent.gather_papers search_terms papers w
  = ((papers ++ fst (ResearchAgent.gather_papers search_terms [] w))%list,
     snd (ResearchAgent.gather_papers search_terms [] w)).
Proof.
  revert papers w.
  induction search_terms as [| term rest IH]; intros papers w;
    cbn [ResearchAgent.gather_papers].
  - rewrite app_nil_r. reflexivity.
  - destruct (DataAPIs.search_arxiv_papers term 5 w) as [found w'].
    rewrite (IH (papers ++ found)%list), (IH ([] ++ found)%list). cbn [fst snd].
    rewrite app_assoc. reflexivity.
Qed.

(** X3. The paper search returns one record per result of the arXiv
    client, in the client's order, with title, authors, date, url and
    categories copied; a summary of at most 500 characters is returned
    whole, with the marker "..." appended even though nothing was cut; when
    the client raises, no record is returned and nothing is raised. *)
Theorem X3_paper_search_maps_results (query : string) (max_results : nat)
  (w : W) :
  match arxiv_results query max_results w with
  | (Ok results, w') =>
      DataAPIs.search_arxiv_papers query max_results w
      = (map DataAPIs.paper_of results, w')
      /\ List.length (fst (DataAPIs.search_arxiv_papers query max_results w))
         = List.length results
      /\ Forall
           (fun r =>
              let paper := DataAPIs.paper_of r in
              Paper.title paper = ArxivResult.title r
              /\ Paper.authors paper = ArxivResult.authors r
              /\ Paper.published paper = ArxivResult.published r
              /\ Paper.url paper = ArxivResult.entry_id r
              /\ Paper.categories paper = ArxivResult.categories r
              /\ (if length (ArxivResult.summary r) <=? 500
                  then Paper.summary paper = ArxivResult.summary r ++ "..."
                  else length (Paper.summary paper) = 503))
           results
  | (Raise _, w') =>
      DataAPIs.search_arxiv_papers query max_results w = ([], w')
  end.
Proof.
  unfold DataAPIs.search_arxiv_papers, try_total, bind, ret.
  destruct (arxiv_results query max_results w) as [[results | e] w'];
    [| reflexivity].
  split; [reflexivity |]. cbn [fst].
  split; [apply length_map |].
  apply Forall_forall. intros r _. cbv zeta.
  repeat (split; [reflexivity |]).
  destruct (paper_of_summary r) as [Hsummary Hlength].
  destruct (length (ArxivResult.summary r) <=? 500) eqn:Hshort.
  - apply Nat.leb_le in Hshort. rewrite Hsummary.
    rewrite take_all by exact Hshort. reflexivity.
  - apply Nat.leb_gt in Hshort. rewrite Hlength. lia.
Qed.

End GatherMore.

(** ** News and repositories *)

Section SourcesMore.
Context {W : Type} {host : Host W} {serializer : Json}.

(** X4. When what the paper search finds for a query does not depend on
    the world, the papers of the loop over the search terms are the
    concatenation, in the order of the terms, of what is found for each
    term: nothing is merged and nothing is dropped. *)
Theorem X4_papers_concatenated (found : string -> list Paper.t)
  (search_terms : list string) (w : W) :
  (forall (query : string) (w' : W),
      fst (DataAPIs.search_arxiv_papers query 5 w') = found query) ->
  fst (ResearchAgent.gather_papers search_terms [] w)
  = flat_map found search_terms.
Proof.
  intros Hfound. revert w.
  induction search_terms as [| term rest IH]; intros w;
    cbn [ResearchAgent.gather_papers flat_map]; [reflexivity |].
  pose proof (Hfound term w) as Hterm.
  destruct (DataAPIs.search_arxiv_papers term 5 w) as [papers w'].
  cbn [fst] in Hterm. subst papers.
  rewrite gather_papers_app. cbn [fst app]. rewrite IH. reflexivity.
Qed.

(** What holds of the articles already there and of those of every feed
    holds of the articles of the scan. *)
Lemma scan_feeds_invariant (P : Article.t -> Prop)
  (feeds : list (string * string)) (query : string)
  (articles : list Article.t) (w : W) :
  Forall P articles ->
  (forall feed_name feed_url entries w0 entry,
      In (feed_name, feed_url) feeds ->
      fst (feedparser_parse feed_url w0) = Ok entries ->
      In entry entries ->
      DataAPIs.entry_matches query entry = true ->
      P (DataAPIs.article_of feed_name entry)) ->
  Forall P (fst (DataAPIs.scan_feeds feeds query articles w)).
Proof.
  revert articles w.
  induction feeds as [| [feed_name feed_url] feeds IH];
    intros articles w Hold Hnew; cbn [DataAPIs.scan_feeds].
  - exact Hold.
  - destruct (feedparser_parse feed_url w) as [[entries | e] w'] eqn:Hparse.
    + apply IH.
      * apply Forall_app. split; [exact Hold |].
        apply Forall_forall. intros article Hin.
        apply in_map_iff in Hin. destruct Hin as (entry & <- & Hin).
        apply filter_In in Hin. destruct Hin as [Hin Hmatch].
        apply (Hnew feed_name feed_url entries w entry);
          [left; reflexivity | rewrite Hparse; reflexivity | exact Hin
          | exact Hmatch].
      * intros name url entries0 w0 entry Hin. apply Hnew. right. exact Hin.
    + apply IH; [exact Hold |].
      intros name url entries0 w0 entry Hin. apply Hnew. right. exact Hin.
Qed.

(** X5. Every article that the news search returns comes from an entry of
    one of the four feeds, fetched without error, in whose lowercased title
    and summary a lowercased word of the query occurs; its source is the
    name of that feed and its description has at most 300 characters. *)
Theorem X5_news_articles_match (query : string) (days_back : nat) (w : W)
  (article : Article.t) :
  In article (fst (DataAPIs.search_news query days_back w)) ->
  length (Article.description article) <= 300
  /\ exists (feed_url : string) (entries : list FeedEntry.t)
       (entry : FeedEntry.t) (w0 : W),
       In (Article.source article, feed_url) DataAPIs.rss_feeds
       /\ fst (feedparser_parse feed_url w0) = Ok entries
       /\ In entry entries
       /\ DataAPIs.entry_matches query entry = true
       /\ article = DataAPIs.article_of (Article.source article) entry.
Proof.
  unfold DataAPIs.search_news, DataAPIs._get_rss_news.
  pose proof (@scan_feeds_invariant
                (fun a =>
                   length (Article.description a) <= 300
                   /\ exists feed_url entries entry w0,
                        In (Article.source a, feed_url) DataAPIs.rss_feeds
                        /\ fst (feedparser_parse feed_url w0) = Ok entries
                        /\ In entry entries
                        /\ DataAPIs.entry_matches query entry = true
                        /\ a = DataAPIs.article_of (Article.source a) entry)
                DataAPIs.rss_feeds query [] w (Forall_nil _)) as Hall.
  intros Hin. rewrite Forall_forall in Hall. apply Hall; [| exact Hin].
  intros feed_name feed_url entries w0 entry Hfeed Hparse Hentry Hmatch.
  cbn [DataAPIs.article_of Article.description Article.source].
  split.
  - rewrite length_take. lia.
  - exists feed_url, entries, entry, w0. repeat split; assumption.
Qed.

Lemma scan_feeds_blank (feeds : list (string * string)) (query : string)
  (articles : list Article.t) (w : W) :
  Text.split (Text.lower query) = [] ->
  fst (DataAPIs.scan_feeds feeds query articles w) = articles.
Proof.
  intros Hblank. revert articles w.
  induction feeds as [| [feed_name feed_url] feeds IH]; intros articles w;
    cbn [DataAPIs.scan_feeds]; [reflexivity |].
  destruct (feedparser_parse feed_url w) as [[entries | e] w'];
    rewrite IH; [| reflexivity].
  assert (Hnone : filter (DataAPIs.entry_matches query) entries = []).
  { induction entries as [| entry entries IHe]; [reflexivity |].
    cbn [filter]. unfold DataAPIs.entry_matches at 1. rewrite Hblank.
    cbn [existsb]. exact IHe. }
  rewrite Hnone. apply app_nil_r.
Qed.

(** X6. A query without a word (empty, or white space only) finds no news,
    whatever the feeds hold. *)
Theorem X6_blank_query_finds_no_news (query : string) (days_back : nat)
  (w : W) :
  Text.split (Text.lower query) = [] ->
  fst (DataAPIs.search_news query days_back w) = [].
Proof.
  intros Hblank. apply scan_feeds_blank. exact Hblank.
Qed.

Lemma scan_feeds_flat (fetch : string -> result (list FeedEntry.t))
  (feeds : list (string * string)) (query : string)
  (articles : list Article.t) (w : W) :
  (forall (feed_url : string) (w' : W),
      fst (feedparser_parse feed_url w') = fetch feed_url) ->
  fst (DataAPIs.scan_feeds feeds query articles w)
  = (articles
     ++ flat_map (fun feed =>
                    Summary.feed_articles query (fst feed) (fetch (snd feed)))
                 feeds)%list.
Proof.
  intros Hfetch. revert articles w.
  induction feeds as [| [feed_name feed_url] feeds IH]; intros articles w;
    cbn [DataAPIs.scan_feeds flat_map fst snd].
  - rewrite app_nil_r. reflexivity.
  - pose proof (Hfetch feed_url w) as Hhere.
    destruct (feedparser_parse feed_url w) as [[entries | e] w'];
      cbn [fst] in Hhere; rewrite <- Hhere; cbn [Summary.feed_articles];
      rewrite IH; [rewrite app_assoc |]; reflexivity.
Qed.

(** X7. When what a feed returns does not depend on the world, the news
    search returns, feed after feed in the fixed order of the four feeds,
    the matching entries of every feed that can be fetched: a feed whose
    fetch raises contributes nothing and takes nothing from the others. *)
Theorem X7_news_feed_by_feed (fetch : string -> result (list FeedEntry.t))
  (query : string) (days_back : nat) (w : W) :
  (forall (feed_url : string) (w' : W),
      fst (feedparser_parse feed_url w') = fetch feed_url) ->
  fst (DataAPIs.search_news query days_back w)
  = flat_map (fun feed =>
                Summary.feed_articles query (fst feed) (fetch (snd feed)))
             DataAPIs.rss_feeds.
Proof.
  intros Hfetch. unfold DataAPIs.search_news, DataAPIs._get_rss_news.
  rewrite (@scan_feeds_flat fetch _ _ _ _ Hfetch). reflexivity.
Qed.

Lemma repos_of_length (items : list json) (repos : list Repo.t) :
  DataAPIs.repos_of items = Some repos ->
  List.length repos = List.length items
  /\ forallb Summary.is_object items = true.
Proof.
  revert repos.
  induction items as [| item items IH]; intros repos; cbn [DataAPIs.repos_of].
  - intros [= <-]. split; reflexivity.
  - destruct item; cbn [DataAPIs.repo_of]; try discriminate.
    destruct (DataAPIs.repos_of items) as [rest |]; [| discriminate].
    intros [= <-]. destruct (IH rest eq_refl) as [Hlen Hobj].
    cbn [List.length forallb Summary.is_object andb]. split; [lia | exact Hobj].
Qed.

(** X8. The repository search returns a repository only when the request
    returned, with status 200, a JSON object whose "items" is an array of
    objects; it then returns one repository per item.  A transport error, a
    status other than 200, a body that is no JSON object or an item that is
    no object gives the empty list, never an exception. *)
Theorem X8_repos_only_from_status_200 (query : string) (max_results : nat)
  (w : W) (repo : Repo.t) :
  In repo (fst (DataAPIs.search_github_repos query max_results w)) ->
  exists (response : Response.t) (data : list (string * json))
         (items : list json),
    fst (requests_get "https://api.github.com/search/repositories"
           (SearchParams.make query "updated" "desc" max_results) w)
    = Ok response
    /\ Response.status_code response = 200%Z
    /\ Response.json response = Ok data
    /\ json_get data "items" (JArr []) = JArr items
    /\ forallb Summary.is_object items = true
    /\ List.length (fst (DataAPIs.search_github_repos query max_results w))
       = List.length items.
Proof.
  unfold DataAPIs.search_github_repos, try_total, bind, ret.
  destruct (requests_get _ _ w) as [[response | e] w']; cbn [fst];
    [| intros []].
  unfold DataAPIs.repos_of_response.
  destruct (Response.status_code response =? 200)%Z eqn:Hstatus;
    [| intros []].
  apply Z.eqb_eq in Hstatus.
  destruct (Response.json response) as [data | e] eqn:Hjson; [| intros []].
  destruct (json_get data "items" (JArr [])) as [| | | s | items | members]
    eqn:Hitems; try (intros []).
  - destruct s as [| c s]; intros [].
  - destruct (DataAPIs.repos_of items) as [repos |] eqn:Hrepos; [| intros []].
    cbn [get_or]. intros _.
    destruct (@repos_of_length _ _ Hrepos) as [Hlen Hobj].
    exists response, data, items. repeat split; assumption.
  - destruct members as [| m members]; intros [].
Qed.

End SourcesMore.

(** ** The scores, further *)

Section ScoresMore.
Local Open Scope Q_scope.


Lemma of_nat_S (n : nat) : Num.of_nat (S n) == Num.of_nat n + 1.
Proof.
  unfold Num.of_nat, Qeq. simpl. lia.
Qed.

(** The confidence in the counts of present sources and of records. *)
Lemma calculate_confidence_counts (data : ResearchData.t) :
  ResearchAgent._calculate_confidence data
  == Qmin (Qmin (Num.of_nat (Spec.sourceTypesPresent data) * 0.25) 0.75
           + Qmin (Num.of_nat (List.length (ResearchData.papers data)
                               + List.length (ResearchData.news data)
                               + List.length (ResearchData.github data))
                   * 0.01) 0.25)
          1.0.
Proof.
  unfold ResearchAgent._calculate_confidence, Spec.sourceTypesPresent,
    Spec.count_true.
  destruct data as [[| p papers] [| n news] [| g github]];
    cbn [nonempty ResearchData.papers ResearchData.news ResearchData.github
         filter];
    (apply Q.min_compat; [| reflexivity]);
    (apply Qplus_comp; (apply Q.min_compat; [| reflexivity]));
    (apply Qmult_comp; [| reflexivity]);
    (apply of_nat_eq; cbn [List.length]; lia).
Qed.



(** X10. The confidence is 0 exactly for the bundle without a record, and
    1.0 exactly when each of the three sources has a record and there are
    at least 25 records in all. *)
Theorem X10_confidence_extremes (data : ResearchData.t) :
  let total :=
    (List.length (ResearchData.papers data)
     + List.length (ResearchData.news data)
     + List.length (ResearchData.github data))%nat in
  (ResearchAgent._calculate_confidence data == 0 <-> total = 0%nat)
  /\ (ResearchAgent._calculate_confidence data == 1 <->
      Spec.sourceTypesPresent data = 3%nat /\ (25 <= total)%nat).
Proof.
  intros total. subst total.
  rewrite (calculate_confidence_counts data).
  assert (Hsources : (Spec.sourceTypesPresent data <= 3)%nat
                     /\ (Spec.sourceTypesPresent data
                         <= List.length (ResearchData.papers data)
                            + List.length (ResearchData.news data)
                            + List.length (ResearchData.github data))%nat
                     /\ (Spec.sourceTypesPresent data = 0%nat ->
                         (List.length (ResearchData.papers data)
                          + List.length (ResearchData.news data)
                          + List.length (ResearchData.github data) = 0)%nat)).
  { unfold Spec.sourceTypesPresent, Spec.count_true.
    destruct data as [[| p papers] [| n news] [| g github]];
      cbn [nonempty ResearchData.papers ResearchData.news ResearchData.github
           filter List.length]; repeat split; lia. }
  destruct Hsources as (Hs3 & Hst & Hs0).
  set (s := Spec.sourceTypesPresent data) in *.
  set (t := (List.length (ResearchData.papers data)
             + List.length (ResearchData.news data)
             + List.length (ResearchData.github data))%nat) in *.
  clearbody s t.
  pose proof (of_nat_nonneg s) as Hs_pos.
  pose proof (of_nat_nonneg t) as Ht_pos.
  assert (Hcase : forall n k : nat,
             ((n <= k)%nat <-> Num.of_nat n <= inject_Z (Z.of_nat k))
             /\ ((k <= n)%nat <-> inject_Z (Z.of_nat k) <= Num.of_nat n)).
  { intros n k. unfold Num.of_nat, Qle. simpl. lia. }
  destruct (Hcase s 0%nat) as [Hs0a Hs0b].
  destruct (Hcase s 2%nat) as [Hs2a Hs2b].
  destruct (Hcase s 3%nat) as [Hs3a Hs3b].
  destruct (Hcase t 0%nat) as [Ht0a Ht0b].
  destruct (Hcase t 24%nat) as [Ht24a Ht24b].
  destruct (Hcase t 25%nat) as [Ht25a Ht25b].
  destruct (Hcase s 1%nat) as [Hs1a Hs1b].
  cbn [Z.of_nat Pos.of_succ_nat Pos.succ] in *. unfold inject_Z in *.
  split; split.
  - intros Hzero.
    destruct (Nat.eq_dec t 0) as [Hz | Hnz]; [exact Hz | exfalso].
    assert (H1s : (1 <= s)%nat) by (destruct s; [specialize (Hs0 eq_refl) |]; lia).
    apply Hs1b in H1s. revert Hzero. split_minmax. lra.
  - intros ->. assert (Hs : s = 0%nat) by lia. subst s.
    vm_compute. reflexivity.
  - intros Hone.
    assert (Hs : s = 3%nat).
    { destruct (Nat.eq_dec s 3) as [Hz | Hnz]; [exact Hz | exfalso].
      assert (H2 : (s <= 2)%nat) by lia. apply Hs2a in H2.
      revert Hone. split_minmax. lra. }
    split; [exact Hs |].
    destruct (le_lt_dec 25 t) as [Hge | Hlt]; [exact Hge | exfalso].
    assert (H24 : (t <= 24)%nat) by lia. apply Ht24a in H24.
    revert Hone. split_minmax. lra.
  - intros [-> Hge]. apply Ht25b in Hge.
    assert (H3 : Num.of_nat 3 == 3) by reflexivity.
    rewrite H3. revert Hge. generalize (Num.of_nat t). intros q Hge.
    split_minmax. lra.
Qed.

End ScoresMore.

Section QualityMore.
Local Open Scope Q_scope.

Lemma assess_data_quality_closed (raw_data : RawData.t) :
  AnalysisAgent._assess_data_quality raw_data
  == Summary.quality (List.length (Summary.papers_of raw_data))
       (List.length (Summary.news_of raw_data))
       (List.length (Summary.github_of raw_data)).
Proof.
  unfold AnalysisAgent._assess_data_quality, Summary.quality,
    Summary.papers_of, Summary.news_of, Summary.github_of, len.
  destruct (get_or (RawData.papers raw_data) []) as [| p papers],
           (get_or (RawData.news raw_data) []) as [| n news],
           (get_or (RawData.github raw_data) []) as [| g github];
    cbn [nonempty];
    repeat match goal with
           | |- context [Num.of_nat (List.length (?x :: ?xs))] =>
               pose proof (of_nat_nonneg (List.length xs));
               rewrite (of_nat_S (List.length xs));
               generalize dependent (Num.of_nat (List.length xs)); intros
           end;
    change (Num.of_nat (@List.length Paper.t [])) with 0;
    change (Num.of_nat (@List.length Article.t [])) with 0;
    change (Num.of_nat (@List.length Repo.t [])) with 0;
    split_minmax; lra.
Qed.

(** X11. The data quality is [min(0.1 p, 0.4) + min(0.05 n, 0.3) +
    min(0.03 g, 0.3)] for the numbers p, n and g of papers, news and
    repositories, a missing key counting as 0: the tests for empty lists and
    the final clamp to 1.0 change nothing. *)
Theorem X11_data_quality_closed_form (raw_data : RawData.t) :
  AnalysisAgent._assess_data_quality raw_data
  == Summary.quality (List.length (Summary.papers_of raw_data))
       (List.length (Summary.news_of raw_data))
       (List.length (Summary.github_of raw_data)).
Proof.
  exact (assess_data_quality_closed raw_data).
Qed.

(** X12. The data quality is 1.0 exactly when there are at least 4 papers,
    6 news articles and 10 repositories; without any record it is 0. *)
Theorem X12_data_quality_extremes (raw_data : RawData.t) :
  let p := List.length (Summary.papers_of raw_data) in
  let n := List.length (Summary.news_of raw_data) in
  let g := List.length (Summary.github_of raw_data) in
  (AnalysisAgent._assess_data_quality raw_data == 1 <->
   (4 <= p)%nat /\ (6 <= n)%nat /\ (10 <= g)%nat)
  /\ (AnalysisAgent._assess_data_quality raw_data == 0 <->
      p = 0%nat /\ n = 0%nat /\ g = 0%nat).
Proof.
  intros p n g. rewrite (assess_data_quality_closed raw_data). fold p n g.
  clearbody p n g. unfold Summary.quality.
  assert (Hcase : forall a k : nat,
             ((a <= k)%nat <-> Num.of_nat a <= inject_Z (Z.of_nat k))
             /\ ((k <= a)%nat <-> inject_Z (Z.of_nat k) <= Num.of_nat a)).
  { intros a k. unfold Num.of_nat, Qle. simpl. lia. }
  destruct (Hcase p 3%nat) as [Hp3 _]. destruct (Hcase p 4%nat) as [_ Hp4].
  destruct (Hcase n 5%nat) as [Hn5 _]. destruct (Hcase n 6%nat) as [_ Hn6].
  destruct (Hcase g 9%nat) as [Hg9 _]. destruct (Hcase g 10%nat) as [_ Hg10].
  destruct (Hcase p 0%nat) as [Hp0 _]. destruct (Hcase p 1%nat) as [_ Hp1].
  destruct (Hcase n 0%nat) as [Hn0 _]. destruct (Hcase n 1%nat) as [_ Hn1].
  destruct (Hcase g 0%nat) as [Hg0 _]. destruct (Hcase g 1%nat) as [_ Hg1].
  cbn [Z.of_nat Pos.of_succ_nat Pos.succ] in *. unfold inject_Z in *.
  pose proof (of_nat_nonneg p) as Hp. pose proof (of_nat_nonneg n) as Hn.
  pose proof (of_nat_nonneg g) as Hg.
  split; split.
  - intros Hone.
    assert (H4 : (4 <= p)%nat).
    { destruct (le_lt_dec 4 p) as [Hge | Hlt]; [exact Hge | exfalso].
      assert (H3 : (p <= 3)%nat) by lia. apply Hp3 in H3.
      revert Hone. split_minmax. lra. }
    assert (H6 : (6 <= n)%nat).
    { destruct (le_lt_dec 6 n) as [Hge | Hlt]; [exact Hge | exfalso].
      assert (H5 : (n <= 5)%nat) by lia. apply Hn5 in H5.
      revert Hone. split_minmax. lra. }
    assert (H10 : (10 <= g)%nat).
    { destruct (le_lt_dec 10 g) as [Hge | Hlt]; [exact Hge | exfalso].
      assert (H9 : (g <= 9)%nat) by lia. apply Hg9 in H9.
      revert Hone. split_minmax. lra. }
    repeat split; assumption.
  - intros (H4 & H6 & H10).
    apply Hp4 in H4. apply Hn6 in H6. apply Hg10 in H10.
    split_minmax. lra.
  - intros Hzero.
    assert (Hall : (p <= 0)%nat /\ (n <= 0)%nat /\ (g <= 0)%nat).
    { repeat split.
      - destruct (le_lt_dec p 0) as [Hle | Hlt]; [exact Hle | exfalso].
        assert (H1 : (1 <= p)%nat) by lia. apply Hp1 in H1.
        revert Hzero. split_minmax. lra.
      - destruct (le_lt_dec n 0) as [Hle | Hlt]; [exact Hle | exfalso].
        assert (H1 : (1 <= n)%nat) by lia. apply Hn1 in H1.
        revert Hzero. split_minmax. lra.
      - destruct (le_lt_dec g 0) as [Hle | Hlt]; [exact Hle | exfalso].
        assert (H1 : (1 <= g)%nat) by lia. apply Hg1 in H1.
        revert Hzero. split_minmax. lra. }
    lia.
  - intros (-> & -> & ->). vm_compute. reflexivity.
Qed.

End QualityMore.

(** ** The stage agents, further *)

Section StagesMore.
Context {W : Type} {host : Host W} {serializer : Json}.

(** Takes an equation [c s = (Ok b, s')] on a chain of binds apart. *)
Ltac take_apart Hc :=
  repeat
    (let a := fresh "a" in
     let s := fresh "s" in
     let Hfirst := fresh "Hfirst" in
     apply bind_ok in Hc; destruct Hc as (a & s & Hfirst & Hc));
  unfold ret in Hc;
  let Hr := fresh "Hr" in
  let Hw := fresh "Hw" in
  injection Hc as Hr Hw; rewrite <- Hr.

(** What [process_task] returns is what its [try] returns, or the dict of
    the [except] branch. *)
Lemma process_task_cases (c : Stage.call) (w : W) :
  (exists w1 w2 : W,
      Stage.process_task_try c (fst (time_time w)) w1
      = (Ok (fst (Stage.process_task c w)), w2))
  \/ (exists (e : exn) (stamp : string),
         Stage.raises c w e
         /\ fst (Stage.process_task c w)
            = StageResult.failed (Stage.agent_id c)
                (ResearchTask.id (Stage.task c)) (str e) stamp).
Proof.
  rewrite process_task_unfold. unfold try_total.
  destruct (Stage.process_task_try c (fst (time_time w)) (snd (time_time w)))
    as [[r | e] w'] eqn:Htry; cbn [fst].
  - left. exists (snd (time_time w)), w'. exact Htry.
  - right. exists e, (fst (datetime_now w')).
    split; [exists w'; exact Htry | reflexivity].
Qed.

(** X13. In a successful result of the Research stage the counts of
    data_sources_count are the lengths of the three lists of
    raw_data_sources, and confidence_score is the confidence of those
    lists. *)
Theorem X13_research_result_consistent (llm : LanguageBackend W)
  (task : ResearchTask.t) (w : W) :
  let r := fst (ResearchAgent.process_task llm task w) in
  StageResult.error r = None ->
  exists data : ResearchData.t,
    StageResult.raw_data_sources r = Some (RawData.of_research data)
    /\ StageResult.data_sources_count r
       = Some (Counts.make (List.length (ResearchData.papers data))
                 (List.length (ResearchData.news data))
                 (List.length (ResearchData.github data)))
    /\ StageResult.confidence_score r
       = Some (ResearchAgent._calculate_confidence data).
Proof.
  intros r. subst r.
  destruct (process_task_cases (Stage.Research llm task) w)
    as [(w1 & w2 & Htry) | (e & stamp & _ & Hfailed)];
    cbn [Stage.process_task Stage.process_task_try] in *.
  - intros _. unfold ResearchAgent.process_task_try in Htry.
    take_apart Htry. cbn.
    eexists. repeat split.
  - rewrite Hfailed. cbn. discriminate.
Qed.

(** X14. The data quality that the Analysis stage reports for the context
    that [execute_workflow] builds is the quality of the raw data of the
    Research result, and 0 when the Research stage failed. *)
Theorem X14_analysis_quality_from_research (llm : LanguageBackend W)
  (task : ResearchTask.t) (research : StageResult.t) (w : W) :
  let r :=
    fst (AnalysisAgent.process_task llm task
           (Some (ProductionEcosystem.analysis_context research)) w) in
  StageResult.error r = None ->
  StageResult.data_quality_score r
  = Some (AnalysisAgent._assess_data_quality (Summary.raw_data_of research))
  /\ (StageResult.raw_data_sources research = None ->
      exists q : Q, StageResult.data_quality_score r = Some q /\ (q == 0)%Q).
Proof.
  intros r. subst r.
  destruct (process_task_cases
              (Stage.Analysis llm task
                 (Some (ProductionEcosystem.analysis_context research))) w)
    as [(w1 & w2 & Htry) | (e & stamp & _ & Hfailed)];
    cbn [Stage.process_task Stage.process_task_try] in *.
  - intros _. unfold AnalysisAgent.process_task_try in Htry.
    take_apart Htry. cbn.
    split; [reflexivity |].
    intros Hnone. unfold Summary.raw_data_of. rewrite Hnone.
    eexists. split; [reflexivity |]. vm_compute. reflexivity.
  - rewrite Hfailed. cbn. discriminate.
Qed.

(** X15. The Analysis stage never reads the key data_quality_score of its
    context: two contexts that differ in that key only give the same
    result. *)
Theorem X15_analysis_ignores_quality_key (llm : LanguageBackend W)
  (task : ResearchTask.t) (research_data : option string)
  (raw_data : option RawData.t) (q1 q2 : option Q) (w : W) :
  AnalysisAgent.process_task llm task
    (Some (AnalysisAgent.Context.make research_data raw_data q1)) w
  = AnalysisAgent.process_task llm task
      (Some (AnalysisAgent.Context.make research_data raw_data q2)) w.
Proof.
  unfold AnalysisAgent.process_task, AnalysisAgent.process_task_try.
  destruct research_data, raw_data, q1, q2; reflexivity.
Qed.

End StagesMore.

(** ** The metrics of the Environment stage, further *)

Section MetricsMore.
Local Open Scope Q_scope.

Import EnvironmentAgent.

Lemma utilization_cases (total : Q) :
  (if Qlt_le_dec 0 total
   then Qmin (45.0 / total) 1.0
   else Qmin (45.0 / 45.0) 1.0)
  == Summary.utilization total.
Proof.
  unfold Summary.utilization.
  destruct (Qlt_le_dec 0 total) as [Hpos | Hneg].
  - destruct (Qmax_cases total 45.0) as [[Hle E] | [Hge E]].
    + rewrite E.
      assert (Hbig : 1 <= 45.0 / total)
        by (apply Qle_shift_div_l; [exact Hpos | lra]).
      destruct (Qmin_cases (45.0 / total) 1.0) as [[H1 E1] | [H1 E1]];
        rewrite E1; [| reflexivity].
      assert (Hone : 45.0 / total == 1) by lra.
      rewrite Hone. reflexivity.
    + rewrite E. reflexivity.
  - destruct (Qmax_cases total 45.0) as [[Hle E] | [Hge E]].
    + rewrite E. reflexivity.
    + exfalso. lra.
Qed.

Lemma resource_utilization_closed (context : option Context.t) :
  SystemMetrics.resource_utilization (_gather_system_metrics context)
  = Num.round2 (Summary.utilization (Spec.totalElapsed (Spec.prior context))).
Proof.
  apply round2_comp.
  pose proof (total_processing_time_eq context) as Ht.
  transitivity
    (Summary.utilization
       (SystemMetrics.total_processing_time (_gather_system_metrics context)));
    [| unfold Summary.utilization; rewrite Ht; reflexivity].
  clear Ht. unfold _gather_system_metrics.
  cbn [SystemMetrics.total_processing_time SystemMetrics.resource_utilization].
  cbv zeta.
  match goal with
  | |- context [Qlt_le_dec 0 ?t] => generalize t; intros total
  end.
  rewrite <- utilization_cases.
  destruct (Qlt_le_dec 0 total); reflexivity.
Qed.

(** X16. The resource utilization that the Environment stage reports is
    [min(45.0 / max(totalElapsed, 45.0), 1.0)] rounded to two decimals: a
    whole number of hundredths at distance at most 0.005 from that value,
    and the one hundredth nearer than 0.005 to it when there is one.  It is
    1.0 whenever the three prior stages took 45 seconds or less together,
    also when they report no time at all. *)
Theorem X16_resource_utilization_closed_form (context : option Context.t) :
  let elapsed := Spec.totalElapsed (Spec.prior context) in
  let exact := Summary.utilization elapsed in
  let reported :=
    SystemMetrics.resource_utilization (_gather_system_metrics context) in
  (exists z : Z, reported = z # 100)
  /\ exact - 0.005 <= reported <= exact + 0.005
  /\ (forall z : Z,
         exact - 0.005 < z # 100 < exact + 0.005 -> reported = z # 100)
  /\ (elapsed <= 45 -> reported == 1).
Proof.
  intros elapsed exact reported. subst elapsed exact reported.
  rewrite resource_utilization_closed.
  destruct (round2_near
              (Summary.utilization (Spec.totalElapsed (Spec.prior context))))
    as [Hwhole Hnear].
  split; [exact Hwhole |]. split; [exact Hnear |].
  split; [intros z [Hlow Hhigh]; apply round2_nearest; assumption |].
  intros Hle.
  assert (Hone : Summary.utilization (Spec.totalElapsed (Spec.prior context))
                 == 100 # 100).
  { unfold Summary.utilization.
    destruct (Qmax_cases (Spec.totalElapsed (Spec.prior context)) 45.0)
      as [[_ E] | [Hge E]]; rewrite E.
    - vm_compute. reflexivity.
    - assert (E45 : Spec.totalElapsed (Spec.prior context) == 45.0) by lra.
      rewrite E45. vm_compute. reflexivity. }
  rewrite (round2_comp Hone). rewrite round2_hundredths. reflexivity.
Qed.

Lemma api_success_rate_closed (context : option Context.t) :
  SystemMetrics.api_success_rate (_gather_system_metrics context)
  = Num.round2
      (Num.of_nat
         (Summary.sources_with_records
            (Summary.raw_data_of
               (get_or (Context.research
                          (get_or context (Context.make None None None None)))
                       StageResult.empty)))
       / 3).
Proof.
  unfold _gather_system_metrics.
  cbn [SystemMetrics.api_success_rate]. cbv zeta.
  unfold Summary.raw_data_of, Summary.sources_with_records,
    Summary.papers_of, Summary.news_of, Summary.github_of, Spec.count_true.
  change (0 <? 3)%nat with true. cbv iota.
  destruct context as [[[research |] analysis innovation quality] |];
    cbn [get_or Context.research StageResult.raw_data_sources
         StageResult.empty RawData.empty RawData.papers RawData.news
         RawData.github nonempty filter List.length];
    try reflexivity.
  - destruct (StageResult.raw_data_sources research)
      as [[[[| p papers] |] [[| n news] |] [[| g github] |]] |];
      cbn [get_or RawData.papers RawData.news RawData.github RawData.truthy
           RawData.empty list_truthy nonempty filter List.length andb
           Context.truthy];
      reflexivity.
Qed.

(** X17. The API success rate that the Environment stage computes is the
    number of source types with at least one record in the raw data of the
    Research result, divided by 3 and rounded to two decimals: one of 0,
    0.33, 0.67 and 1.0.  It is 0 when the Research result has no raw data,
    as after a failure. *)
Theorem X17_api_success_rate_closed_form (context : option Context.t) :
  let research :=
    get_or (Context.research
              (get_or context (Context.make None None None None)))
           StageResult.empty in
  let k := Summary.sources_with_records (Summary.raw_data_of research) in
  let rate := SystemMetrics.api_success_rate (_gather_system_metrics context) in
  rate = Num.round2 (Num.of_nat k / 3)
  /\ (k <= 3)%nat
  /\ rate == nth k [0; 0.33; 0.67; 1.0] 0.
Proof.
  intros research k rate. subst rate.
  rewrite api_success_rate_closed. fold research. fold k.
  assert (Hk : (k <= 3)%nat).
  { subst k. unfold Summary.sources_with_records, Spec.count_true.
    destruct (nonempty _), (nonempty _), (nonempty _);
      cbn [filter List.length]; lia. }
  clearbody k. clear research.
  split; [reflexivity |]. split; [exact Hk |].
  destruct k as [| [| [| [| k]]]]; try lia; vm_compute; reflexivity.
Qed.

Lemma round2_at_least_half (x : Q) : 0.5 <= x -> x <= 1 -> 0.5 <= Num.round2 x.
Proof.
  intros Hlo Hhi. unfold Num.round2.
  assert (Hr : (50 <= Num.round_half_even (x * 100) <= 100)%Z).
  { apply (@round_half_even_range 50%Z 100%Z);
      [change (inject_Z 50) with 50 | change (inject_Z 100) with 100]; lra. }
  unfold Qle. simpl. lia.
Qed.

Lemma nonemptyErrorCount_prior (context : option Context.t) :
  (Spec.nonemptyErrorCount (Spec.prior context) <= 3)%nat.
Proof.
  unfold Spec.nonemptyErrorCount, Spec.prior, Context.stage_results.
  cbn [filter].
  destruct (error_truthy _), (error_truthy _), (error_truthy _);
    cbn [List.length]; lia.
Qed.

(** X18. The health score is never below 0.5.  When the three prior stages
    took 60 seconds or less together it is 1.0 less 0.1 for every stage
    that failed with a message that is not empty: 1.0, 0.9, 0.8 or 0.7. *)
Theorem X18_health_within_a_minute (context : option Context.t) :
  let health := SystemMetrics.health_score (_gather_system_metrics context) in
  let failures := Spec.nonemptyErrorCount (Spec.prior context) in
  0.5 <= health
  /\ (Spec.totalElapsed (Spec.prior context) <= 60 ->
      health == nth failures [1.0; 0.9; 0.8; 0.7] 0).
Proof.
  intros health failures. subst health.
  rewrite health_score_eq. fold failures.
  pose proof (nonemptyErrorCount_prior context) as Hk. fold failures in Hk.
  clearbody failures.
  pose proof (of_nat_nonneg failures) as Hpos.
  split.
  - unfold Spec.health_for.
    apply round2_at_least_half; split_minmax; lra.
  - intros Hquick.
    assert (Hinner : Spec.health_for (Spec.totalElapsed (Spec.prior context))
                       failures
                     == Spec.health_for 60 failures).
    { unfold Spec.health_for.
      apply Q.max_compat; [| reflexivity].
      destruct (Qmax_cases 0 (Spec.totalElapsed (Spec.prior context) - 60))
        as [[H1 E] | [_ E]]; rewrite E.
      - assert (Hz : Spec.totalElapsed (Spec.prior context) - 60 == 0) by lra.
        rewrite Hz. reflexivity.
      - reflexivity. }
    rewrite (round2_comp Hinner).
    destruct failures as [| [| [| [| k]]]]; try lia; vm_compute; reflexivity.
Qed.

End MetricsMore.

(** ** The orchestrator, further *)

Section WorkflowMore.
Context {W : Type} {host : Host W} {serializer : Json}.

Import ProductionEcosystem.

Lemma try_labels (c : Stage.call) start w r w' :
  Stage.process_task_try c start w = (Ok r, w') ->
  StageResult.agent_id r = Some (Stage.agent_id c)
  /\ StageResult.task_id r = Some (ResearchTask.id (Stage.task c)).
Proof.
  destruct c; cbn [Stage.process_task_try Stage.agent_id Stage.task];
    [unfold ResearchAgent.process_task_try
    |unfold AnalysisAgent.process_task_try
    |unfold InnovationAgent.process_task_try
    |unfold EnvironmentAgent.process_task_try];
    intros Hc;
    repeat (apply bind_ok in Hc; destruct Hc as (? & ? & ? & Hc));
    unfold ret in Hc; injection Hc as <- _; split; reflexivity.
Qed.

Lemma process_task_labels (c : Stage.call) (w : W) :
  StageResult.agent_id (fst (Stage.process_task c w)) = Some (Stage.agent_id c)
  /\ StageResult.task_id (fst (Stage.process_task c w))
     = Some (ResearchTask.id (Stage.task c)).
Proof.
  destruct (process_task_cases c w)
    as [(w1 & w2 & Htry) | (e & stamp & _ & Hfailed)].
  - exact (try_labels _ _ _ Htry).
  - rewrite Hfailed. split; reflexivity.
Qed.

(** Names the result of the next call on the world. *)
Ltac step_call r w Hcall :=
  match goal with
  | |- context [match ?f (world ?s) with _ => _ end] =>
      destruct (f (world s)) as [r w] eqn:Hcall; cbn [world set_world] in *
  | |- context [match ?f ?w0 with _ => _ end] =>
      lazymatch type of w0 with
      | W => destruct (f w0) as [r w] eqn:Hcall; cbn [world set_world] in *
      end
  end.

Ltac all_labelled :=
  repeat (apply Forall_cons; [assumption |]); apply Forall_nil.

Lemma save_results_rows (results : WorkflowResult.t) (s : state W) :
  let inserted :=
    sqlite_insert (WorkflowResult.task_id results) (dumps_results results)
      (world s) in
  completed_tasks (snd (_save_results results s)) = completed_tasks s
  /\ world (snd (_save_results results s)) = snd inserted
  /\ match fst inserted with
     | Ok _ =>
         research_results (snd (_save_results results s))
         = (research_results s
            ++ [Row.make (WorkflowResult.task_id results)
                  (dumps_results results)])%list
     | Raise _ =>
         research_results (snd (_save_results results s)) = research_results s
     end.
Proof.
  unfold _save_results. cbv zeta.
  destruct (sqlite_insert _ _ (world s)) as [[u | e] w]; cbn [fst snd];
    repeat split.
Qed.

Lemma labelled_stage (task : ResearchTask.t) (c : Stage.call) (w : W)
  (name : string) :
  Stage.task c = task ->
  Stage.agent_id c = Summary.agent_of_stage name ->
  Run.labelled task (name, fst (Stage.process_task c w)).
Proof.
  intros <- Hagent. unfold Run.labelled. cbn [fst snd].
  rewrite <- Hagent. apply process_task_labels.
Qed.

(** How the [try] of [execute_workflow] ends, in full. *)
Lemma attempted_outcome (a : agents W) (task : ResearchTask.t) (s : state W) :
  match Workflow.attempted a task s with
  | (Completed results task', s') =>
      Run.completed_as a task s results task' s'
      /\ Forall (Run.labelled task) (WorkflowResult.stages results)
  | (Failed e partial, s') =>
      (exists k : nat,
          k < 4
          /\ map fst (WorkflowResult.stages partial)
             = firstn k Workflow.stage_names)
      /\ Forall (Run.labelled task) (WorkflowResult.stages partial)
      /\ WorkflowResult.task_id partial = ResearchTask.id task
      /\ WorkflowResult.title partial = ResearchTask.title task
      /\ WorkflowResult.workflow_end partial = None
      /\ WorkflowResult.performance_metrics partial = None
  end.
Proof.
  unfold Workflow.attempted, run, execute_workflow_try, attempt, run.
  destruct s as [w0 done rows]. cbn [world set_world].
  step_call workflow_start w1 Hstart. step_call started w2 Hstarted.
  step_call p1 w3 Hp1. destruct p1 as [[] | e];
    [| split; [exists 0; split; [lia | reflexivity] |];
       split; [all_labelled | repeat split]].
  step_call research w4 Hresearch.
  pose proof (@labelled_stage task (Stage.Research (research_agent a) task)
                w3 "research" eq_refl eq_refl) as L1.
  cbn [Stage.process_task] in L1. rewrite Hresearch in L1. cbn [fst] in L1.
  step_call p2 w5 Hp2. destruct p2 as [[] | e];
    [| split; [exists 1; split; [lia | reflexivity] |];
       split; [all_labelled | repeat split]].
  step_call analysis w6 Hanalysis.
  pose proof (@labelled_stage task
                (Stage.Analysis (analysis_agent a) task
                   (Some (analysis_context research)))
                w5 "analysis" eq_refl eq_refl) as L2.
  cbn [Stage.process_task] in L2. rewrite Hanalysis in L2. cbn [fst] in L2.
  step_call p3 w7 Hp3. destruct p3 as [[] | e];
    [| split; [exists 2; split; [lia | reflexivity] |];
       split; [all_labelled | repeat split]].
  step_call innovation w8 Hinnovation.
  pose proof (@labelled_stage task
                (Stage.Innovation (innovation_agent a) task
                   (Some (innovation_context research analysis)))
                w7 "innovation" eq_refl eq_refl) as L3.
  cbn [Stage.process_task] in L3. rewrite Hinnovation in L3. cbn [fst] in L3.
  step_call p4 w9 Hp4. destruct p4 as [[] | e];
    [| split; [exists 3; split; [lia | reflexivity] |];
       split; [all_labelled | repeat split]].
  step_call environment w10 Henvironment.
  pose proof (@labelled_stage task
                (Stage.Environment (environment_agent a) task
                   (Some (env_context research analysis innovation)))
                w9 "environment" eq_refl eq_refl) as L4.
  cbn [Stage.process_task] in L4. rewrite Henvironment in L4. cbn [fst] in L4.
  step_call now w11 Hnow.
  match goal with
  | |- context [_save_results ?res ?st] =>
      pose proof (save_results_rows res st) as (Hsaved & Hworld & Hrows);
      destruct (_save_results res st) as [u s1]
  end.
  cbn [snd world completed_tasks research_results WorkflowResult.task_id
       WorkflowResult.set_performance_metrics WorkflowResult.set_stage
       initial_results] in Hsaved, Hworld, Hrows.
  step_call workflow_end w12 Hend. unfold complete.
  split; [| all_labelled].
  unfold Run.completed_as.
  eexists. exists workflow_end, research, analysis, innovation, environment.
  eexists.
  split; [reflexivity |]. split; [reflexivity |]. split; [reflexivity |].
  split; [reflexivity |]. split; [reflexivity |]. split; [reflexivity |].
  split.
  { exists w3, w5, w7, w9.
    rewrite Hresearch, Hanalysis, Hinnovation, Henvironment. repeat split. }
  split; [reflexivity |].
  unfold set_world. cbn [world completed_tasks research_results].
  rewrite Hsaved. split; [reflexivity |].
  exists w11. cbv zeta. rewrite <- Hworld, Hend. cbn [snd].
  split; [reflexivity | exact Hrows].
Qed.

Lemma attempted_completes (a : agents W) (task : ResearchTask.t)
  (s : state W) :
  (forall (message : string) (w : W),
      exists w' : W, print message w = (Ok tt, w')) ->
  exists results task' s',
    Workflow.attempted a task s = (Completed results task', s').
Proof.
  intros Hprint.
  unfold Workflow.attempted, run, execute_workflow_try, attempt, run.
  destruct s as [w0 done rows]. cbn [world set_world].
  step_call workflow_start w1 Hstart. step_call started w2 Hstarted.
  destruct (Hprint "Gathering real research data from multiple APIs..." w2)
    as [w3 Hp1]. rewrite Hp1. cbn [world set_world].
  step_call research w4 Hresearch.
  destruct (Hprint "Analyzing gathered data with AI insights..." w4)
    as [w5 Hp2]. rewrite Hp2. cbn [world set_world].
  step_call analysis w6 Hanalysis.
  destruct (Hprint "Generating breakthrough innovation opportunities..." w6)
    as [w7 Hp3]. rewrite Hp3. cbn [world set_world].
  step_call innovation w8 Hinnovation.
  destruct (Hprint "Optimizing system environment..." w8) as [w9 Hp4].
  rewrite Hp4. cbn [world set_world].
  step_call environment w10 Henvironment.
  step_call now w11 Hnow.
  match goal with
  | |- context [_save_results ?res ?st] =>
      destruct (_save_results res st) as [u s1]
  end.
  step_call workflow_end w12 Hend. unfold complete.
  eexists. eexists. eexists. reflexivity.
Qed.

Lemma dict_get_in {V : Type} (d : list (string * V)) (key : string) (v : V) :
  dict_get d key = Some v -> In (key, v) d.
Proof.
  induction d as [| [k v0] d IH]; cbn [dict_get]; [discriminate |].
  destruct (String.eqb k key) eqn:Hk.
  - apply String.eqb_eq in Hk. intros [= <-]. subst k. left. reflexivity.
  - intros Hrest. right. apply IH. exact Hrest.
Qed.

(** X19. When standard output never fails, every run of the workflow
    reaches its end, also when stages fail: the result has the four stages
    in order and workflow_success true, no top-level error, and the task,
    marked completed and holding the result, is appended to the history. *)
Theorem X19_run_completes_when_output_works (a : agents W)
  (task : ResearchTask.t) (s : state W) :
  (forall (message : string) (w : W),
      exists w' : W, print message w = (Ok tt, w')) ->
  let results := fst (fst (execute_workflow a task s)) in
  let task' := snd (fst (execute_workflow a task s)) in
  Workflow.success_flag results = Some true
  /\ map fst (WorkflowResult.stages results) = Workflow.stage_names
  /\ WorkflowResult.error results = None
  /\ WorkflowResult.workflow_end results <> None
  /\ ResearchTask.status task' = "completed"
  /\ ResearchTask.results task' = Some results
  /\ completed_tasks (snd (execute_workflow a task s))
     = (completed_tasks s ++ [task'])%list.
Proof.
  intros Hprint results task'. subst results task'.
  rewrite execute_workflow_attempted.
  destruct (attempted_completes a task s Hprint) as (results & task' & s' & Hdone).
  pose proof (attempted_outcome a task s) as Hout.
  rewrite Hdone in *. cbn [fst snd].
  destruct Hout as [(before & stamp & research & analysis & innovation
                     & environment & total & -> & Hend & _ & _ & Hstages
                     & Hmetrics & _ & -> & Hhistory & _) _].
  unfold Workflow.success_flag.
  cbn [WorkflowResult.set_workflow_end WorkflowResult.performance_metrics
       WorkflowResult.stages WorkflowResult.error WorkflowResult.workflow_end
       ResearchTask.status ResearchTask.results].
  rewrite Hmetrics, Hstages.
  repeat split; try reflexivity; try assumption.
  - pose proof (attempted_ending a task s) as Hending.
    rewrite Hdone in Hending. cbn [fst snd] in Hending.
    inversion Hending; subst. assumption.
  - discriminate.
Qed.

(** X20. A run that ends with workflow_success true returns a result with
    the key workflow_end, but what it stores is the serialization of the
    result before that key is written.  When the insert succeeds the table
    gains that one row, under the task's id; when the insert raises the
    table is as before.  The insert is the last call on the world but for
    the reading of the time of workflow_end. *)
Theorem X20_stored_document_lacks_workflow_end (a : agents W)
  (task : ResearchTask.t) (s : state W) :
  let results := fst (fst (execute_workflow a task s)) in
  let s' := snd (execute_workflow a task s) in
  Workflow.success_flag results = Some true ->
  exists (before : WorkflowResult.t) (stamp : string) (w_save : W),
    let row := Row.make (ResearchTask.id task) (dumps_results before) in
    let inserted :=
      sqlite_insert (ResearchTask.id task) (dumps_results before) w_save in
    results = WorkflowResult.set_workflow_end before stamp
    /\ WorkflowResult.workflow_end before = None
    /\ WorkflowResult.workflow_end results = Some stamp
    /\ world s' = snd (datetime_now (snd inserted))
    /\ match fst inserted with
       | Ok _ => research_results s' = (research_results s ++ [row])%list
       | Raise _ => research_results s' = research_results s
       end
    /\ ((forall (task_id document : string) (w : W),
            exists w' : W, sqlite_insert task_id document w = (Ok tt, w')) ->
        research_results s' = (research_results s ++ [row])%list).
Proof.
  intros results s'. subst results s'.
  rewrite execute_workflow_attempted.
  pose proof (attempted_outcome a task s) as Hout.
  destruct (Workflow.attempted a task s) as [[results task' | e partial] s'];
    cbn [fst snd].
  - intros _.
    destruct Hout as [(before & stamp & research & analysis & innovation
                       & environment & total & -> & Hend & _ & _ & _
                       & _ & _ & _ & _ & w_save & Hworld & Hrows) _].
    exists before, stamp, w_save. cbv zeta in *.
    repeat split; try assumption.
    intros Hworks.
    destruct (Hworks (ResearchTask.id task) (dumps_results before) w_save)
      as [w' Hinsert].
    rewrite Hinsert in Hrows. exact Hrows.
  - destruct Hout as (_ & _ & _ & _ & _ & Hnone).
    unfold Workflow.success_flag.
    cbn [WorkflowResult.set_workflow_success WorkflowResult.set_error
         WorkflowResult.performance_metrics].
    rewrite Hnone. discriminate.
Qed.

End WorkflowMore.

Section WorkflowDetails.
Context {W : Type} {host : Host W} {serializer : Json}.

Import ProductionEcosystem.

Lemma has_nil {A : Type} (field : option A) (key : string) :
  StageResult.has field key = [] -> field = None.
Proof.
  destruct field; [discriminate | reflexivity].
Qed.

Lemma no_payload (r : StageResult.t) :
  StageResult.payload_keys r = [] ->
  StageResult.confidence_score r = None
  /\ StageResult.data_sources_count r = None
  /\ StageResult.system_health_score r = None.
Proof.
  unfold StageResult.payload_keys. intros Hkeys.
  repeat match type of Hkeys with
         | (_ ++ _)%list = [] =>
             let Hhead := fresh "Hhead" in
             apply app_eq_nil in Hkeys; destruct Hkeys as [Hhead Hkeys];
             apply has_nil in Hhead
         end.
  repeat split; assumption.
Qed.

(** X21. In a run that reaches its end, a Research stage that returned an
    error is reported in the performance metrics with the confidence 0.8
    and no source counts, and an Environment stage that returned an error
    with the system health 0.96: the defaults of the [get] calls, not
    values computed from data. *)
Theorem X21_failed_stage_reported_with_defaults (a : agents W)
  (task : ResearchTask.t) (s : state W) (metrics : PerformanceMetrics.t) :
  let results := fst (fst (execute_workflow a task s)) in
  WorkflowResult.performance_metrics results = Some metrics ->
  (forall research : StageResult.t,
      dict_get (WorkflowResult.stages results) "research" = Some research ->
      StageResult.error research <> None ->
      PerformanceMetrics.confidence_score metrics = 0.8%Q
      /\ PerformanceMetrics.data_sources_used metrics = None)
  /\ (forall environment : StageResult.t,
         dict_get (WorkflowResult.stages results) "environment"
         = Some environment ->
         StageResult.error environment <> None ->
         PerformanceMetrics.system_health metrics = 0.96%Q).
Proof.
  intros results. subst results.
  rewrite execute_workflow_attempted.
  pose proof (attempted_outcome a task s) as Hout.
  destruct (Workflow.attempted a task s) as [[results task' | e partial] s'];
    cbn [fst snd].
  - destruct Hout as [(before & stamp & research & analysis & innovation
                       & environment & total & -> & _ & _ & _ & Hstages
                       & Hmetrics & Hthreaded & _) _].
    cbn [WorkflowResult.set_workflow_end WorkflowResult.performance_metrics
         WorkflowResult.stages].
    rewrite Hmetrics, Hstages. intros [= <-].
    destruct Hthreaded as (w1 & w2 & w3 & w4 & Hr & _ & _ & He).
    split.
    + intros r. cbn. intros [= <-] Herror.
      pose proof (process_task_exclusive
                    (Stage.Research (research_agent a) task) w1) as Hex.
      cbn [Stage.process_task] in Hex. rewrite <- Hr in Hex.
      destruct Hex as [Hnone | Hkeys]; [contradiction |].
      destruct (no_payload _ Hkeys) as (Hconf & Hcounts & _).
      unfold performance_metrics.
      cbn [PerformanceMetrics.confidence_score
           PerformanceMetrics.data_sources_used].
      rewrite Hconf, Hcounts. split; reflexivity.
    + intros r. cbn. intros [= <-] Herror.
      pose proof (process_task_exclusive
                    (Stage.Environment (environment_agent a) task
                       (Some (env_context research analysis innovation)))
                    w4) as Hex.
      cbn [Stage.process_task] in Hex. rewrite <- He in Hex.
      destruct Hex as [Hnone | Hkeys]; [contradiction |].
      destruct (no_payload _ Hkeys) as (_ & _ & Hhealth).
      unfold performance_metrics. cbn [PerformanceMetrics.system_health].
      rewrite Hhealth. reflexivity.
  - destruct Hout as (_ & _ & _ & _ & _ & Hnone).
    cbn [WorkflowResult.set_workflow_success WorkflowResult.set_error
         WorkflowResult.performance_metrics].
    rewrite Hnone. discriminate.
Qed.

(** X22. A run that an exception ends returns the results of the stages
    that were finished before it, and only those: the keys of its stages
    are the first k of Research, Analysis, Innovation and Environment, for
    a k below 4, and it has no key workflow_end. *)
Theorem X22_failed_run_keeps_finished_stages (a : agents W)
  (task : ResearchTask.t) (s s' : state W) (e : exn)
  (partial : WorkflowResult.t) :
  Workflow.attempted a task s = (Failed e partial, s') ->
  let results := fst (fst (execute_workflow a task s)) in
  WorkflowResult.stages results = WorkflowResult.stages partial
  /\ WorkflowResult.workflow_end results = None
  /\ exists k : nat,
       k < 4
       /\ map fst (WorkflowResult.stages results)
          = firstn k Workflow.stage_names.
Proof.
  intros Hfailed results. subst results.
  rewrite execute_workflow_attempted.
  pose proof (attempted_outcome a task s) as Hout.
  rewrite Hfailed in *. cbn [fst snd].
  destruct Hout as (Hprefix & _ & _ & _ & Hend & _).
  cbn [WorkflowResult.set_workflow_success WorkflowResult.set_error
       WorkflowResult.stages WorkflowResult.workflow_end].
  split; [reflexivity |]. split; [exact Hend | exact Hprefix].
Qed.

(** X23. Whatever the run, the result names the task it is for, and every
    stage result in it, failed or not, carries the id of that task and the
    agent id of its stage, the stage name followed by "_agent". *)
Theorem X23_stage_results_labelled (a : agents W) (task : ResearchTask.t)
  (s : state W) :
  let results := fst (fst (execute_workflow a task s)) in
  WorkflowResult.task_id results = ResearchTask.id task
  /\ WorkflowResult.title results = ResearchTask.title task
  /\ Forall
       (fun stage : string * StageResult.t =>
          In (fst stage) Workflow.stage_names
          /\ StageResult.agent_id (snd stage) = Some (fst stage ++ "_agent")
          /\ StageResult.task_id (snd stage) = Some (ResearchTask.id task))
       (WorkflowResult.stages results).
Proof.
  intros results. subst results.
  rewrite execute_workflow_attempted.
  pose proof (attempted_outcome a task s) as Hout.
  assert (Hnames : forall (stages : list (string * StageResult.t)) (k : nat),
             map fst stages = firstn k Workflow.stage_names ->
             Forall (Run.labelled task) stages ->
             Forall
               (fun stage : string * StageResult.t =>
                  In (fst stage) Workflow.stage_names
                  /\ StageResult.agent_id (snd stage)
                     = Some (fst stage ++ "_agent")
                  /\ StageResult.task_id (snd stage)
                     = Some (ResearchTask.id task))
               stages).
  { intros stages k Hkeys Hlab. rewrite Forall_forall in *.
    intros stage Hin. destruct (Hlab stage Hin) as [Hagent Htask].
    split; [| split; assumption].
    assert (Hfst : In (fst stage) (map fst stages)) by (apply in_map; exact Hin).
    rewrite Hkeys in Hfst.
    revert Hfst. clear. generalize (fst stage). intros name Hin.
    assert (Hsub : forall (A : Type) (n : nat) (l : list A) (x : A),
               In x (firstn n l) -> In x l).
    { intros A n. induction n as [| n IH]; intros [| y l] x; cbn;
        try contradiction.
      intros [-> | Hx]; [left; reflexivity | right; apply IH; exact Hx]. }
    exact (Hsub _ _ _ _ Hin). }
  destruct (Workflow.attempted a task s) as [[results task' | e partial] s'];
    cbn [fst snd].
  - destruct Hout as [(before & stamp & research & analysis & innovation
                       & environment & total & -> & _ & Hid & Htitle
                       & Hstages & _) Hlab].
    cbn [WorkflowResult.set_workflow_end WorkflowResult.task_id
         WorkflowResult.title WorkflowResult.stages] in *.
    split; [exact Hid |]. split; [exact Htitle |].
    apply (Hnames _ 4); [rewrite Hstages; reflexivity | exact Hlab].
  - destruct Hout as ((k & _ & Hkeys) & Hlab & Hid & Htitle & _).
    cbn [WorkflowResult.set_workflow_success WorkflowResult.set_error
         WorkflowResult.task_id WorkflowResult.title WorkflowResult.stages].
    split; [exact Hid |]. split; [exact Htitle |].
    exact (Hnames _ k Hkeys Hlab).
Qed.

Lemma of_Z_inj (x y : Z) : Text.of_Z x = Text.of_Z y -> x = y.
Proof.
  unfold Text.of_Z. intros Heq.
  apply DecimalZ.to_int_inj.
  assert (Hgood : forall z : Z,
             NilZero.int_of_string (NilZero.string_of_int (Z.to_int z))
             = Some (Z.to_int z)).
  { intros z. apply NilZero.isi; destruct z as [| p | p]; cbn;
      try discriminate; intros [= Hnil];
      exact (DecimalPos.Unsigned.to_uint_nonnil p Hnil). }
  pose proof (Hgood x) as Hx. rewrite Heq, Hgood in Hx.
  injection Hx as Hx. symmetry. exact Hx.
Qed.

(** X24. A new task has the id "task_" followed by the whole seconds of
    the clock, the status "pending", the priority 1 and no results; two
    tasks have the same id exactly when they are created within the same
    second, whatever their titles. *)
Theorem X24_task_id_is_the_second (title1 description1 title2 description2
  : string) (w1 w2 : W) :
  let task1 := fst (create_task title1 description1 w1) in
  let task2 := fst (create_task title2 description2 w2) in
  ResearchTask.id task1
  = "task_" ++ Text.of_Z (Num.int (fst (time_time w1)))
  /\ ResearchTask.status task1 = "pending"
  /\ ResearchTask.priority task1 = 1%Z
  /\ ResearchTask.results task1 = None
  /\ (ResearchTask.id task1 = ResearchTask.id task2 <->
      Num.int (fst (time_time w1)) = Num.int (fst (time_time w2))).
Proof.
  intros task1 task2. subst task1 task2. unfold create_task.
  destruct (time_time w1) as [now1 w1']. destruct (datetime_now w1').
  destruct (time_time w2) as [now2 w2']. destruct (datetime_now w2').
  cbn [fst ResearchTask.id ResearchTask.status ResearchTask.priority
       ResearchTask.results].
  repeat split; try reflexivity.
  - intros Hid. cbn in Hid. injection Hid as Hid.
    apply of_Z_inj. exact Hid.
  - intros ->. reflexivity.
Qed.

(** X25. On the Gemini backend the language call never raises, so the
    Analysis, Innovation and Environment stages never return an error,
    whatever their context; the Research stage returns one exactly when no
    search term is derived from the task, and the error is then that of
    the empty list. *)
Theorem X25_gemini_stages_fail_only_without_terms (self : GeminiLLM.t)
  (task : ResearchTask.t) (w : W) :
  (forall context,
      StageResult.error
        (fst (AnalysisAgent.process_task (GeminiLLM.backend self) task
                context w)) = None)
  /\ (forall context,
         StageResult.error
           (fst (InnovationAgent.process_task (GeminiLLM.backend self) task
                   context w)) = None)
  /\ (forall context,
         StageResult.error
           (fst (EnvironmentAgent.process_task (GeminiLLM.backend self) task
                   context w)) = None)
  /\ StageResult.error
       (fst (ResearchAgent.process_task (GeminiLLM.backend self) task w))
     = match ResearchAgent._extract_search_terms (ResearchTask.title task)
               (ResearchTask.description task) with
       | [] => Some "list index out of range"
       | _ :: _ => None
       end.
Proof.
  assert (Hllm : forall prompt w0,
             exists text w1,
               generate_response (GeminiLLM.backend self) prompt w0
               = (Ok text, w1)).
  { intros prompt w0. cbn [GeminiLLM.backend generate_response]. unfold total.
    destruct (GeminiLLM.generate_response self prompt w0) as [text w1].
    exists text, w1. reflexivity. }
  split; [| split; [| split]].
  - intros context. unfold AnalysisAgent.process_task.
    destruct (time_time w) as [start w0].
    unfold try_total, AnalysisAgent.process_task_try, bind, total, ret.
    match goal with
    | |- context [generate_response _ ?p ?w0] =>
        destruct (Hllm p w0) as (text & w1 & ->)
    end.
    destruct (datetime_now w1) as [stamp w2].
    destruct (time_time w2) as [now w3]. reflexivity.
  - intros context. unfold InnovationAgent.process_task.
    destruct (time_time w) as [start w0].
    unfold try_total, InnovationAgent.process_task_try, bind, total, ret.
    match goal with
    | |- context [generate_response _ ?p ?w0] =>
        destruct (Hllm p w0) as (text & w1 & ->)
    end.
    destruct (datetime_now w1) as [stamp w2].
    destruct (time_time w2) as [now w3]. reflexivity.
  - intros context. unfold EnvironmentAgent.process_task.
    destruct (time_time w) as [start w0].
    unfold try_total, EnvironmentAgent.process_task_try, bind, total, ret.
    match goal with
    | |- context [generate_response _ ?p ?w0] =>
        destruct (Hllm p w0) as (text & w1 & ->)
    end.
    destruct (datetime_now w1) as [stamp w2].
    destruct (time_time w2) as [now w3]. reflexivity.
  - unfold ResearchAgent.process_task.
    destruct (time_time w) as [start w0].
    unfold try_total, ResearchAgent.process_task_try.
    pose proof (gather_cases (ResearchTask.title task)
                  (ResearchTask.description task) w0) as Hgather.
    destruct (ResearchAgent._extract_search_terms (ResearchTask.title task)
                (ResearchTask.description task)) as [| term rest].
    + unfold bind. rewrite Hgather.
      unfold ResearchAgent.process_task_except.
      destruct (datetime_now w0). reflexivity.
    + cbv zeta in Hgather. unfold bind at 1. rewrite Hgather.
      unfold bind, total, ret.
      match goal with
      | |- context [generate_response _ ?p ?w0] =>
          destruct (Hllm p w0) as (text & w1 & ->)
      end.
      destruct (datetime_now w1) as [stamp w2].
      destruct (time_time w2) as [now w3]. reflexivity.
Qed.

End WorkflowDetails.

(** ** Instances on the example hosts *)

Section MoreExampleRuns.
Local Open Scope Q_scope.

Import ProductionEcosystem.

Lemma X4_witness :
  (forall (query : string) (w' : Example.world),
      fst (DataAPIs.search_arxiv_papers (host := Busy.host) query 5 w')
      = [DataAPIs.paper_of Example.long_result])
  /\ fst (ResearchAgent.gather_papers (host := Busy.host)
            ["deep learning"; "gpt"] [] Busy.here)
     = [DataAPIs.paper_of Example.long_result;
        DataAPIs.paper_of Example.long_result].
Proof.
  assert (Hfound : forall (query : string) (w' : Example.world),
             fst (DataAPIs.search_arxiv_papers (host := Busy.host) query 5 w')
             = (fun _ => [DataAPIs.paper_of Example.long_result]) query)
    by (intros query w'; reflexivity).
  split; [exact Hfound |].
  exact (X4_papers_concatenated (host := Busy.host)
           (fun _ => [DataAPIs.paper_of Example.long_result])
           ["deep learning"; "gpt"] Busy.here Hfound).
Defined.

Lemma X5_witness :
  let article := DataAPIs.article_of "TechCrunch" Busy.learning in
  In article
     (fst (DataAPIs.search_news (host := Busy.host) "machine learning" 14 Busy.here))
  /\ (length (Article.description article) <= 300)%nat.
Proof.
  intros article.
  assert (Hin : In article
                   (fst (DataAPIs.search_news (host := Busy.host)
                           "machine learning" 14 Busy.here)))
    by (vm_compute; left; reflexivity).
  split; [exact Hin |].
  exact (proj1 (X5_news_articles_match (host := Busy.host)
                  "machine learning" 14 Busy.here article Hin)).
Defined.

Lemma X6_witness :
  Text.split (Text.lower "   ") = []
  /\ fst (DataAPIs.search_news (host := Busy.host) "   " 14 Busy.here) = [].
Proof.
  assert (Hblank : Text.split (Text.lower "   ") = []) by reflexivity.
  split; [exact Hblank |].
  exact (X6_blank_query_finds_no_news (host := Busy.host) "   " 14 Busy.here
           Hblank).
Defined.

Lemma X7_witness :
  (forall (feed_url : string) (w' : Example.world),
      fst (feedparser_parse (Host := Busy.host) feed_url w')
      = Busy.feed feed_url)
  /\ fst (DataAPIs.search_news (host := Busy.host) "machine learning" 14 Busy.here)
     = flat_map
         (fun feed =>
            Summary.feed_articles "machine learning" (fst feed)
              (Busy.feed (snd feed)))
         DataAPIs.rss_feeds.
Proof.
  assert (Hfetch : forall (feed_url : string) (w' : Example.world),
             fst (feedparser_parse (Host := Busy.host) feed_url w')
             = Busy.feed feed_url)
    by (intros feed_url w'; reflexivity).
  split; [exact Hfetch |].
  exact (X7_news_feed_by_feed (host := Busy.host) Busy.feed
           "machine learning" 14 Busy.here Hfetch).
Defined.

Lemma X8_witness :
  let repo :=
    Repo.make (JStr "org/models") JNull (JInt 42) (JStr "") (JStr "")
      (JStr "https://github.com/org/models") in
  In repo
     (fst (DataAPIs.search_github_repos (host := Busy.host) "models" 8 Busy.here))
  /\ exists (response : Response.t) (data : list (string * json))
            (items : list json),
       Response.status_code response = 200%Z
       /\ json_get data "items" (JArr []) = JArr items
       /\ List.length
            (fst (DataAPIs.search_github_repos (host := Busy.host) "models" 8
                    Busy.here))
          = List.length items.
Proof.
  intros repo.
  assert (Hin : In repo
                   (fst (DataAPIs.search_github_repos (host := Busy.host)
                           "models" 8 Busy.here)))
    by (left; reflexivity).
  split; [exact Hin |].
  destruct (X8_repos_only_from_status_200 (host := Busy.host) "models" 8 Busy.here
              repo Hin)
    as (response & data & items & _ & Hstatus & _ & Hitems & _ & Hlength).
  exists response, data, items. repeat split; assumption.
Defined.


Lemma X13_witness :
  let r :=
    fst (ResearchAgent.process_task (host := Busy.host)
           (serializer := Example.json) Busy.gemini Example.task Busy.here) in
  StageResult.error r = None
  /\ exists data : ResearchData.t,
       StageResult.raw_data_sources r = Some (RawData.of_research data)
       /\ StageResult.data_sources_count r
          = Some (Counts.make (List.length (ResearchData.papers data))
                    (List.length (ResearchData.news data))
                    (List.length (ResearchData.github data))).
Proof.
  intros r.
  assert (Hok : StageResult.error r = None) by (vm_compute; reflexivity).
  split; [exact Hok |].
  destruct (X13_research_result_consistent (host := Busy.host)
              (serializer := Example.json) Busy.gemini Example.task Busy.here Hok)
    as (data & Hraw & Hcounts & _).
  exists data. split; assumption.
Defined.

(** Analysis after a Research stage that found three papers, no news and
    one repository (quality 0.33), and after one that failed and so has no
    raw data (quality 0). *)
Lemma X14_witness :
  (let research :=
     fst (ResearchAgent.process_task (host := Busy.host)
            (serializer := Example.json) Busy.gemini Example.task Busy.here) in
   let r :=
     fst (AnalysisAgent.process_task (host := Busy.host) Busy.gemini
            Example.task (Some (analysis_context research)) Busy.here) in
   StageResult.error r = None
   /\ StageResult.data_quality_score r
      = Some (AnalysisAgent._assess_data_quality (Summary.raw_data_of research))
   /\ AnalysisAgent._assess_data_quality (Summary.raw_data_of research)
      == 0.33)
  /\ (let research :=
        StageResult.failed "research_agent" "task_1001"
          "list index out of range" Example.stamp in
      let r :=
        fst (AnalysisAgent.process_task (host := Busy.host) Busy.gemini
               Example.task (Some (analysis_context research)) Busy.here) in
      StageResult.error r = None
      /\ StageResult.raw_data_sources research = None
      /\ exists q : Q, StageResult.data_quality_score r = Some q /\ q == 0).
Proof.
  split.
  - intros research r.
    assert (Hok : StageResult.error r = None) by (vm_compute; reflexivity).
    split; [exact Hok |].
    split.
    + exact (proj1 (X14_analysis_quality_from_research (host := Busy.host)
                      (serializer := Example.json) Busy.gemini Example.task
                      research Busy.here Hok)).
    + vm_compute. reflexivity.
  - intros research r.
    assert (Hok : StageResult.error r = None) by (vm_compute; reflexivity).
    assert (Hnone : StageResult.raw_data_sources research = None)
      by reflexivity.
    split; [exact Hok |]. split; [exact Hnone |].
    exact (proj2 (X14_analysis_quality_from_research (host := Busy.host)
                    (serializer := Example.json) Busy.gemini Example.task
                    research Busy.here Hok) Hnone).
Defined.

(** Three stages that took 2 seconds together, and three that took 70:
    45/70 is 0.642857..., reported as 0.64. *)
Lemma X16_witness :
  (Spec.totalElapsed (Spec.prior (Some Example.silent_failure)) <= 45
   /\ SystemMetrics.resource_utilization
        (EnvironmentAgent._gather_system_metrics (Some Example.silent_failure))
      == 1)
  /\ (Summary.utilization (Spec.totalElapsed (Spec.prior (Some Busy.long_run)))
      - 0.005 < 64 # 100
      < Summary.utilization (Spec.totalElapsed (Spec.prior (Some Busy.long_run)))
        + 0.005
      /\ SystemMetrics.resource_utilization
           (EnvironmentAgent._gather_system_metrics (Some Busy.long_run))
         = 64 # 100).
Proof.
  assert (Hquick : Spec.totalElapsed (Spec.prior (Some Example.silent_failure))
                   <= 45)
    by (vm_compute; discriminate).
  assert (Hnear : Summary.utilization
                    (Spec.totalElapsed (Spec.prior (Some Busy.long_run)))
                  - 0.005 < 64 # 100
                  < Summary.utilization
                      (Spec.totalElapsed (Spec.prior (Some Busy.long_run)))
                    + 0.005)
    by (split; vm_compute; reflexivity).
  destruct (X16_resource_utilization_closed_form (Some Example.silent_failure))
    as (_ & _ & _ & Hone).
  destruct (X16_resource_utilization_closed_form (Some Busy.long_run))
    as (_ & _ & Hnearest & _).
  split; (split; [assumption |]).
  - exact (Hone Hquick).
  - exact (Hnearest 64%Z Hnear).
Defined.

Lemma X18_witness :
  let context :=
    Some (env_context (Example.research_done 1)
            (Example.analysis_failed "backend down")
            (Example.innovation_done 1)) in
  Spec.totalElapsed (Spec.prior context) <= 60
  /\ SystemMetrics.health_score
       (EnvironmentAgent._gather_system_metrics context)
     == 0.9.
Proof.
  intros context.
  assert (Hquick : Spec.totalElapsed (Spec.prior context) <= 60)
    by (vm_compute; discriminate).
  split; [exact Hquick |].
  exact (proj2 (X18_health_within_a_minute context) Hquick).
Defined.

(** The task without a search term on the second host: the Research stage
    fails, the run reaches its end. *)
Lemma output_never_fails :
  forall (message : string) (w : Example.world),
    exists w' : Example.world,
      print (Host := Busy.host) message w = (Ok tt, w').
Proof.
  intros message w. exists w. reflexivity.
Defined.

Lemma X19_witness :
  let run :=
    execute_workflow (host := Busy.host) (serializer := Example.json)
      Busy.agents Example.short_task Example.start in
  (forall (message : string) (w : Example.world),
      exists w' : Example.world,
        print (Host := Busy.host) message w = (Ok tt, w'))
  /\ Workflow.success_flag (fst (fst run)) = Some true
  /\ map fst (WorkflowResult.stages (fst (fst run))) = Workflow.stage_names
  /\ ResearchTask.status (snd (fst run)) = "completed".
Proof.
  intros run. split; [exact output_never_fails |].
  destruct (X19_run_completes_when_output_works (host := Busy.host)
              (serializer := Example.json) Busy.agents Example.short_task
              Example.start output_never_fails)
    as (Hflag & Hnames & _ & _ & Hstatus & _).
  repeat split; assumption.
Defined.

Lemma short_run_succeeds :
  Workflow.success_flag
    (fst (fst (execute_workflow (host := Busy.host)
                 (serializer := Example.json) Busy.agents Example.short_task
                 Example.start)))
  = Some true.
Proof.
  vm_compute. reflexivity.
Defined.

Lemma insert_never_fails :
  forall (task_id document : string) (w : Example.world),
    exists w' : Example.world,
      sqlite_insert (Host := Busy.host) task_id document w = (Ok tt, w').
Proof.
  intros task_id document w. exists w. reflexivity.
Defined.

(** The run stores one row, for the task. *)
Lemma X20_witness :
  let run :=
    execute_workflow (host := Busy.host) (serializer := Example.json)
      Busy.agents Example.short_task Example.start in
  Workflow.success_flag (fst (fst run)) = Some true
  /\ exists (before : WorkflowResult.t) (stamp : string),
       fst (fst run) = WorkflowResult.set_workflow_end before stamp
       /\ WorkflowResult.workflow_end before = None
       /\ research_results (snd run)
          = [Row.make "task_1001"
               (dumps_results (Json := Example.json) before)].
Proof.
  intros run. split; [exact short_run_succeeds |].
  destruct (X20_stored_document_lacks_workflow_end (host := Busy.host)
              (serializer := Example.json) Busy.agents Example.short_task
              Example.start short_run_succeeds)
    as (before & stamp & w_save & Hresults & Hnone & _ & _ & _ & Hstored).
  exists before, stamp.
  split; [exact Hresults |]. split; [exact Hnone |].
  exact (Hstored insert_never_fails).
Defined.

Lemma short_run_reports :
  let results :=
    fst (fst (execute_workflow (host := Busy.host)
                (serializer := Example.json) Busy.agents Example.short_task
                Example.start)) in
  (exists metrics : PerformanceMetrics.t,
      WorkflowResult.performance_metrics results = Some metrics)
  /\ (exists research : StageResult.t,
         dict_get (WorkflowResult.stages results) "research" = Some research
         /\ StageResult.error research <> None).
Proof.
  split.
  - vm_compute. eexists. reflexivity.
  - vm_compute. eexists. split; [reflexivity | discriminate].
Defined.

Lemma X21_witness :
  let results :=
    fst (fst (execute_workflow (host := Busy.host)
                (serializer := Example.json) Busy.agents Example.short_task
                Example.start)) in
  exists (metrics : PerformanceMetrics.t) (research : StageResult.t),
    WorkflowResult.performance_metrics results = Some metrics
    /\ dict_get (WorkflowResult.stages results) "research" = Some research
    /\ StageResult.error research <> None
    /\ PerformanceMetrics.confidence_score metrics = 0.8
    /\ PerformanceMetrics.data_sources_used metrics = None.
Proof.
  intros results.
  destruct short_run_reports as [(metrics & Hmetrics) (research & Hget & Herr)].
  exists metrics, research.
  destruct (proj1 (X21_failed_stage_reported_with_defaults
                     (host := Busy.host) (serializer := Example.json)
                     Busy.agents Example.short_task Example.start
                     Hmetrics) research Hget Herr) as [Hconfidence Hcounts].
  repeat split; assumption.
Defined.

Lemma X22_witness :
  let results :=
    fst (fst (execute_workflow (host := Example.broken)
                (serializer := Example.json) Example.agents Example.task
                Example.start)) in
  WorkflowResult.workflow_end results = None
  /\ exists k : nat,
       (k < 4)%nat
       /\ map fst (WorkflowResult.stages results)
          = firstn k Workflow.stage_names.
Proof.
  intros results.
  destruct example_run_breaks as (partial & s' & Hbreak).
  destruct (X22_failed_run_keeps_finished_stages (host := Example.broken)
              (serializer := Example.json) Example.agents Example.task
              Example.start Hbreak) as (_ & Hend & Hprefix).
  split; [exact Hend | exact Hprefix].
Defined.

End MoreExampleRuns.
